(** * Student-Portal-Backend: authorization, visibility and chat rules

    A shallow embedding of the Express/Mongoose controllers of the
    student portal backend, together with the properties its
    specification states about them.

    Conventions of the embedding.
    - A Mongo [ObjectId] is a [string] (its hexadecimal rendering, which
      is what the controllers compare through [toString()]).  A request
      string that names a document is taken in that rendering, except
      where a controller compares it as a string before a query casts
      it ([removeFromGroup]): there the cast is explicit.
    - A rating and an average are exact rationals ([Q]) in the
      documents; the arithmetic of the code is binary64, and the formula
      of the average is given in both ([meanWith], [ratingMean],
      [Binary64.mean]).
    - A request field ([req.body.x], [req.query.x], [req.params.x]) is an
      [option string]: [None] is JavaScript's [undefined].  A test
      [if (x)] on such a field is [truthy x]: the field is present and is
      not the empty string.
    - A controller is a function from the request and the documents it
      loads to a [Result]: [Err status message] is the thrown
      [ErrorResponse], [Ok status value] the response that was sent.
    - The payload of a response is cut down to what is stated about it;
      where the source answers with a bare success message, the document
      as stored is kept instead.  Text that the source puts between
      double quotes inside a message is given without the quotes.
    - Mongoose schema validation and casting, which run inside
      [Model.create] and [findByIdAndUpdate(.., {runValidators: true})],
      are parameters of the sections that need them. *)

From Stdlib Require Import ZArith QArith Ascii String List Bool Lia.
From Stdlib Require PrimFloat FloatOps SpecFloat Uint63.
From stdpp Require Import base option list strings gmap.
Import ListNotations.

Local Open Scope string_scope.
Local Open Scope list_scope.
Local Open Scope Z_scope.

(** ** JavaScript values used by the controllers *)

Abbreviation ObjectId := string (only parsing).

(** The [role] enum of [models/User.js]. *)
Inductive Role := student | teacher | admin.

#[global] Instance Role_eq_dec : EqDecision Role.
Proof. solve_decision. Defined.

(** A JavaScript number as the filters need it: an integer or [NaN]. *)
Inductive JSNumber := NaN | Num (z : Z).

#[global] Instance JSNumber_eq_dec : EqDecision JSNumber.
Proof. solve_decision. Defined.

(** [if (s)] for a string-valued request field. *)
Definition truthy (v : option string) : bool :=
  match v with
  | None => false
  | Some s => negb (String.eqb s "")
  end.

(** [if (n)] for a number-valued document field ([0] is falsy). *)
Definition truthyNum (v : option Z) : bool :=
  match v with
  | None => false
  | Some z => negb (z =? 0)
  end.

(** *** [parseInt(string)] with no radix argument *)

Definition isWhiteSpace (c : ascii) : bool :=
  let n := nat_of_ascii c in
  (n =? 32)%nat || ((9 <=? n)%nat && (n <=? 13)%nat).

Fixpoint trimStart (s : string) : string :=
  match s with
  | String c s' => if isWhiteSpace c then trimStart s' else s
  | EmptyString => EmptyString
  end.

Definition digitValue (c : ascii) : option Z :=
  let n := Z.of_nat (nat_of_ascii c) in
  if (48 <=? n) && (n <=? 57) then Some (n - 48)
  else if (97 <=? n) && (n <=? 122) then Some (n - 87)
  else if (65 <=? n) && (n <=? 90) then Some (n - 55)
  else None.

Definition digitIn (R : Z) (c : ascii) : option Z :=
  match digitValue c with
  | Some d => if d <? R then Some d else None
  | None => None
  end.

(** The longest prefix of radix-[R] digits, as a number; [None] when the
    prefix is empty. *)
Fixpoint digits (R : Z) (s : string) (acc : option Z) : option Z :=
  match s with
  | String c s' =>
      match digitIn R c with
      | Some d => digits R s' (Some (R * default 0 acc + d))
      | None => acc
      end
  | EmptyString => acc
  end.

Definition stripSign (s : string) : Z * string :=
  match s with
  | String c r =>
      if Ascii.eqb c "-" then (-1, r)
      else if Ascii.eqb c "+" then (1, r)
      else (1, s)
  | EmptyString => (1, s)
  end.

Definition stripPrefix (s : string) : Z * string :=
  match s with
  | String c0 (String c1 r) =>
      if Ascii.eqb c0 "0" && (Ascii.eqb c1 "x" || Ascii.eqb c1 "X")
      then (16, r) else (10, s)
  | _ => (10, s)
  end.

Definition parseInt (s : string) : JSNumber :=
  let '(sign, s1) := stripSign (trimStart s) in
  let '(R, s2) := stripPrefix s1 in
  match digits R s2 None with
  | None => NaN
  | Some z => Num (sign * z)
  end.

(** ** The visibility filter ([utils/filterQuery.js]) *)

Module Query.
(** The part of [req.query] the filter reads. *)
Record t := mk {
  branch : option string;
  year : option string;
  semester : option string;
  subject : option string
}.
End Query.

Module UserData.
(** [{ branch, year, semester }] copied from [req.user]. *)
Record t := mk {
  branch : option string;
  year : option Z;
  semester : option Z
}.
End UserData.

Module Filter.
(** The Mongo filter object; [None] is an absent key. *)
Record t := mk {
  branch : option string;
  year : option JSNumber;
  semester : option JSNumber;
  subject : option string
}.

Definition empty : t := mk None None None None.
End Filter.

Module PYQQuery.
(** [req.query] of the PYQ listing: the common part and the PYQ keys. *)
Record t := mk {
  base : Query.t;
  examType : option string;
  examYear : option string;
  difficulty : option string;
  hasSolution : option string
}.
End PYQQuery.

Module PYQFilter.
Record t := mk {
  base : Filter.t;
  examType : option string;
  examYear : option string;
  difficulty : option string;
  hasSolution : option bool
}.
End PYQFilter.

Definition filterEducationalResources
    (query : Query.t) (userRole : Role) (userData : UserData.t) : Filter.t :=
  let branch :=
    if truthy (Query.branch query) then Query.branch query
    else if bool_decide (userRole = student) && truthy (UserData.branch userData)
         then UserData.branch userData
         else None in
  let year :=
    if truthy (Query.year query)
    then parseInt <$> Query.year query
    else if bool_decide (userRole = student) && truthyNum (UserData.year userData)
         then Num <$> UserData.year userData
         else None in
  let semester :=
    if truthy (Query.semester query)
    then parseInt <$> Query.semester query
    else if bool_decide (userRole = student) && truthyNum (UserData.semester userData)
         then Num <$> UserData.semester userData
         else None in
  let subject :=
    if truthy (Query.subject query) then Query.subject query else None in
  Filter.mk branch year semester subject.

(** ** Documents

    One record per Mongoose schema.  The descriptive fields that the four
    content schemas share (title, description, subject and the
    branch/year/semester scope) are grouped in [Info.t]; the stored file
    in [FileRef.t]. *)

Module User.
Record t := mk {
  _id : ObjectId;
  name : string;
  email : string;
  password : string;
  role : Role;
  branch : option string;
  year : option Z;
  semester : option Z;
  fcmToken : option string;
  isVerified : bool;
  otp : option string
}.

(** [{ branch: req.user.branch, year: req.user.year, semester: req.user.semester }] *)
Definition data (u : t) : UserData.t :=
  UserData.mk (branch u) (year u) (semester u).
End User.

Module Chat.
Record t := mk {
  chatName : string;
  isGroupChat : bool;
  users : list ObjectId;
  groupAdmin : option ObjectId;
  isPublic : bool;
  subject : option ObjectId;
  branch : option string;
  year : option string;
  semester : option string
}.

Definition set_users (us : list ObjectId) (c : t) : t :=
  mk (chatName c) (isGroupChat c) us (groupAdmin c) (isPublic c)
     (subject c) (branch c) (year c) (semester c).

Definition set_groupAdmin (a : ObjectId) (c : t) : t :=
  mk (chatName c) (isGroupChat c) (users c) (Some a) (isPublic c)
     (subject c) (branch c) (year c) (semester c).
End Chat.

Module Attachment.
Record t := mk {
  fileUrl : string;
  filePath : string;
  fileName : string
}.
End Attachment.

Module Message.
Record t := mk {
  _id : ObjectId;
  sender : ObjectId;
  content : string;
  chat : ObjectId;
  readBy : list ObjectId;
  attachments : list Attachment.t;
  isDeleted : bool
}.

Definition set_readBy (r : list ObjectId) (m : t) : t :=
  mk (_id m) (sender m) (content m) (chat m) r (attachments m) (isDeleted m).
End Message.

Module Info.
Record t := mk {
  title : string;
  description : string;
  subject : ObjectId;
  branch : string;
  year : Z;
  semester : Z
}.
End Info.

Module FileRef.
(** [fileUrl], [filePath], [fileType], [fileSize] of a stored upload. *)
Record t := mk {
  fileUrl : string;
  filePath : string;
  fileType : string;
  fileSize : Z
}.
End FileRef.

Module Rating.
Record t := mk {
  rating : Q;
  comment : option string;
  user : ObjectId;
  createdAt : Z
}.
End Rating.

Module Note.
Record t := mk {
  info : Info.t;
  file : FileRef.t;
  uploadedBy : ObjectId;
  isVerified : bool;
  views : Z;
  downloads : Z;
  ratings : list Rating.t;
  averageRating : Q
}.

Definition set_info (i : Info.t) (f : FileRef.t) (n : t) : t :=
  mk i f (uploadedBy n) (isVerified n) (views n) (downloads n)
     (ratings n) (averageRating n).
Definition set_isVerified (b : bool) (n : t) : t :=
  mk (info n) (file n) (uploadedBy n) b (views n) (downloads n)
     (ratings n) (averageRating n).
Definition set_views (v : Z) (n : t) : t :=
  mk (info n) (file n) (uploadedBy n) (isVerified n) v (downloads n)
     (ratings n) (averageRating n).
Definition set_downloads (d : Z) (n : t) : t :=
  mk (info n) (file n) (uploadedBy n) (isVerified n) (views n) d
     (ratings n) (averageRating n).
Definition set_ratings (r : list Rating.t) (n : t) : t :=
  mk (info n) (file n) (uploadedBy n) (isVerified n) (views n)
     (downloads n) r (averageRating n).
Definition set_averageRating (a : Q) (n : t) : t :=
  mk (info n) (file n) (uploadedBy n) (isVerified n) (views n)
     (downloads n) (ratings n) a.
End Note.

Module Comment.
Record t := mk {
  _id : ObjectId;
  text : string;
  user : ObjectId
}.
End Comment.

Module Video.
(** The schema has no [filePath]; in strict mode the [filePath] that
    [createVideo] and [updateVideo] pass is dropped, so [video.filePath]
    reads back as [undefined]. *)
Record t := mk {
  info : Info.t;
  videoUrl : string;
  thumbnailUrl : string;
  isYoutubeVideo : bool;
  youtubeId : option string;
  duration : option Z;
  tags : list string;
  uploadedBy : ObjectId;
  isVerified : bool;
  views : Z;
  likes : Z;
  usersLiked : list ObjectId;
  comments : list Comment.t
}.

Definition set_isVerified (b : bool) (v : t) : t :=
  mk (info v) (videoUrl v) (thumbnailUrl v) (isYoutubeVideo v)
     (youtubeId v) (duration v) (tags v) (uploadedBy v) b (views v)
     (likes v) (usersLiked v) (comments v).
Definition set_views (n : Z) (v : t) : t :=
  mk (info v) (videoUrl v) (thumbnailUrl v) (isYoutubeVideo v)
     (youtubeId v) (duration v) (tags v) (uploadedBy v) (isVerified v) n
     (likes v) (usersLiked v) (comments v).
Definition set_likes (n : Z) (us : list ObjectId) (v : t) : t :=
  mk (info v) (videoUrl v) (thumbnailUrl v) (isYoutubeVideo v)
     (youtubeId v) (duration v) (tags v) (uploadedBy v) (isVerified v)
     (views v) n us (comments v).
Definition set_comments (cs : list Comment.t) (v : t) : t :=
  mk (info v) (videoUrl v) (thumbnailUrl v) (isYoutubeVideo v)
     (youtubeId v) (duration v) (tags v) (uploadedBy v) (isVerified v)
     (views v) (likes v) (usersLiked v) cs.
Definition set_youtubeId (y : option string) (v : t) : t :=
  mk (info v) (videoUrl v) (thumbnailUrl v) (isYoutubeVideo v)
     y (duration v) (tags v) (uploadedBy v) (isVerified v)
     (views v) (likes v) (usersLiked v) (comments v).
End Video.

Module PYQ.
Record t := mk {
  info : Info.t;
  file : FileRef.t;
  examType : string;
  examYear : Z;
  difficulty : string;
  totalMarks : Z;
  duration : Z;
  uploadedBy : ObjectId;
  isVerified : bool;
  hasSolution : bool;
  solutionFileUrl : option string;
  solutionFilePath : option string;
  views : Z;
  downloads : Z
}.

Definition set_isVerified (b : bool) (p : t) : t :=
  mk (info p) (file p) (examType p) (examYear p) (difficulty p)
     (totalMarks p) (duration p) (uploadedBy p) b (hasSolution p)
     (solutionFileUrl p) (solutionFilePath p) (views p) (downloads p).
Definition set_solution (url path : string) (p : t) : t :=
  mk (info p) (file p) (examType p) (examYear p) (difficulty p)
     (totalMarks p) (duration p) (uploadedBy p) (isVerified p) true
     (Some url) (Some path) (views p) (downloads p).
Definition set_views (v : Z) (p : t) : t :=
  mk (info p) (file p) (examType p) (examYear p) (difficulty p)
     (totalMarks p) (duration p) (uploadedBy p) (isVerified p)
     (hasSolution p) (solutionFileUrl p) (solutionFilePath p) v (downloads p).
Definition set_downloads (d : Z) (p : t) : t :=
  mk (info p) (file p) (examType p) (examYear p) (difficulty p)
     (totalMarks p) (duration p) (uploadedBy p) (isVerified p)
     (hasSolution p) (solutionFileUrl p) (solutionFilePath p) (views p) d.
End PYQ.

Module Syllabus.
(** [models/Syllabus.js] declares no [isVerified] path. *)
Record t := mk {
  info : Info.t;
  file : FileRef.t;
  uploadedBy : ObjectId;
  isActive : bool;
  totalMarks : string;
  passingMarks : string;
  examPattern : string;
  units : string;
  referenceBooks : string;
  views : Z;
  downloads : Z
}.

Definition set_views (v : Z) (s : t) : t :=
  mk (info s) (file s) (uploadedBy s) (isActive s) (totalMarks s)
     (passingMarks s) (examPattern s) (units s) (referenceBooks s) v
     (downloads s).
Definition set_downloads (d : Z) (s : t) : t :=
  mk (info s) (file s) (uploadedBy s) (isActive s) (totalMarks s)
     (passingMarks s) (examPattern s) (units s) (referenceBooks s)
     (views s) d.
End Syllabus.

Module Announcement.
Record t := mk {
  title : string;
  content : string;
  postedBy : ObjectId;
  attachments : list Attachment.t;
  priority : string;
  targetAudience : string;
  expiresAt : option string;
  isActive : bool;
  tags : list string
}.
End Announcement.

Module Notification.
(** The argument of a [notifyUsers] call. *)
Record t := mk {
  title : string;
  body : string;
  kind : string;
  targetUsers : list ObjectId
}.
End Notification.

(** ** The database and the controller monad *)

Record DB := mkDB {
  db_users : gmap string User.t;
  db_chats : gmap string Chat.t;
  db_messages : list Message.t;
  db_notes : gmap string Note.t;
  db_videos : gmap string Video.t;
  db_pyqs : gmap string PYQ.t;
  db_syllabi : gmap string Syllabus.t;
  db_announcements : gmap string Announcement.t;
  (** paths present in the upload directory *)
  db_files : gset string;
  (** push messages handed to the Firebase client, oldest first *)
  db_outbox : list Notification.t
}.

Definition emptyDB : DB := mkDB ∅ ∅ [] ∅ ∅ ∅ ∅ ∅ ∅ [].

Definition with_users (f : gmap string User.t → gmap string User.t) (d : DB) : DB :=
  mkDB (f (db_users d)) (db_chats d) (db_messages d) (db_notes d) (db_videos d)
       (db_pyqs d) (db_syllabi d) (db_announcements d) (db_files d) (db_outbox d).
Definition with_chats (f : gmap string Chat.t → gmap string Chat.t) (d : DB) : DB :=
  mkDB (db_users d) (f (db_chats d)) (db_messages d) (db_notes d) (db_videos d)
       (db_pyqs d) (db_syllabi d) (db_announcements d) (db_files d) (db_outbox d).
Definition with_messages (f : list Message.t → list Message.t) (d : DB) : DB :=
  mkDB (db_users d) (db_chats d) (f (db_messages d)) (db_notes d) (db_videos d)
       (db_pyqs d) (db_syllabi d) (db_announcements d) (db_files d) (db_outbox d).
Definition with_notes (f : gmap string Note.t → gmap string Note.t) (d : DB) : DB :=
  mkDB (db_users d) (db_chats d) (db_messages d) (f (db_notes d)) (db_videos d)
       (db_pyqs d) (db_syllabi d) (db_announcements d) (db_files d) (db_outbox d).
Definition with_videos (f : gmap string Video.t → gmap string Video.t) (d : DB) : DB :=
  mkDB (db_users d) (db_chats d) (db_messages d) (db_notes d) (f (db_videos d))
       (db_pyqs d) (db_syllabi d) (db_announcements d) (db_files d) (db_outbox d).
Definition with_pyqs (f : gmap string PYQ.t → gmap string PYQ.t) (d : DB) : DB :=
  mkDB (db_users d) (db_chats d) (db_messages d) (db_notes d) (db_videos d)
       (f (db_pyqs d)) (db_syllabi d) (db_announcements d) (db_files d) (db_outbox d).
Definition with_syllabi (f : gmap string Syllabus.t → gmap string Syllabus.t) (d : DB) : DB :=
  mkDB (db_users d) (db_chats d) (db_messages d) (db_notes d) (db_videos d)
       (db_pyqs d) (f (db_syllabi d)) (db_announcements d) (db_files d) (db_outbox d).
Definition with_announcements
    (f : gmap string Announcement.t → gmap string Announcement.t) (d : DB) : DB :=
  mkDB (db_users d) (db_chats d) (db_messages d) (db_notes d) (db_videos d)
       (db_pyqs d) (db_syllabi d) (f (db_announcements d)) (db_files d) (db_outbox d).
Definition with_files (f : gset string → gset string) (d : DB) : DB :=
  mkDB (db_users d) (db_chats d) (db_messages d) (db_notes d) (db_videos d)
       (db_pyqs d) (db_syllabi d) (db_announcements d) (f (db_files d)) (db_outbox d).
Definition with_outbox (f : list Notification.t → list Notification.t) (d : DB) : DB :=
  mkDB (db_users d) (db_chats d) (db_messages d) (db_notes d) (db_videos d)
       (db_pyqs d) (db_syllabi d) (db_announcements d) (db_files d) (f (db_outbox d)).

(** The outcome of a controller: the value it computed, or the
    [ErrorResponse(message, status)] it threw. *)
Inductive Result (A : Type) : Type :=
| Ok (value : A)
| Err (status : nat) (message : string).
Arguments Ok {A} value.
Arguments Err {A} status message.

(** What [res.status(s).json(v)] sends. *)
Record Response (A : Type) := Respond { status : nat; payload : A }.
Arguments Respond {A} status payload.
Arguments status {A} r.
Arguments payload {A} r.

Definition M (A : Type) : Type := DB → Result A * DB.

Definition ret {A} (a : A) : M A := fun db => (Ok a, db).
Definition throw {A} (st : nat) (msg : string) : M A := fun db => (Err st msg, db).
Definition bind {A B} (m : M A) (k : A → M B) : M B :=
  fun db =>
    match m db with
    | (Ok a, db') => k a db'
    | (Err st msg, db') => (Err st msg, db')
    end.
Definition gets {A} (f : DB → A) : M A := fun db => (Ok (f db), db).
Definition modify (f : DB → DB) : M unit := fun db => (Ok tt, f db).

(** [try { m } catch (error) { console.error(..) }] *)
Definition tryCatch (m : M unit) : M unit :=
  fun db =>
    match m db with
    | (Ok _, db') => (Ok tt, db')
    | (Err _ _, db') => (Ok tt, db')
    end.

(** [if (c) throw new ErrorResponse(msg, st)] *)
Definition throwIf (c : bool) (st : nat) (msg : string) : M unit :=
  if c then throw st msg else ret tt.

#[global] Instance M_ret : MRet M := @ret.
#[global] Instance M_bind : MBind M := fun A B k m => bind m k.

(** [deleteFile(path)]: unlink when present, nothing otherwise. *)
Definition deleteFile (path : string) : M unit :=
  modify (with_files (fun fs => fs ∖ {[ path ]})).

(** [x.toString() === y] on two ids. *)
Definition sameId (a b : ObjectId) : bool := bool_decide (a = b).

(** [array.includes(id)] on a Mongoose array of ids. *)
Definition includes (l : list ObjectId) (x : ObjectId) : bool :=
  bool_decide (x ∈ l).

(** [$addToSet]: append unless already present. *)
Definition addToSet (x : ObjectId) (l : list ObjectId) : list ObjectId :=
  if includes l x then l else l ++ [x].

(** [$addToSet] with [$each]. *)
Definition addEachToSet (xs : list ObjectId) (l : list ObjectId) : list ObjectId :=
  fold_left (fun acc x => addToSet x acc) xs l.

(** [$pull]: drop every occurrence. *)
Definition pull (x : ObjectId) (l : list ObjectId) : list ObjectId :=
  filter (fun y => y ≠ x) l.

(** ** Request bodies *)

(** A body value that the controllers compare with both ['true'] and
    [true] ([isPublic === 'true' || isPublic === true]). *)
Inductive Flag := FlagAbsent | FlagBool (b : bool) | FlagStr (s : string).

Definition flagIsTrue (f : Flag) : bool :=
  match f with
  | FlagBool b => b
  | FlagStr s => String.eqb s "true"
  | FlagAbsent => false
  end.

Module GroupBody.
(** [req.body] of [createGroupChat]; [users] is the array after the
    optional [JSON.parse], [None] when it is missing or not an array. *)
Record t := mk {
  chatName : option string;
  users : option (list ObjectId);
  isPublic : Flag;
  subject : option string;
  branch : option string;
  year : option string;
  semester : option string
}.
End GroupBody.

Module InfoBody.
(** The descriptive fields of a content form, as submitted. *)
Record t := mk {
  title : option string;
  description : option string;
  subject : option string;
  branch : option string;
  year : option string;
  semester : option string
}.
End InfoBody.

Module Upload.
(** [req.fileInfo], set by the upload middleware. *)
Record t := mk {
  url : string;
  path : string;
  originalname : string;
  size : Z
}.
End Upload.

(** [name.split('.').pop()]: the text after the last dot, the whole name
    when there is none. *)
Fixpoint splitPop (acc : string) (s : string) : string :=
  match s with
  | EmptyString => acc
  | String c r =>
      if Ascii.eqb c "." then splitPop r r else splitPop acc r
  end.

Definition fileRefOf (f : Upload.t) : FileRef.t :=
  FileRef.mk (Upload.url f) (Upload.path f)
             (splitPop (Upload.originalname f) (Upload.originalname f))
             (Upload.size f).

(** [s.split(',')] and [tag.trim()] *)
Fixpoint splitComma (cur : string) (s : string) : list string :=
  match s with
  | EmptyString => [cur]
  | String c r =>
      if Ascii.eqb c "," then cur :: splitComma "" r
      else splitComma (cur ++ String c "")%string r
  end.

Definition trimEnd (s : string) : string :=
  String.rev (trimStart (String.rev s)).

Definition trim (s : string) : string := trimEnd (trimStart s).

Definition parseTags (tags : option string) : list string :=
  if truthy tags then trim <$> splitComma "" (default "" tags) else [].

(** [parseInt(x) || d] *)
Definition parseIntOr (x : option string) (d : Z) : Z :=
  match parseInt <$> x with
  | Some (Num z) => if z =? 0 then d else z
  | _ => d
  end.

(** [reduce((acc, item) => acc + item.rating, 0) / ratings.length], with
    the numbers read as exact rationals. *)
Definition ratingSum (rs : list Rating.t) : Q :=
  fold_left (fun acc item => Qplus acc (Rating.rating item)) rs (0 # 1)%Q.

Definition ratingMean (rs : list Rating.t) : Q :=
  Qdiv (ratingSum rs) (inject_Z (Z.of_nat (length rs))).


(** The numbers of the code: IEEE 754 binary64, every sum and the
    quotient rounded to the nearest double. *)
Module Binary64.
Definition count (n : nat) : PrimFloat.float :=
  PrimFloat.of_uint63 (Uint63.of_Z (Z.of_nat n)).


(** The rational that a finite double stands for (0 for the others). *)
Definition exact (x : PrimFloat.float) : Q :=
  match FloatOps.Prim2SF x with
  | SpecFloat.S754_finite s m e =>
      ((if s then -1 else 1) * inject_Z (Z.pos m) * Qpower 2 e)%Q
  | _ => 0%Q
  end.
End Binary64.

(** [NoteSchema.pre('save')] *)
Definition notePreSave (n : Note.t) : Note.t :=
  match Note.ratings n with
  | [] => Note.set_averageRating (0 # 1)%Q n
  | _ :: _ => Note.set_averageRating (ratingMean (Note.ratings n)) n
  end.

(** [$group: { _id: '$chat', count: { $sum: 1 } }], one bucket per chat
    in order of first occurrence. *)
Fixpoint bump (c : ObjectId) (acc : list (ObjectId * nat)) : list (ObjectId * nat) :=
  match acc with
  | [] => [(c, 1%nat)]
  | (c', n) :: rest =>
      if bool_decide (c' = c) then (c', S n) :: rest else (c', n) :: bump c rest
  end.

Definition groupByChat (ms : list Message.t) : list (ObjectId * nat) :=
  fold_left (fun acc m => bump (Message.chat m) acc) ms [].

Module Unread.
(** The payload of [getUnreadCount]. *)
Record t := mk {
  totalUnread : nat;
  unreadByChat : gmap string nat
}.
End Unread.

Module MessagePage.
Record t := mk {
  count : nat;
  data : list Message.t
}.
End MessagePage.

Module RatingBody.
(** [req.body] of [addRating]; the rating is a JSON number. *)
Record t := mk { rating : option Q; comment : option string }.
End RatingBody.

Module VideoBody.
Record t := mk {
  info : InfoBody.t;
  tags : option string;
  youtubeUrl : option string
}.
End VideoBody.

Module PYQBody.
Record t := mk {
  info : InfoBody.t;
  examType : option string;
  examYear : option string;
  difficulty : option string;
  totalMarks : option string;
  duration : option string
}.
End PYQBody.

Module SyllabusBody.
Record t := mk {
  info : InfoBody.t;
  totalMarks : option string;
  passingMarks : option string;
  examPattern : option string;
  units : option string;
  referenceBooks : option string;
  isActive : Flag
}.
End SyllabusBody.

Module AnnouncementBody.
Record t := mk {
  title : option string;
  content : option string;
  priority : option string;
  targetAudience : option string;
  expiresAt : option string;
  isActive : Flag;
  tags : option string
}.
End AnnouncementBody.

Module RegisterBody.
Record t := mk {
  name : option string;
  email : option string;
  phone : option string;
  password : option string;
  role : option string;
  branch : option string;
  year : option string;
  semester : option string;
  rollNumber : option string
}.
End RegisterBody.

(** Mongoose's cast to a [Boolean] path; [None] is a CastError. *)
Definition castBoolean (f : Flag) : option bool :=
  match f with
  | FlagBool b => Some b
  | FlagStr s =>
      if String.eqb s "true" || String.eqb s "1" || String.eqb s "yes" then Some true
      else if String.eqb s "false" || String.eqb s "0" || String.eqb s "no" then Some false
      else None
  | FlagAbsent => None
  end.

(** [note.ratings.find(r => r.user.toString() === uid)] followed by the
    in-place update of the rating that was found. *)
Fixpoint rateExisting (uid : ObjectId) (rating : Q) (comment : option string)
    (now : Z) (rs : list Rating.t) : option (list Rating.t) :=
  match rs with
  | [] => None
  | r :: rest =>
      if sameId (Rating.user r) uid
      then Some (Rating.mk rating
                   (if truthy comment then comment else Rating.comment r)
                   (Rating.user r) now :: rest)
      else cons r <$> rateExisting uid rating comment now rest
  end.

(** ** Strings as JavaScript handles them *)

(** [s.includes(sub)] *)
Fixpoint strIncludes (s sub : string) : bool :=
  String.prefix sub s
  || match s with
     | String _ r => strIncludes r sub
     | EmptyString => false
     end.

(** [s.toLowerCase()]; the strings of the embedding are ASCII. *)
Definition lowerChar (c : ascii) : ascii :=
  let n := nat_of_ascii c in
  if (65 <=? n)%nat && (n <=? 90)%nat then ascii_of_nat (n + 32) else c.

Fixpoint toLowerCase (s : string) : string :=
  match s with
  | String c r => String (lowerChar c) (toLowerCase r)
  | EmptyString => EmptyString
  end.

(** [s.split(sep)] for a one-character separator. *)
Fixpoint splitChar (sep : ascii) (cur : string) (s : string) : list string :=
  match s with
  | EmptyString => [cur]
  | String c r =>
      if Ascii.eqb c sep then cur :: splitChar sep "" r
      else splitChar sep (cur ++ String c "")%string r
  end.

(** [parts.join(sep)] *)
Fixpoint join (sep : string) (parts : list string) : string :=
  match parts with
  | [] => ""
  | [p] => p
  | p :: rest => (p ++ sep ++ join sep rest)%string
  end.

(** ** The upload middleware ([middlewares/upload.js]) *)

(** The [destination] callback of the disk storage. *)
Definition destination (originalUrl : string) : string :=
  ("uploads/" ++
   (if strIncludes originalUrl "/notes" then "notes/"
    else if strIncludes originalUrl "/syllabus" then "syllabus/"
    else if strIncludes originalUrl "/videos" then "videos/"
    else if strIncludes originalUrl "/pyq" then "pyqs/"
    else "misc/"))%string.

(** [allowedTypes] of [fileFilter]. *)
Definition allowedTypes (originalUrl : string) : list string :=
  if strIncludes originalUrl "/notes"
  then [".pdf"; ".doc"; ".docx"; ".ppt"; ".pptx"; ".txt"]
  else if strIncludes originalUrl "/syllabus" then [".pdf"; ".doc"; ".docx"]
  else if strIncludes originalUrl "/videos" then [".mp4"; ".mov"; ".avi"; ".wmv"]
  else if strIncludes originalUrl "/pyq" then [".pdf"; ".doc"; ".docx"]
  else [".pdf"; ".doc"; ".docx"; ".jpg"; ".jpeg"; ".png"; ".gif"].

(** [getSizeLimit], in bytes. *)
Definition getSizeLimit (originalUrl : string) : Z :=
  if strIncludes originalUrl "/videos" then 200 * 1024 * 1024
  else if strIncludes originalUrl "/notes" || strIncludes originalUrl "/syllabus"
          || strIncludes originalUrl "/pyq"
       then 20 * 1024 * 1024
       else 5 * 1024 * 1024.

Module MulterFile.
(** [req.file] as multer leaves it. *)
Record t := mk {
  originalname : string;
  path : string;
  size : Z
}.
End MulterFile.

(** How a multer pass ended: with a [MulterError], with another error
    (given with the status the error middleware answers it with; the
    [ErrorResponse] of [fileFilter] arrives this way), or without error,
    [req.file] being the file it stored, if any. *)
Inductive Multer :=
| MulterError (message : string)
| UploadError (status : nat) (message : string)
| Parsed (file : option MulterFile.t).

Module Request.
(** The two fields the upload middlewares add to [req]. *)
Record t := mk {
  fileInfo : option Upload.t;
  solutionFileInfo : option Upload.t
}.

Definition empty : t := mk None None.
Definition set_fileInfo (f : option Upload.t) (r : t) : t := mk f (solutionFileInfo r).
Definition set_solutionFileInfo (f : option Upload.t) (r : t) : t := mk (fileInfo r) f.
End Request.

(** [path.replace(/\\/g, '/')] *)
Fixpoint slashes (s : string) : string :=
  match s with
  | String c r => String (if Ascii.eqb c "\" then "/"%char else c) (slashes r)
  | EmptyString => EmptyString
  end.

(** [req.fileInfo] built from [req.file]; [origin] is
    [req.protocol + '://' + req.get('host')]. *)
Definition fileInfoOf (origin : string) (f : MulterFile.t) : Upload.t :=
  Upload.mk (origin ++ "/" ++ slashes (MulterFile.path f))%string
            (MulterFile.path f) (MulterFile.originalname f) (MulterFile.size f).

(** [uploadSingle(fieldName)].  A file that multer reports has been
    written to the upload directory under its [path]. *)
Definition uploadSingle (origin : string) (m : Multer) (req : Request.t) : M Request.t :=
  match m with
  | MulterError message => throw 400 ("Upload error: " ++ message)
  | UploadError st message => throw st message
  | Parsed (Some f) =>
      modify (with_files (fun fs => fs ∪ {[ MulterFile.path f ]}));;
      mret (Request.set_fileInfo (Some (fileInfoOf origin f)) req)
  | Parsed None => mret req
  end.

(** A multer pass for several files ([upload.array]) and
    [uploadMultiple(fieldName, maxCount)]: [req.filesInfo], empty when no
    file came. *)
Inductive MulterArray :=
| ArrayMulterError (message : string)
| ArrayUploadError (status : nat) (message : string)
| ParsedArray (files : list MulterFile.t).

Definition uploadMultiple (origin : string) (m : MulterArray) : M (list Upload.t) :=
  match m with
  | ArrayMulterError message => throw 400 ("Upload error: " ++ message)
  | ArrayUploadError st message => throw st message
  | ParsedArray files =>
      modify (with_files (fun fs => fs ∪ list_to_set (MulterFile.path <$> files)));;
      mret (fileInfoOf origin <$> files)
  end.

(** What two multer passes over one request find.  A request that is
    not multipart is handed on by multer as it is, at each pass.  On a
    multipart request the first pass reads the body to its end; a second
    pass finds nothing left to read and ends in an error (busboy's
    'Unexpected end of form'), given here by the status and the message
    of the response. *)
Inductive TwoPasses :=
| NotMultipart
| Multipart (first : Multer) (status : nat) (message : string).

Definition firstPass (p : TwoPasses) : Multer :=
  match p with
  | NotMultipart => Parsed None
  | Multipart first _ _ => first
  end.

Definition secondPass (p : TwoPasses) : Multer :=
  match p with
  | NotMultipart => Parsed None
  | Multipart _ status message => UploadError status message
  end.

(** [handlePYQFiles] of [routes/pyqRoutes.js]: the question file, then,
    when the form says [hasSolution === 'true'], a second pass over the
    same request for the solution file. *)
Definition handlePYQFiles (origin : string) (hasSolution : option string)
    (passes : TwoPasses) (req : Request.t) : M Request.t :=
  req ← uploadSingle origin (firstPass passes) req;
  let questionFileInfo := Request.fileInfo req in
  if bool_decide (hasSolution = Some "true")
  then
    req ← uploadSingle origin (secondPass passes) req;
    let req := Request.set_fileInfo questionFileInfo req in
    let req := Request.set_solutionFileInfo (Request.fileInfo req) req in
    mret req
  else mret req.

(** ** The authorization middlewares ([middlewares/authMiddleware.js])

    [req.user] is the user that [protect] loaded.  A middleware that
    answers the request itself is rendered as the error with the status
    and the message of its response. *)

Definition roleName (r : Role) : string :=
  match r with
  | student => "student"
  | teacher => "teacher"
  | admin => "admin"
  end.

Definition authorize (roles : list Role) (user : User.t) : M unit :=
  throwIf (negb (bool_decide (User.role user ∈ roles))) 403
          ("User role " ++ roleName (User.role user)
           ++ " is not authorized to access this route").

Definition isVerified (user : User.t) : M unit :=
  throwIf (negb (User.isVerified user)) 403
          "Please verify your account to access this route".

(** ** Subjects ([models/Subject.js]) *)

Module Subject.
Record t := mk {
  name : string;
  code : string;
  description : string;
  branch : string;
  year : Z;
  semester : Z;
  credits : Z;
  teachers : list ObjectId;
  isElective : bool;
  isActive : bool
}.
End Subject.

From Stdlib Require Import DecimalString Lqa.

(** A number inside a template literal: a count in decimal. *)
Definition showNat (n : nat) : string := NilZero.string_of_uint (Nat.to_uint n).

(** [Model.countDocuments(filter)] *)
Definition countDocuments {A} (P : A → bool) (m : gmap string A) : nat :=
  size (filter (fun kv => P kv.2 = true) m).

(** The [branch] enums of the schemas: users on one side, notes, videos,
    PYQs, syllabi, subjects and chats on the other. *)
Definition userBranches : list string :=
  ["Computer Science"; "ECE"; "ME"; "CE"; "EE"; "CHE"; "BT"; "Other"].
Definition contentBranches : list string :=
  ["CSE"; "ECE"; "ME"; "CE"; "EE"; "CHE"; "BT"; "Other"].

Module CreateUserBody.
(** [req.body] of the admin's [createUser]. *)
Record t := mk {
  name : option string;
  email : option string;
  password : option string;
  role : option string;
  branch : option string
}.
End CreateUserBody.

Module UpdateUserBody.
(** [req.body] of the admin's [updateUser]; [phone] is not a field of
    [User.t]. *)
Record t := mk {
  name : option string;
  email : option string;
  role : option string;
  branch : option string;
  year : option string;
  semester : option string;
  isVerified : Flag;
  password : option string
}.
End UpdateUserBody.

Module UserUpdate.
(** [updateFields] of [updateUser] after the casts: the paths that are
    set. *)
Record t := mk {
  name : option string;
  email : option string;
  role : option Role;
  branch : option string;
  year : option Z;
  semester : option Z;
  isVerified : option bool;
  password : option string
}.
End UserUpdate.

(** The [role] path of the user schema: [default: 'student'] when the
    value is absent, the enum otherwise; [None] is a validation error. *)
Definition castRole (r : option string) : option Role :=
  match r with
  | None => Some student
  | Some s =>
      if String.eqb s "student" then Some student
      else if String.eqb s "teacher" then Some teacher
      else if String.eqb s "admin" then Some admin
      else None
  end.

(** [branch], [year] and [semester] are [required] exactly for a
    student ([required: function() { return this.role === 'student' }]). *)
Definition requiredForStudent (u : User.t) : bool :=
  negb (bool_decide (User.role u = student))
  || (bool_decide (User.branch u ≠ None) && bool_decide (User.year u ≠ None)
      && bool_decide (User.semester u ≠ None)).

(** ** The topic filter ([utils/topicFilter.js]) *)

Definition academicKeywords : list string :=
  [ "syllabus"; "notes"; "pyq"; "exam"; "question"; "study"; "topic"; "subject";
    "chapter"; "lecture"; "assignment"; "homework"; "quiz"; "test"; "course";
    "semester"; "year"; "branch"; "department"; "faculty"; "professor"; "teacher";
    "student"; "class"; "grade"; "mark"; "score"; "assessment"; "evaluation";
    "curriculum"; "module"; "unit"; "practical"; "theory"; "lab"; "tutorial";
    "reference"; "book"; "material"; "resource"; "learning"; "education";
    "data structure"; "algorithm"; "computer science"; "programming";
    "memory management";
    "stack"; "queue"; "linked list"; "tree"; "graph"; "sorting"; "searching" ].

Definition isAcademicQuery (query : string) : bool :=
  let normalizedQuery := toLowerCase query in
  existsb (fun keyword => strIncludes normalizedQuery keyword) academicKeywords.

Definition getQueryContext (query : string) : string :=
  let normalizedQuery := toLowerCase query in
  if strIncludes normalizedQuery "syllabus" then "syllabus"
  else if strIncludes normalizedQuery "notes" then "notes"
  else if strIncludes normalizedQuery "pyq" || strIncludes normalizedQuery "previous year"
       then "pyq"
       else "general".

(** The line feed of the template literals. *)
Definition nl : string := String (ascii_of_nat 10) EmptyString.

(** [if (context)] tests a string: the empty one is falsy. *)
Definition generateContextAwarePrompt (query context contextType : string) : string :=
  let prompt :=
    ("As an academic assistant, help with the following query: " ++ query ++ nl ++ nl)%string in
  let prompt :=
    if negb (String.eqb context "")
    then (prompt ++ "Context (" ++ contextType ++ "):" ++ nl ++ context ++ nl ++ nl)%string
    else prompt in
  (prompt ++
   (if String.eqb contextType "syllabus"
    then "Focus on curriculum structure, topic importance, and study planning."
    else if String.eqb contextType "notes"
    then "Focus on concept explanation, examples, and key points."
    else if String.eqb contextType "pyq"
    then "Focus on solution approach, important concepts, and exam patterns."
    else "Provide academic-focused guidance."))%string.

(** ** The assistant ([services/aiService.js])

    [textGeneration] is the call of the Hugging Face client: the
    [generated_text] of its response, or [None] when the call, or the
    reading of the response, throws.  The queries are strings. *)

Definition tryHuggingFace (textGeneration : string → option string) (prompt : string)
    : option string :=
  trim <$> textGeneration prompt.

(** [for (const service of services)]: the first service that does not
    throw answers. *)
Fixpoint firstResponse (services : list (string → option string)) (prompt : string)
    : option string :=
  match services with
  | [] => None
  | fn :: services =>
      match fn prompt with
      | Some response => Some response
      | None => firstResponse services prompt
      end
  end.

Definition getCompletion (textGeneration : string → option string)
    (query context contextType : string) : string :=
  if negb (isAcademicQuery query)
  then "Sorry, I can only assist with syllabus, notes, or previous year questions."
  else
    let prompt := generateContextAwarePrompt query context contextType in
    let services := [tryHuggingFace textGeneration] in
    match firstResponse services prompt with
    | Some response => response
    | None => "Sorry, I am currently unable to process your request. Please try again later."
    end.

(** [aiService.analyzeSyllabus]: the [text] of the object it returns.
    [getCompletion] does not throw, so the [catch] is not rendered. *)
Definition analyzeSyllabusPrompt (syllabusText : string) : string :=
  ("Analyze this syllabus and provide:" ++ nl ++
   "    1. Key topics and their importance" ++ nl ++
   "    2. Recommended study approach" ++ nl ++
   "    3. Potential challenging areas" ++ nl ++
   "    4. Estimated time needed for each unit" ++ nl ++
   "    5. Suggested supplementary resources" ++ nl ++
   nl ++
   "    Syllabus:" ++ nl ++
   "    " ++ syllabusText)%string.

Definition analyzeSyllabus (textGeneration : string → option string)
    (syllabusText : string) : string :=
  getCompletion textGeneration (analyzeSyllabusPrompt syllabusText) "" "syllabus".

Definition clearDoubt (textGeneration : string → option string)
    (question contentText contentType : string) : string :=
  if negb (isAcademicQuery question)
  then "Sorry, I can only help with academic-related doubts."
  else getCompletion textGeneration question contentText contentType.

(** [branch], [year] and [semester] as the template literal prints
    them. *)
Definition studyRecommendationsPrompt (branch year semester : string) : string :=
  ("Generate study recommendations for a " ++ year ++ "rd year " ++ branch
   ++ " student in semester " ++ semester ++ ". Include:" ++ nl ++
   "    1. Recommended study schedule" ++ nl ++
   "    2. Key subjects to focus on" ++ nl ++
   "    3. Preparation strategy" ++ nl ++
   "    4. Resource recommendations" ++ nl ++
   "    5. Career development tips")%string.

Definition getStudyRecommendations (textGeneration : string → option string)
    (branch year semester : string) : string :=
  getCompletion textGeneration (studyRecommendationsPrompt branch year semester) "" "general".

(** ** Pagination ([utils/filterQuery.js], [utils/formatData.js]) *)

(** [parseInt(s, 10)]: no hexadecimal prefix is recognised. *)
Definition parseInt10 (s : string) : JSNumber :=
  let '(sign, s1) := stripSign (trimStart s) in
  match digits 10 s1 None with
  | None => NaN
  | Some z => Num (sign * z)
  end.

(** [parseInt(x, 10) || d], [x] being [undefined] when absent. *)
Definition parseInt10Or (x : option string) (d : Z) : Z :=
  match parseInt10 <$> x with
  | Some (Num z) => if z =? 0 then d else z
  | _ => d
  end.

Module Page.
(** The [pagination] that [advancedFilter] returns beside the query. *)
Record t := mk { page : Z; limit : Z; skip : Z }.
End Page.

(** The pagination part of [advancedFilter]. *)
Definition advancedFilter_pagination (page limit : option string) : Page.t :=
  let page := parseInt10Or page 1 in
  let limit := parseInt10Or limit 25 in
  let skip := (page - 1) * limit in
  Page.mk page limit skip.

(** The quotient of two integers, rounded up: an integer, an infinity
    or [NaN]. *)
Inductive Quotient := QNaN | QInfinity (negative : bool) | QInt (z : Z).

(** [Math.ceil(a / b)] on integers. *)
Definition ceilDiv (a b : Z) : Quotient :=
  if b =? 0
  then (if a =? 0 then QNaN else QInfinity (a <? 0))
  else QInt (- ((- a) / b)).

(** [x < q] for an integer [x]. *)
Definition ltQuotient (x : Z) (q : Quotient) : bool :=
  match q with
  | QNaN => false
  | QInfinity negative => negb negative
  | QInt z => x <? z
  end.

(** An integer inside a template literal. *)
Definition showZ (z : Z) : string := NilZero.string_of_int (Z.to_int z).

Module Pagination.
Record t := mk {
  total : Z;
  page : Z;
  limit : Z;
  totalPages : Quotient;
  hasNextPage : bool;
  hasPrevPage : bool;
  nextPage : option string;
  prevPage : option string
}.
End Pagination.

(** [formatPagination]; [query] lists the entries of [req.query] in
    order, the values as the template literal prints them. *)
Definition formatPagination (total page limit : Z) (baseUrl : string)
    (query : list (string * string)) : Pagination.t :=
  let totalPages := ceilDiv total limit in
  let queryString :=
    join "&" ((fun kv => (kv.1 ++ "=" ++ kv.2)%string)
              <$> List.filter (fun kv => negb (bool_decide (kv.1 ∈ ["page"; "limit"]))) query) in
  let buildUrl pageNum :=
    let url := (baseUrl ++ "?page=" ++ showZ pageNum ++ "&limit=" ++ showZ limit)%string in
    if negb (String.eqb queryString "") then (url ++ "&" ++ queryString)%string else url in
  Pagination.mk total page limit totalPages
    (ltQuotient page totalPages) (1 <? page)
    (if ltQuotient page totalPages then Some (buildUrl (page + 1)) else None)
    (if 1 <? page then Some (buildUrl (page - 1)) else None).

(** ** Sample data

    Concrete collaborators, users and requests, used to run the
    controllers on explicit inputs. *)

Definition acceptAll {A} (_ : A) : bool := true.
Definition status500 (_ : string) : nat := 500%nat.
Definition castDecimal (s : string) : option Z :=
  match parseInt s with
  | Num z => Some z
  | NaN => None
  end.
Definition parseAsIs (s : string) : option string := Some s.
Definition noVideoInfo (_ : string) : option (string * Z) := None.
Definition noYoutubeId (_ : string) : option string := None.
Definition pushAlwaysFails (_ : Notification.t) : bool := true.
(** A cast that, like the cast of 24 hex digits, gives the same id for
    every spelling of the letters' case. *)
Definition castAnyCase (s : string) : option ObjectId := Some (toLowerCase s).
Definition fakeHash (s : string) : string := "$2a$10$" ++ s.

Definition alice : User.t :=
  User.mk "u-alice" "Alice" "alice@college.edu" "secret1" student
          (Some "ECE") (Some 2) (Some 3) None true None.
Definition dave : User.t :=
  User.mk "u-dave" "Dave" "dave@college.edu" "secret2" student
          (Some "ME") (Some 2) (Some 3) None true None.
Definition bob : User.t :=
  User.mk "u-bob" "Bob" "bob@college.edu" "secret3" teacher
          None None None None true None.
Definition root : User.t :=
  User.mk "u-root" "Root" "root@college.edu" "secret4" admin
          None None None None true None.

Definition noQuery : Query.t := Query.mk None None None None.
Definition eceQuery : Query.t := Query.mk (Some "ECE") (Some "2") (Some "3") None.

Definition studyGroup : GroupBody.t :=
  GroupBody.mk (Some "DSA study group") (Some ["u-dave"]) (FlagStr "true")
               None (Some "ECE") (Some "2") (Some "3").

Definition dsaInfo : InfoBody.t :=
  InfoBody.mk (Some "DSA notes") (Some "Unit 1: arrays") (Some "s-dsa")
              (Some "ECE") (Some "2") (Some "3").
Definition noInfo : InfoBody.t := InfoBody.mk None None None None None None.
Definition dsaUpload : Upload.t :=
  Upload.mk "/uploads/notes/dsa.pdf" "uploads/notes/dsa.pdf" "dsa.unit1.pdf" 20480.

Definition dsaSyllabus : SyllabusBody.t :=
  SyllabusBody.mk dsaInfo (Some "100") (Some "40") (Some "2 mid-terms, 1 end-term")
                  None None FlagAbsent.

(** A note uploaded by Alice, still unverified, with no rating. *)
Definition aliceNote : Note.t :=
  Note.mk (Info.mk "DSA notes" "Unit 1: arrays" "s-dsa" "ECE" 2 3)
          (fileRefOf dsaUpload) "u-alice" false 0 0 [] (0 # 1)%Q.

Definition notesDB : DB :=
  mkDB ∅ ∅ [] {[ "n-1" := aliceNote ]} ∅ ∅ ∅ ∅ ∅ [].

Definition verifiedNotesDB : DB :=
  mkDB ∅ ∅ [] {[ "n-1" := Note.set_isVerified true aliceNote ]} ∅ ∅ ∅ ∅ ∅ [].

(** A chat of Alice and Dave with two messages from Dave, one of them
    already read by Alice, and one from Alice. *)
Definition pairChat : Chat.t :=
  Chat.mk "sender" false ["u-alice"; "u-dave"] None false None None None None.

Definition chatDB : DB :=
  mkDB ∅ {[ "c-1" := pairChat ]}
       [ Message.mk "m-1" "u-dave" "hi" "c-1" ["u-dave"] [] false;
         Message.mk "m-2" "u-dave" "are you there?" "c-1" ["u-dave"; "u-alice"] [] false;
         Message.mk "m-3" "u-alice" "yes" "c-1" ["u-alice"] [] false;
         Message.mk "m-4" "u-dave" "good" "c-1" ["u-dave"] [] false ]
       ∅ ∅ ∅ ∅ ∅ ∅ [].

(** The ratings 1.1, 2.2 and 3.3 as the doubles that JSON yields, and
    the double below 2.2, which prints as 2.1999999999999997. *)
Module Doubles.
Import PrimFloat.
End Doubles.


(** A group that Alice created with Dave. *)
Definition groupDB : DB :=
  mkDB ∅ {[ "g-1" := Chat.mk "DSA study group" true ["u-dave"; "u-alice"]
                             (Some "u-alice") true None (Some "ECE") (Some "2")
                             (Some "3") ]}
       [] ∅ ∅ ∅ ∅ ∅ ∅ [].

(** The same group, with its two members registered. *)
Definition campusDB : DB :=
  mkDB {[ "u-alice" := alice; "u-dave" := dave ]}
       {[ "g-1" := Chat.mk "DSA study group" true ["u-dave"; "u-alice"]
                           (Some "u-alice") true None (Some "ECE") (Some "2")
                           (Some "3") ]}
       [] ∅ ∅ ∅ ∅ ∅ ∅ [].

Definition registerAsTeacher : RegisterBody.t :=
  RegisterBody.mk (Some "Eve") (Some "eve@college.edu") None (Some "secret5")
                  (Some "teacher") None None None None.
Definition registerPlain : RegisterBody.t :=
  RegisterBody.mk (Some "Eve") (Some "eve@college.edu") None (Some "secret5")
                  None (Some "ECE") (Some "1") (Some "1") None.

(** The site, an account that has not confirmed its OTP yet, and the
    files of an upload. *)
Definition portal : string := "https://portal.college.edu".



Definition noteFile : MulterFile.t :=
  MulterFile.mk "graphs.pdf" "uploads/notes/7f3e.pdf" 10240.
Definition questionFile : MulterFile.t :=
  MulterFile.mk "os-2023.pdf" "uploads/pyqs/0a1b.pdf" 40960.
Definition solutionFile : MulterFile.t :=
  MulterFile.mk "os-2023-solution.pdf" "uploads/pyqs/2c3d.pdf" 51200.

Definition graphsInfo : InfoBody.t :=
  InfoBody.mk (Some "Graph algorithms") (Some "Unit 4: BFS and DFS") (Some "s-dsa")
              (Some "ECE") (Some "2") (Some "3").

Definition osPaper : PYQBody.t :=
  PYQBody.mk (InfoBody.mk (Some "OS end-term 2023") (Some "Operating systems")
                          (Some "s-os") (Some "ECE") (Some "2") (Some "3"))
             (Some "End-Term") (Some "2023") None (Some "100") (Some "180").

(** The chat of Alice and Dave again, Dave's last message carrying a
    file that is in the upload directory. *)
Definition slidesDB : DB :=
  mkDB ∅ {[ "c-1" := pairChat ]}
       [ Message.mk "m-1" "u-dave" "hi" "c-1" ["u-dave"] [] false;
         Message.mk "m-2" "u-dave" "the slides" "c-1" ["u-dave"]
                    [ Attachment.mk "https://portal.college.edu/uploads/misc/9e8d.pdf"
                                    "uploads/misc/9e8d.pdf" "slides.pdf" ] false ]
       ∅ ∅ ∅ ∅ ∅ {[ "uploads/misc/9e8d.pdf" ]} [].

(** The staff room: an admin, a teacher and a student. *)
Definition staffDB : DB :=
  mkDB {[ "u-root" := root; "u-bob" := bob; "u-alice" := alice ]}
       ∅ [] ∅ ∅ ∅ ∅ ∅ ∅ [].

Definition newTeacher : CreateUserBody.t :=
  CreateUserBody.mk (Some "Carol") (Some "carol@college.edu") (Some "secret6")
                    (Some "teacher") (Some "ECE").

(** A student of computer science, as the user schema spells it, and
    notes of computer science, as the note schema spells it. *)
Definition carl : User.t :=
  User.mk "u-carl" "Carl" "carl@college.edu" "secret7" student
          (Some "Computer Science") (Some 2) (Some 3) None true None.

Definition cseNotes : Info.t :=
  Info.mk "Compilers" "Unit 2: parsing" "s-cd" "CSE" 2 3.

(** A lecture that Dave likes. *)
Definition lectureVideo : Video.t :=
  Video.mk (Info.mk "Sorting" "Unit 3: quicksort" "s-dsa" "ECE" 2 3)
           "https://portal.college.edu/uploads/videos/5b6c.mp4"
           "https://portal.college.edu/uploads/videos/5b6c.jpg"
           false None (Some 1260) ["sorting"] "u-bob" true 12 1 ["u-dave"] [].

Definition lectureDB : DB :=
  mkDB ∅ ∅ [] ∅ {[ "v-1" := lectureVideo ]} ∅ ∅ ∅ ∅ [].

(** A group by invitation: Alice's seminar, which is not public. *)
Definition seminar : Chat.t :=
  Chat.mk "Seminar" true ["u-alice"] (Some "u-alice") false
          None (Some "ECE") (Some "2") (Some "3").

Definition seminarDB : DB :=
  mkDB {[ "u-alice" := alice; "u-dave" := dave ]} {[ "g-2" := seminar ]}
       [] ∅ ∅ ∅ ∅ ∅ ∅ [].

(** The lecture again, its file in the upload directory, and the form
    and the file that replace it. *)
Definition uploadedDB : DB :=
  mkDB ∅ ∅ [] ∅ {[ "v-1" := lectureVideo ]} ∅ ∅ ∅ {[ "uploads/videos/5b6c.mp4" ]} [].

Definition sortingForm : VideoBody.t :=
  VideoBody.mk (InfoBody.mk (Some "Sorting, again") None None None None None) None None.
Definition sortingFile : MulterFile.t :=
  MulterFile.mk "sorting-v2.mp4" "uploads/videos/8d9e.mp4" 2097152.



(** The form that turns a user into a teacher. *)
Definition makeTeacher : UpdateUserBody.t :=
  UpdateUserBody.mk None None (Some "teacher") None None None FlagAbsent None.

(** Alice's study group and her chat with Dave, with three messages
    that Dave has not read. *)
Definition busyDB : DB :=
  mkDB {[ "u-alice" := alice; "u-dave" := dave ]}
       {[ "g-1" := Chat.mk "DSA study group" true ["u-dave"; "u-alice"]
                           (Some "u-alice") true None (Some "ECE") (Some "2")
                           (Some "3");
          "c-1" := pairChat ]}
       [ Message.mk "m-1" "u-alice" "welcome" "g-1" ["u-alice"] [] false;
         Message.mk "m-2" "u-alice" "first meeting on Friday" "g-1" ["u-alice"] [] false;
         Message.mk "m-3" "u-alice" "are you coming?" "c-1" ["u-alice"] [] false ]
       ∅ ∅ ∅ ∅ ∅ ∅ [].

(** ** The controllers *)

Section Controllers.

Set Default Proof Using "Type".

(** Mongoose and the Express error middleware are not part of the
    sources; what the controllers rely on is taken as given.
    - [castNumber]: the cast of a form value to a [Number] path
      ([None] is a CastError);
    - [castObjectId]: the cast of a request string to an [ObjectId] path,
      as a query or an update does it; the result is the id in the
      spelling [toString()] gives, so a string in another spelling (hex
      digits in upper case) is cast to the stored id without being equal
      to it as a string ([None] is a CastError);
    - [validChat] .. [validUser]: schema validation of a document
      ([required], [enum], [maxlength], [match], ObjectId casts);
    - [errorStatus]: the HTTP status the error middleware gives to an
      error that is not an [ErrorResponse], by its name;
    - [jsonParse]: [JSON.parse], [None] when it throws;
    - [getVideoInfo], [youtubeIdOf]: the YouTube service and the id
      pattern of the video schema;
    - [firebaseFails]: whether the Firebase client fails on a push;
    - [bcryptHash]: the salted hash of [bcryptjs]. *)
Variable castNumber : string → option Z.
Variable castObjectId : string → option ObjectId.
Variable validChat : Chat.t → bool.
Variable validNote : Note.t → bool.
Variable validVideo : Video.t → bool.
Variable validPYQ : PYQ.t → bool.
Variable validSyllabus : Syllabus.t → bool.
Variable validAnnouncement : Announcement.t → bool.
Variable validUser : User.t → bool.
Variable errorStatus : string → nat.
Variable jsonParse : string → option string.
Variable getVideoInfo : string → option (string * Z).
Variable youtubeIdOf : string → option string.
Variable firebaseFails : Notification.t → bool.
Variable bcryptHash : string → string.

Definition typeError {A} : M A :=
  throw (errorStatus "TypeError") "Cannot read properties of undefined".
Definition validationError {A} : M A :=
  throw (errorStatus "ValidationError") "Validation failed".

(** [notifyUsers]: the call is recorded; every failure is caught inside
    and reported in the returned [success] flag only. *)
Definition notifyUsers (n : Notification.t) : M bool :=
  modify (with_outbox (fun o => o ++ [n]));;
  mret (negb (firebaseFails n)).

(** *** communityController.js *)

(** [Chat.findById(id)] followed by [if (!chat) throw ..404] *)
Definition findChat (id : ObjectId) : M Chat.t :=
  c ← gets (fun db => db_chats db !! id);
  match c with
  | Some c => mret c
  | None => throw 404 "Chat not found"
  end.

(** [chat.groupAdmin.toString()] *)
Definition groupAdminToString (c : Chat.t) : M ObjectId :=
  match Chat.groupAdmin c with
  | Some a => mret a
  | None => typeError
  end.

Definition isAdminRole (u : User.t) : bool := bool_decide (User.role u = admin).

Definition createGroupChat (newId : ObjectId) (user : User.t) (body : GroupBody.t)
    : M (Response Chat.t) :=
  throwIf (negb (truthy (GroupBody.chatName body))) 400 "Please provide a chat name";;
  let users := default [] (GroupBody.users body) ++ [User._id user] in
  let groupChat :=
    Chat.mk (default "" (GroupBody.chatName body)) true users
            (Some (User._id user)) (flagIsTrue (GroupBody.isPublic body))
            (GroupBody.subject body) (GroupBody.branch body)
            (GroupBody.year body) (GroupBody.semester body) in
  (if validChat groupChat then mret tt else validationError);;
  modify (with_chats (insert newId groupChat));;
  mret (Respond 201 groupChat).

Definition addToGroup (user : User.t) (id : ObjectId) (users : option (list ObjectId))
    : M (Response Chat.t) :=
  us ← match users with
       | Some us => mret us
       | None => throw 400 "Please provide an array of user IDs"
       end;
  chat ← findChat id;
  ga ← groupAdminToString chat;
  throwIf (negb (sameId ga (User._id user)) && negb (isAdminRole user))
          403 "Not authorized to add users to this group";;
  let updatedChat := Chat.set_users (addEachToSet us (Chat.users chat)) chat in
  modify (with_chats (insert id updatedChat));;
  mret (Respond 200 updatedChat).

(** [userId] is [req.params.userId], the string of the URL.  The two
    tests compare it with [===] to the [toString()] of stored ids;
    [$pull] then casts it to the [ObjectId] it removes, so the tests and
    the update agree only on a [userId] spelled as ids are stored. *)
Definition removeFromGroup (user : User.t) (id : ObjectId) (userId : string)
    : M (Response Chat.t) :=
  chat ← findChat id;
  let isSelfRemoval := String.eqb userId (User._id user) in
  ga ← groupAdminToString chat;
  let isGroupAdmin := sameId ga (User._id user) in
  let isAppAdmin := isAdminRole user in
  throwIf (negb isSelfRemoval && negb isGroupAdmin && negb isAppAdmin)
          403 "Not authorized to remove users from this group";;
  throwIf (String.eqb userId ga && negb isAppAdmin)
          403 "Cannot remove the group admin";;
  pulled ← match castObjectId userId with
           | Some pulled => mret pulled
           | None => throw (errorStatus "CastError") "Cast to ObjectId failed"
           end;
  let updatedChat := Chat.set_users (pull pulled (Chat.users chat)) chat in
  modify (with_chats (insert id updatedChat));;
  mret (Respond 200 updatedChat).

Definition joinGroup (user : User.t) (id : ObjectId) : M (Response Chat.t) :=
  chat ← findChat id;
  throwIf (negb (Chat.isPublic chat) || negb (Chat.isGroupChat chat))
          400 "This chat is not a public group";;
  throwIf (includes (Chat.users chat) (User._id user))
          400 "You are already a member of this group";;
  let updatedChat := Chat.set_users (addToSet (User._id user) (Chat.users chat)) chat in
  modify (with_chats (insert id updatedChat));;
  tryCatch (
    u ← gets (fun db => db_users db !! User._id user);
    match u with
    | None => typeError
    | Some u =>
        notifyUsers (Notification.mk
          ("New member in " ++ Chat.chatName chat)
          (User.name u ++ " has joined the group")
          "group"
          (match Chat.groupAdmin chat with Some a => [a] | None => [] end));;
        mret tt
    end);;
  mret (Respond 200 updatedChat).

Definition leaveGroup (user : User.t) (id : ObjectId) : M (Response Chat.t) :=
  chat ← findChat id;
  throwIf (negb (Chat.isGroupChat chat)) 400 "This is not a group chat";;
  throwIf (negb (includes (Chat.users chat) (User._id user)))
          400 "You are not a member of this group";;
  ga ← groupAdminToString chat;
  throwIf (sameId ga (User._id user))
          400 "Group admin cannot leave. Transfer ownership first or delete the group";;
  let updatedChat := Chat.set_users (pull (User._id user) (Chat.users chat)) chat in
  modify (with_chats (insert id updatedChat));;
  mret (Respond 200 updatedChat).

Definition transferGroupOwnership (user : User.t) (id : ObjectId) (userId : ObjectId)
    : M (Response Chat.t) :=
  chat ← findChat id;
  ga ← groupAdminToString chat;
  throwIf (negb (sameId ga (User._id user)) && negb (isAdminRole user))
          403 "Not authorized to transfer group ownership";;
  t ← gets (fun db => db_users db !! userId);
  targetUser ← match t with
               | Some t => mret t
               | None => throw 404 "Target user not found"
               end;
  throwIf (negb (includes (Chat.users chat) (User._id targetUser)))
          400 "Target user is not a member of this group";;
  let updatedChat := Chat.set_groupAdmin (User._id targetUser) chat in
  modify (with_chats (insert id updatedChat));;
  tryCatch (
    notifyUsers (Notification.mk
      ("Group Ownership Transfer: " ++ Chat.chatName chat)
      ("You are now the admin of the group " ++ Chat.chatName chat)
      "group" [User._id targetUser]);;
    mret tt);;
  mret (Respond 200 updatedChat).

(** [Message.updateMany({chat, readBy: {$ne: uid}}, {$addToSet: {readBy: uid}})] *)
Definition markRead (chatId uid : ObjectId) (m : Message.t) : Message.t :=
  if sameId (Message.chat m) chatId && negb (includes (Message.readBy m) uid)
  then Message.set_readBy (addToSet uid (Message.readBy m)) m
  else m.

(** [db_messages] is kept in creation order, so [sort('-createdAt')] is
    the reversed list.  A negative [skip] is rejected by the server; a
    negative [limit] is served as its absolute value. *)
Definition getMessages (user : User.t) (chatId : ObjectId)
    (page limit : option string) : M (Response MessagePage.t) :=
  chat ← findChat chatId;
  throwIf (negb (includes (Chat.users chat) (User._id user)))
          403 "Not authorized to access this chat";;
  let page := parseIntOr page 1 in
  let limit := parseIntOr limit 50 in
  let skip := (page - 1) * limit in
  inChat ← gets (fun db =>
    filter (fun m => Message.chat m = chatId) (db_messages db));
  (if skip <? 0
   then throw (errorStatus "MongoServerError") "Skip value must be non-negative"
   else mret tt);;
  let messages := take (Z.to_nat (Z.abs limit)) (drop (Z.to_nat skip) (rev inChat)) in
  modify (with_messages (fmap (markRead chatId (User._id user))));;
  mret (Respond 200 (MessagePage.mk (length messages) (rev messages))).

Definition findMessage (id : ObjectId) : M Message.t :=
  m ← gets (fun db => List.find (fun m => sameId (Message._id m) id) (db_messages db));
  match m with
  | Some m => mret m
  | None => throw 404 "Message not found"
  end.

(** [message.save()]: the stored document with this [_id] is replaced. *)
Definition saveMessage (m' : Message.t) : M unit :=
  modify (with_messages (fmap (fun m =>
    if sameId (Message._id m) (Message._id m') then m' else m))).

(** [for (const attachment of message.attachments) deleteFile(attachment.filePath)] *)
Definition deleteAttachments (atts : list Attachment.t) : M unit :=
  foldr (fun a k => deleteFile (Attachment.filePath a);; k) (mret tt) atts.

Definition deleteMessage (user : User.t) (id : ObjectId) : M (Response bool) :=
  message ← findMessage id;
  throwIf (negb (sameId (Message.sender message) (User._id user))
           && negb (isAdminRole user))
          403 "Not authorized to delete this message";;
  match Message.attachments message with
  | _ :: _ =>
      deleteAttachments (Message.attachments message);;
      saveMessage (Message.mk (Message._id message) (Message.sender message)
                     "[Attachments removed]" (Message.chat message)
                     (Message.readBy message) [] true)
  | [] =>
      saveMessage (Message.mk (Message._id message) (Message.sender message)
                     "[Message deleted]" (Message.chat message)
                     (Message.readBy message) [] true)
  end;;
  mret (Respond 200 true).

(** The [$match] stage of [getUnreadCount]. *)
Definition unreadMatch (chatIds : list ObjectId) (uid : ObjectId) (m : Message.t) : bool :=
  includes chatIds (Message.chat m)
  && negb (sameId (Message.sender m) uid)
  && negb (includes (Message.readBy m) uid)
  && negb (Message.isDeleted m).

(** [Chat.find({users: {$elemMatch: {$eq: uid}}}).select('_id')] mapped
    to the ids. *)
Definition chatIdsOf (uid : ObjectId) (db : DB) : list ObjectId :=
  (map_to_list (filter (fun kv => uid ∈ Chat.users kv.2) (db_chats db))).*1.

Definition getUnreadCount (user : User.t) : M (Response Unread.t) :=
  chatIds ← gets (chatIdsOf (User._id user));
  unreadCounts ← gets (fun db =>
    groupByChat (List.filter (unreadMatch chatIds (User._id user)) (db_messages db)));
  let unreadByChat :=
    fold_left (fun acc item => <[ item.1 := item.2 ]> acc) unreadCounts
              (∅ : gmap string nat) in
  let totalUnread := fold_left (fun acc item => (acc + item.2)%nat) unreadCounts 0%nat in
  mret (Respond 200 (Unread.mk totalUnread unreadByChat)).

(** *** Shared pieces of the content controllers *)

(** The ownership test of every update and delete:
    [doc.owner.toString() !== req.user.id && req.user.role !== 'admin']. *)
Definition notOwnerNorAdmin (owner : ObjectId) (user : User.t) : bool :=
  negb (sameId owner (User._id user)) && negb (isAdminRole user).

(** [isVerified: req.user.role === 'student' ? false : true] *)
Definition verifiedOnUpload (user : User.t) : bool :=
  if bool_decide (User.role user = student) then false else true.

(** The descriptive fields of a new document, cast to the schema types;
    [None] when a required field is missing or a number does not cast. *)
Definition newInfo (b : InfoBody.t) : option Info.t :=
  title ← InfoBody.title b;
  description ← InfoBody.description b;
  subject ← InfoBody.subject b;
  branch ← InfoBody.branch b;
  year ← InfoBody.year b ≫= castNumber;
  semester ← InfoBody.semester b ≫= castNumber;
  Some (Info.mk title description subject branch year semester).

(** [if (x) updateFields.x = x] for a string path. *)
Definition setIf (x : option string) (old : string) : string :=
  if truthy x then default old x else old.

(** [if (x) updateFields.x = x] for a [Number] path, cast by Mongoose. *)
Definition setNumIf (x : option string) (old : Z) : option Z :=
  if truthy x then x ≫= castNumber else Some old.

(** [if (x) updateFields.x = parseInt(x)]; [NaN] does not cast. *)
Definition setParsedIf (x : option string) (old : Z) : option Z :=
  if truthy x
  then match parseInt <$> x with Some (Num z) => Some z | _ => None end
  else Some old.

Definition updateInfo (b : InfoBody.t) (i : Info.t) : option Info.t :=
  year ← setNumIf (InfoBody.year b) (Info.year i);
  semester ← setNumIf (InfoBody.semester b) (Info.semester i);
  Some (Info.mk (setIf (InfoBody.title b) (Info.title i))
                (setIf (InfoBody.description b) (Info.description i))
                (setIf (InfoBody.subject b) (Info.subject i))
                (setIf (InfoBody.branch b) (Info.branch i))
                year semester).

Definition updateInfoParsed (b : InfoBody.t) (i : Info.t) : option Info.t :=
  year ← setParsedIf (InfoBody.year b) (Info.year i);
  semester ← setParsedIf (InfoBody.semester b) (Info.semester i);
  Some (Info.mk (setIf (InfoBody.title b) (Info.title i))
                (setIf (InfoBody.description b) (Info.description i))
                (setIf (InfoBody.subject b) (Info.subject i))
                (setIf (InfoBody.branch b) (Info.branch i))
                year semester).

(** *** notesController.js *)

Definition findNote (id : ObjectId) : M Note.t :=
  n ← gets (fun db => db_notes db !! id);
  match n with
  | Some n => mret n
  | None => throw 404 ("Note not found with id of " ++ id)
  end.

(** [note.save()]: the pre-save hook, then the write. *)
Definition saveNote (id : ObjectId) (n : Note.t) : M Note.t :=
  let n' := notePreSave n in
  modify (with_notes (insert id n'));;
  mret n'.

(** The resource filter of the listing.  It is the argument of
    [Note.countDocuments]; the [find] runs on it merged over [req.query]. *)
Definition getNotes (user : User.t) (query : Query.t) : Filter.t :=
  filterEducationalResources query (User.role user) (User.data user).

Definition getNote (id : ObjectId) : M (Response Note.t) :=
  note ← findNote id;
  note ← saveNote id (Note.set_views (Note.views note + 1) note);
  mret (Respond 200 note).

Definition createNote (newId : ObjectId) (user : User.t) (body : InfoBody.t)
    (fileInfo : option Upload.t) : M (Response Note.t) :=
  f ← match fileInfo with
      | Some f => mret f
      | None => throw 400 "Please upload a file"
      end;
  match newInfo body with
  | None => validationError
  | Some info =>
      let note := Note.mk info (fileRefOf f) (User._id user)
                          (verifiedOnUpload user) 0 0 [] (0 # 1)%Q in
      (if validNote note then mret tt else validationError);;
      note ← saveNote newId note;
      mret (Respond 201 note)
  end.

Definition updateNote (user : User.t) (id : ObjectId) (body : InfoBody.t)
    (fileInfo : option Upload.t) : M (Response Note.t) :=
  note ← findNote id;
  throwIf (notOwnerNorAdmin (Note.uploadedBy note) user)
          403 ("User " ++ User._id user ++ " is not authorized to update this note");;
  file ← match fileInfo with
         | Some f => deleteFile (FileRef.filePath (Note.file note));; mret (fileRefOf f)
         | None => mret (Note.file note)
         end;
  match updateInfo body (Note.info note) with
  | None => validationError
  | Some info =>
      let note' := Note.set_info info file note in
      (if validNote note' then mret tt else validationError);;
      modify (with_notes (insert id note'));;
      mret (Respond 200 note')
  end.

Definition deleteNote (user : User.t) (id : ObjectId) : M (Response bool) :=
  note ← findNote id;
  throwIf (notOwnerNorAdmin (Note.uploadedBy note) user)
          403 ("User " ++ User._id user ++ " is not authorized to delete this note");;
  deleteFile (FileRef.filePath (Note.file note));;
  modify (with_notes (delete id));;
  mret (Respond 200 true).

Definition verifyNote (id : ObjectId) : M (Response string) :=
  note ← findNote id;
  saveNote id (Note.set_isVerified true note);;
  mret (Respond 200 "Note verified successfully").

Definition addRating (now : Z) (user : User.t) (id : ObjectId) (body : RatingBody.t)
    : M (Response (Q * nat)) :=
  rating ← match RatingBody.rating body with
           | Some r =>
               if negb (Qle_bool 1 r) || negb (Qle_bool r 5)
               then throw 400 "Please provide a valid rating between 1 and 5"
               else mret r
           | None => throw 400 "Please provide a valid rating between 1 and 5"
           end;
  note ← findNote id;
  let comment := RatingBody.comment body in
  let ratings :=
    match rateExisting (User._id user) rating comment now (Note.ratings note) with
    | Some rs => rs
    | None => Note.ratings note ++ [Rating.mk rating comment (User._id user) now]
    end in
  let note := Note.set_averageRating (ratingMean ratings) (Note.set_ratings ratings note) in
  (if (200 <? String.length (default "" comment))%nat
   then validationError else mret tt);;
  note ← saveNote id note;
  mret (Respond 200 (Note.averageRating note, length (Note.ratings note))).

Definition downloadNote (id : ObjectId) : M (Response string) :=
  note ← findNote id;
  note ← saveNote id (Note.set_downloads (Note.downloads note + 1) note);
  mret (Respond 302 (FileRef.fileUrl (Note.file note))).

Definition incrementNoteViews (id : ObjectId) : M (Response Z) :=
  note ← findNote id;
  note ← saveNote id (Note.set_views (Note.views note + 1) note);
  mret (Respond 200 (Note.views note)).

(** *** videoController.js *)

Definition findVideo (id : ObjectId) : M Video.t :=
  v ← gets (fun db => db_videos db !! id);
  match v with
  | Some v => mret v
  | None => throw 404 ("Video not found with id of " ++ id)
  end.

(** [VideoSchema.pre('save')] *)
Definition videoPreSave (v : Video.t) : Video.t :=
  if Video.isYoutubeVideo v && negb (String.eqb (Video.videoUrl v) "")
  then match youtubeIdOf (Video.videoUrl v) with
       | Some y => Video.set_youtubeId (Some y) v
       | None => v
       end
  else v.

Definition saveVideo (id : ObjectId) (v : Video.t) : M Video.t :=
  let v' := videoPreSave v in
  modify (with_videos (insert id v'));;
  mret v'.

(** The resource filter of the listing.  It is the argument of
    [Video.countDocuments]; the [find] runs on it merged over [req.query]. *)
Definition getVideos (user : User.t) (query : Query.t) : Filter.t :=
  filterEducationalResources query (User.role user) (User.data user).

Definition getVideo (id : ObjectId) : M (Response Video.t) :=
  video ← findVideo id;
  video ← saveVideo id (Video.set_views (Video.views video + 1) video);
  mret (Respond 200 video).

Definition defaultThumbnail : string := "default-thumbnail.jpg".

Definition createVideo (newId : ObjectId) (user : User.t) (body : VideoBody.t)
    (fileInfo : option Upload.t) : M (Response Video.t) :=
  let tags := parseTags (VideoBody.tags body) in
  src ← (if truthy (VideoBody.youtubeUrl body)
         then
           let url := default "" (VideoBody.youtubeUrl body) in
           mret (match getVideoInfo url with
                 | Some (thumb, dur) => (true, url, thumb, Some dur)
                 | None => (true, url, defaultThumbnail, None)
                 end)
         else match fileInfo with
              | Some f => mret (false, Upload.url f, defaultThumbnail, None)
              | None =>
                  throw 400 "Please provide either a YouTube URL or upload a video file"
              end);
  let '(isYoutube, videoUrl, thumb, dur) := src in
  match newInfo (VideoBody.info body) with
  | None => validationError
  | Some info =>
      let video := Video.mk info videoUrl thumb isYoutube None dur tags
                            (User._id user) (verifiedOnUpload user) 0 0 [] [] in
      (if validVideo video then mret tt else validationError);;
      video ← saveVideo newId video;
      mret (Respond 201 video)
  end.

Definition updateVideo (user : User.t) (id : ObjectId) (body : VideoBody.t)
    (fileInfo : option Upload.t) : M (Response Video.t) :=
  video ← findVideo id;
  throwIf (notOwnerNorAdmin (Video.uploadedBy video) user)
          403 ("User " ++ User._id user ++ " is not authorized to update this video");;
  let tags := if truthy (VideoBody.tags body)
              then parseTags (VideoBody.tags body) else Video.tags video in
  let url := default "" (VideoBody.youtubeUrl body) in
  let '(isYoutube, videoUrl, thumb, dur) :=
    if truthy (VideoBody.youtubeUrl body) && negb (String.eqb url (Video.videoUrl video))
    then match getVideoInfo url with
         | Some (thumb, dur) => (true, url, thumb, Some dur)
         | None => (true, url, Video.thumbnailUrl video, Video.duration video)
         end
    else match fileInfo with
         | Some f =>
             if negb (Video.isYoutubeVideo video)
             then (Video.isYoutubeVideo video, Upload.url f,
                   Video.thumbnailUrl video, Video.duration video)
             else (Video.isYoutubeVideo video, Video.videoUrl video,
                   Video.thumbnailUrl video, Video.duration video)
         | None => (Video.isYoutubeVideo video, Video.videoUrl video,
                    Video.thumbnailUrl video, Video.duration video)
         end in
  match updateInfo (VideoBody.info body) (Video.info video) with
  | None => validationError
  | Some info =>
      let video' :=
        Video.mk info videoUrl thumb isYoutube
                 (Video.youtubeId video) dur tags (Video.uploadedBy video)
                 (Video.isVerified video) (Video.views video) (Video.likes video)
                 (Video.usersLiked video) (Video.comments video) in
      (if validVideo video' then mret tt else validationError);;
      modify (with_videos (insert id video'));;
      mret (Respond 200 video')
  end.

(** [video.filePath] is always [undefined] (see [Video.t]), so no file
    is unlinked. *)
Definition deleteVideo (user : User.t) (id : ObjectId) : M (Response bool) :=
  video ← findVideo id;
  throwIf (notOwnerNorAdmin (Video.uploadedBy video) user)
          403 ("User " ++ User._id user ++ " is not authorized to delete this video");;
  modify (with_videos (delete id));;
  mret (Respond 200 true).

Definition verifyVideo (id : ObjectId) : M (Response string) :=
  video ← findVideo id;
  saveVideo id (Video.set_isVerified true video);;
  mret (Respond 200 "Video verified successfully").

Definition likeVideo (user : User.t) (id : ObjectId) : M (Response (Z * bool)) :=
  video ← findVideo id;
  let alreadyLiked := includes (Video.usersLiked video) (User._id user) in
  video ← saveVideo id (
    if alreadyLiked
    then Video.set_likes (Z.max 0 (Video.likes video - 1))
                         (pull (User._id user) (Video.usersLiked video)) video
    else Video.set_likes (Video.likes video + 1)
                         (Video.usersLiked video ++ [User._id user]) video);
  mret (Respond 200 (Video.likes video, negb alreadyLiked)).

Definition addComment (newId : ObjectId) (user : User.t) (id : ObjectId)
    (text : option string) : M (Response (list Comment.t)) :=
  throwIf (negb (truthy text)) 400 "Please provide comment text";;
  video ← findVideo id;
  (if (500 <? String.length (default "" text))%nat
   then validationError else mret tt);;
  video ← saveVideo id (Video.set_comments
    (Video.comments video ++ [Comment.mk newId (default "" text) (User._id user)]) video);
  mret (Respond 200 (Video.comments video)).

Definition deleteComment (user : User.t) (id commentId : ObjectId)
    : M (Response string) :=
  video ← findVideo id;
  comment ← match List.find (fun c => sameId (Comment._id c) commentId)
                            (Video.comments video) with
            | Some c => mret c
            | None => throw 404 ("Comment not found with id of " ++ commentId)
            end;
  throwIf (notOwnerNorAdmin (Comment.user comment) user)
          403 ("User " ++ User._id user ++ " is not authorized to delete this comment");;
  saveVideo id (Video.set_comments
    (List.filter (fun c => negb (sameId (Comment._id c) commentId))
                 (Video.comments video)) video);;
  mret (Respond 200 "Comment deleted successfully").

(** *** pyqController.js *)

Definition findPYQ (id : ObjectId) : M PYQ.t :=
  p ← gets (fun db => db_pyqs db !! id);
  match p with
  | Some p => mret p
  | None => throw 404 ("PYQ not found with id of " ++ id)
  end.

(** [pyq.save()]; the PYQ schema has no save hook. *)
Definition savePYQ (id : ObjectId) (p : PYQ.t) : M PYQ.t :=
  modify (with_pyqs (insert id p));;
  mret p.

(** The filter of the PYQ listing: the resource filter, then the exam
    type, exam year, difficulty and solution keys the query supplies. *)
Definition getPYQs (user : User.t) (query : PYQQuery.t) : PYQFilter.t :=
  let resourceFilter :=
    filterEducationalResources (PYQQuery.base query) (User.role user) (User.data user) in
  PYQFilter.mk resourceFilter
    (if truthy (PYQQuery.examType query) then PYQQuery.examType query else None)
    (if truthy (PYQQuery.examYear query) then PYQQuery.examYear query else None)
    (if truthy (PYQQuery.difficulty query) then PYQQuery.difficulty query else None)
    (if truthy (PYQQuery.hasSolution query)
     then Some (String.eqb (default "" (PYQQuery.hasSolution query)) "true")
     else None).

Definition getPYQ (id : ObjectId) : M (Response PYQ.t) :=
  pyq ← findPYQ id;
  pyq ← savePYQ id (PYQ.set_views (PYQ.views pyq + 1) pyq);
  mret (Respond 200 pyq).

(** [x || 0] on a form value that feeds a [Number] path. *)
Definition numOrZero (x : option string) : option Z :=
  if truthy x then x ≫= castNumber else Some 0.

Definition createPYQ (newId : ObjectId) (user : User.t) (body : PYQBody.t)
    (fileInfo solutionFileInfo : option Upload.t) : M (Response PYQ.t) :=
  f ← match fileInfo with
      | Some f => mret f
      | None => throw 400 "Please upload a question file"
      end;
  let draft :=
    info ← newInfo (PYQBody.info body);
    examType ← PYQBody.examType body;
    examYear ← PYQBody.examYear body ≫= castNumber;
    totalMarks ← numOrZero (PYQBody.totalMarks body);
    duration ← numOrZero (PYQBody.duration body);
    Some (PYQ.mk info (fileRefOf f) examType examYear
                 (setIf (PYQBody.difficulty body) "Medium") totalMarks duration
                 (User._id user) (verifiedOnUpload user) false None None 0 0) in
  match draft with
  | None => validationError
  | Some pyq =>
      (if validPYQ pyq then mret tt else validationError);;
      pyq ← savePYQ newId pyq;
      pyq ← match solutionFileInfo with
            | Some s => savePYQ newId (PYQ.set_solution (Upload.url s) (Upload.path s) pyq)
            | None => mret pyq
            end;
      mret (Respond 201 pyq)
  end.

Definition updatePYQ (user : User.t) (id : ObjectId) (body : PYQBody.t)
    (fileInfo solutionFileInfo : option Upload.t) : M (Response PYQ.t) :=
  pyq ← findPYQ id;
  throwIf (notOwnerNorAdmin (PYQ.uploadedBy pyq) user)
          403 ("User " ++ User._id user ++ " is not authorized to update this PYQ");;
  file ← match fileInfo with
         | Some f => deleteFile (FileRef.filePath (PYQ.file pyq));; mret (fileRefOf f)
         | None => mret (PYQ.file pyq)
         end;
  sol ← match solutionFileInfo with
        | Some s =>
            match PYQ.solutionFilePath pyq with
            | Some old => if String.eqb old "" then mret tt else deleteFile old
            | None => mret tt
            end;;
            mret (true, Some (Upload.url s), Some (Upload.path s))
        | None => mret (PYQ.hasSolution pyq, PYQ.solutionFileUrl pyq,
                        PYQ.solutionFilePath pyq)
        end;
  let '(hasSolution, solutionFileUrl, solutionFilePath) := sol in
  let draft :=
    info ← updateInfoParsed (PYQBody.info body) (PYQ.info pyq);
    examYear ← setParsedIf (PYQBody.examYear body) (PYQ.examYear pyq);
    totalMarks ← setParsedIf (PYQBody.totalMarks body) (PYQ.totalMarks pyq);
    duration ← setParsedIf (PYQBody.duration body) (PYQ.duration pyq);
    Some (PYQ.mk info file
                 (setIf (PYQBody.examType body) (PYQ.examType pyq)) examYear
                 (setIf (PYQBody.difficulty body) (PYQ.difficulty pyq))
                 totalMarks duration (PYQ.uploadedBy pyq) (PYQ.isVerified pyq)
                 hasSolution solutionFileUrl solutionFilePath
                 (PYQ.views pyq) (PYQ.downloads pyq)) in
  match draft with
  | None => validationError
  | Some pyq' =>
      (if validPYQ pyq' then mret tt else validationError);;
      modify (with_pyqs (insert id pyq'));;
      mret (Respond 200 pyq')
  end.

Definition deletePYQ (user : User.t) (id : ObjectId) : M (Response bool) :=
  pyq ← findPYQ id;
  throwIf (notOwnerNorAdmin (PYQ.uploadedBy pyq) user)
          403 ("User " ++ User._id user ++ " is not authorized to delete this PYQ");;
  deleteFile (FileRef.filePath (PYQ.file pyq));;
  (if PYQ.hasSolution pyq && truthy (PYQ.solutionFilePath pyq)
   then deleteFile (default "" (PYQ.solutionFilePath pyq)) else mret tt);;
  modify (with_pyqs (delete id));;
  mret (Respond 200 true).

Definition addSolution (id : ObjectId) (fileInfo : option Upload.t)
    : M (Response PYQ.t) :=
  pyq ← findPYQ id;
  f ← match fileInfo with
      | Some f => mret f
      | None => throw 400 "Please upload a solution file"
      end;
  (if PYQ.hasSolution pyq && truthy (PYQ.solutionFilePath pyq)
   then deleteFile (default "" (PYQ.solutionFilePath pyq)) else mret tt);;
  pyq ← savePYQ id (PYQ.set_solution (Upload.url f) (Upload.path f) pyq);
  mret (Respond 200 pyq).

Definition verifyPYQ (id : ObjectId) : M (Response string) :=
  pyq ← findPYQ id;
  savePYQ id (PYQ.set_isVerified true pyq);;
  mret (Respond 200 "PYQ verified successfully").

Definition downloadPYQ (id : ObjectId) : M (Response string) :=
  pyq ← findPYQ id;
  pyq ← savePYQ id (PYQ.set_downloads (PYQ.downloads pyq + 1) pyq);
  mret (Respond 302 (FileRef.fileUrl (PYQ.file pyq))).

(** *** syllabusController.js *)

Definition findSyllabus (id : ObjectId) : M Syllabus.t :=
  s ← gets (fun db => db_syllabi db !! id);
  match s with
  | Some s => mret s
  | None => throw 404 ("Syllabus not found with id of " ++ id)
  end.

Definition saveSyllabus (id : ObjectId) (s : Syllabus.t) : M Syllabus.t :=
  modify (with_syllabi (insert id s));;
  mret s.

(** The resource filter of the listing.  It is the argument of
    [Syllabus.countDocuments]; the [find] runs on it merged over [req.query]. *)
Definition getSyllabi (user : User.t) (query : Query.t) : Filter.t :=
  filterEducationalResources query (User.role user) (User.data user).

Definition getSyllabus (id : ObjectId) : M (Response Syllabus.t) :=
  syllabus ← findSyllabus id;
  syllabus ← saveSyllabus id (Syllabus.set_views (Syllabus.views syllabus + 1) syllabus);
  mret (Respond 200 syllabus).

(** [x ? JSON.parse(x) : []]; the parsed value is kept as JSON text. *)
Definition parseOrEmpty (x : option string) : M string :=
  if truthy x
  then match jsonParse (default "" x) with
       | Some v => mret v
       | None => throw (errorStatus "SyntaxError") "Unexpected token in JSON"
       end
  else mret "[]".

(** [if (x) updateFields.x = JSON.parse(x)] *)
Definition parseIf (x : option string) (old : string) : M string :=
  if truthy x
  then match jsonParse (default "" x) with
       | Some v => mret v
       | None => throw (errorStatus "SyntaxError") "Unexpected token in JSON"
       end
  else mret old.

Definition createSyllabus (newId : ObjectId) (user : User.t) (body : SyllabusBody.t)
    (fileInfo : option Upload.t) : M (Response Syllabus.t) :=
  f ← match fileInfo with
      | Some f => mret f
      | None => throw 400 "Please upload a file"
      end;
  units ← parseOrEmpty (SyllabusBody.units body);
  referenceBooks ← parseOrEmpty (SyllabusBody.referenceBooks body);
  let draft :=
    info ← newInfo (SyllabusBody.info body);
    totalMarks ← SyllabusBody.totalMarks body;
    passingMarks ← SyllabusBody.passingMarks body;
    examPattern ← SyllabusBody.examPattern body;
    Some (Syllabus.mk info (fileRefOf f) (User._id user) true
                      totalMarks passingMarks examPattern units referenceBooks 0 0) in
  match draft with
  | None => validationError
  | Some syllabus =>
      (if validSyllabus syllabus then mret tt else validationError);;
      syllabus ← saveSyllabus newId syllabus;
      mret (Respond 201 syllabus)
  end.

Definition updateSyllabus (user : User.t) (id : ObjectId) (body : SyllabusBody.t)
    (fileInfo : option Upload.t) : M (Response Syllabus.t) :=
  syllabus ← findSyllabus id;
  throwIf (notOwnerNorAdmin (Syllabus.uploadedBy syllabus) user)
          403 ("User " ++ User._id user ++ " is not authorized to update this syllabus");;
  units ← parseIf (SyllabusBody.units body) (Syllabus.units syllabus);
  referenceBooks ← parseIf (SyllabusBody.referenceBooks body)
                           (Syllabus.referenceBooks syllabus);
  file ← match fileInfo with
         | Some f => deleteFile (FileRef.filePath (Syllabus.file syllabus));;
                     mret (fileRefOf f)
         | None => mret (Syllabus.file syllabus)
         end;
  let draft :=
    info ← updateInfo (SyllabusBody.info body) (Syllabus.info syllabus);
    isActive ← match SyllabusBody.isActive body with
               | FlagAbsent => Some (Syllabus.isActive syllabus)
               | f => castBoolean f
               end;
    Some (Syllabus.mk info file (Syllabus.uploadedBy syllabus)
            isActive
            (setIf (SyllabusBody.totalMarks body) (Syllabus.totalMarks syllabus))
            (setIf (SyllabusBody.passingMarks body) (Syllabus.passingMarks syllabus))
            (setIf (SyllabusBody.examPattern body) (Syllabus.examPattern syllabus))
            units referenceBooks (Syllabus.views syllabus) (Syllabus.downloads syllabus)) in
  match draft with
  | None => validationError
  | Some syllabus' =>
      (if validSyllabus syllabus' then mret tt else validationError);;
      modify (with_syllabi (insert id syllabus'));;
      mret (Respond 200 syllabus')
  end.

Definition deleteSyllabus (user : User.t) (id : ObjectId) : M (Response bool) :=
  syllabus ← findSyllabus id;
  throwIf (notOwnerNorAdmin (Syllabus.uploadedBy syllabus) user)
          403 ("User " ++ User._id user ++ " is not authorized to delete this syllabus");;
  deleteFile (FileRef.filePath (Syllabus.file syllabus));;
  modify (with_syllabi (delete id));;
  mret (Respond 200 true).

Definition downloadSyllabus (id : ObjectId) : M (Response string) :=
  syllabus ← findSyllabus id;
  syllabus ← saveSyllabus id
    (Syllabus.set_downloads (Syllabus.downloads syllabus + 1) syllabus);
  mret (Respond 302 (FileRef.fileUrl (Syllabus.file syllabus))).

(** *** adminController.js *)

Definition findAnnouncement (id : ObjectId) : M Announcement.t :=
  a ← gets (fun db => db_announcements db !! id);
  match a with
  | Some a => mret a
  | None => throw 404 ("Announcement not found with id of " ++ id)
  end.

Definition attachmentOf (f : Upload.t) : Attachment.t :=
  Attachment.mk (Upload.url f) (Upload.path f) (Upload.originalname f).

Definition updateAnnouncement (user : User.t) (id : ObjectId)
    (body : AnnouncementBody.t) (filesInfo : list Upload.t)
    : M (Response Announcement.t) :=
  announcement ← findAnnouncement id;
  throwIf (notOwnerNorAdmin (Announcement.postedBy announcement) user)
          403 "Not authorized to update this announcement";;
  targetAudience ← parseIf (AnnouncementBody.targetAudience body)
                           (Announcement.targetAudience announcement);
  let draft :=
    isActive ← match AnnouncementBody.isActive body with
               | FlagAbsent => Some (Announcement.isActive announcement)
               | f => castBoolean f
               end;
    Some (Announcement.mk
            (setIf (AnnouncementBody.title body) (Announcement.title announcement))
            (setIf (AnnouncementBody.content body) (Announcement.content announcement))
            (Announcement.postedBy announcement)
            (Announcement.attachments announcement ++ (attachmentOf <$> filesInfo))
            (setIf (AnnouncementBody.priority body) (Announcement.priority announcement))
            targetAudience
            (if truthy (AnnouncementBody.expiresAt body)
             then AnnouncementBody.expiresAt body
             else Announcement.expiresAt announcement)
            isActive
            (if truthy (AnnouncementBody.tags body)
             then parseTags (AnnouncementBody.tags body)
             else Announcement.tags announcement)) in
  match draft with
  | None => validationError
  | Some announcement' =>
      (if validAnnouncement announcement' then mret tt else validationError);;
      modify (with_announcements (insert id announcement'));;
      mret (Respond 200 announcement')
  end.

Definition deleteAnnouncement (user : User.t) (id : ObjectId) : M (Response bool) :=
  announcement ← findAnnouncement id;
  throwIf (notOwnerNorAdmin (Announcement.postedBy announcement) user)
          403 "Not authorized to delete this announcement";;
  modify (with_announcements (delete id));;
  mret (Respond 200 true).

(** [switch (contentType)] of [verifyContent]. *)
Inductive Content :=
| CNote (n : Note.t)
| CVideo (v : Video.t)
| CPYQ (p : PYQ.t).

Definition contentTitle (c : Content) : string :=
  match c with
  | CNote n => Info.title (Note.info n)
  | CVideo v => Info.title (Video.info v)
  | CPYQ p => Info.title (PYQ.info p)
  end.

Definition contentUploadedBy (c : Content) : ObjectId :=
  match c with
  | CNote n => Note.uploadedBy n
  | CVideo v => Video.uploadedBy v
  | CPYQ p => PYQ.uploadedBy p
  end.

(** [content.uploadedBy] is an ObjectId object, hence truthy; the
    notification is addressed to it. *)
Definition verifyContent (contentType contentId : option string)
    : M (Response string) :=
  throwIf (negb (truthy contentType) || negb (truthy contentId))
          400 "Please provide content type and ID";;
  let ty := default "" contentType in
  let id := default "" contentId in
  found ← (if String.eqb ty "note"
           then gets (fun db => CNote <$> db_notes db !! id)
           else if String.eqb ty "video"
           then gets (fun db => CVideo <$> db_videos db !! id)
           else if String.eqb ty "pyq"
           then gets (fun db => CPYQ <$> db_pyqs db !! id)
           else throw 400 "Invalid content type");
  content ← match found with
            | Some c => mret c
            | None => throw 404 (ty ++ " not found with id " ++ id)
            end;
  match content with
  | CNote n => saveNote id (Note.set_isVerified true n);; mret tt
  | CVideo v => saveVideo id (Video.set_isVerified true v);; mret tt
  | CPYQ p => savePYQ id (PYQ.set_isVerified true p);; mret tt
  end;;
  tryCatch (
    notifyUsers (Notification.mk
      ("Your " ++ ty ++ " has been verified")
      (contentTitle content ++ " has been verified and is now available to all users.")
      ty [contentUploadedBy content]);;
    mret tt);;
  mret (Respond 200 (ty ++ " verified successfully")%string).

(** *** authController.js *)

(** [UserSchema.pre('save')]: the guard on [isModified('password')] calls
    [next()] without returning, so the hash is applied on every save. *)
Definition userPreSave (u : User.t) : User.t :=
  User.mk (User._id u) (User.name u) (User.email u) (bcryptHash (User.password u))
          (User.role u) (User.branch u) (User.year u) (User.semester u)
          (User.fcmToken u) (User.isVerified u) (User.otp u).

Definition saveUser (u : User.t) : M User.t :=
  let u' := userPreSave u in
  modify (with_users (insert (User._id u') u'));;
  mret u'.

(** [x] cast to an optional [Number] path: absent stays absent. *)
Definition castOptional (x : option string) : option (option Z) :=
  match x with
  | None => Some None
  | Some s => Some <$> castNumber s
  end.

Definition register (newId : ObjectId) (hashedOTP : string) (body : RegisterBody.t)
    : M (Response User.t) :=
  userExists ← gets (fun db =>
    existsb (fun u => bool_decide (Some (User.email u) = RegisterBody.email body))
            (map_to_list (db_users db)).*2);
  throwIf userExists 400 "Email already registered";;
  throwIf (truthy (RegisterBody.role body)
           && negb (String.eqb (default "" (RegisterBody.role body)) "student"))
          400 "Only students can register directly";;
  let draft :=
    name ← RegisterBody.name body;
    email ← RegisterBody.email body;
    password ← RegisterBody.password body;
    year ← castOptional (RegisterBody.year body);
    semester ← castOptional (RegisterBody.semester body);
    Some (User.mk newId name email password student (RegisterBody.branch body)
                  year semester None false None) in
  match draft with
  | None => validationError
  | Some user =>
      (if validUser user then mret tt else validationError);;
      user ← saveUser user;
      user ← saveUser (User.mk (User._id user) (User.name user) (User.email user)
                               (User.password user) (User.role user) (User.branch user)
                               (User.year user) (User.semester user) (User.fcmToken user)
                               (User.isVerified user) (Some hashedOTP));
      mret (Respond 201 user)
  end.

(** ** Request sequences *)

(** The group operations of the community routes. *)
Inductive GroupReq :=
| CreateGroup (newId : ObjectId) (user : User.t) (body : GroupBody.t)
| JoinGroup (user : User.t) (id : ObjectId)
| LeaveGroup (user : User.t) (id : ObjectId)
| AddToGroup (user : User.t) (id : ObjectId) (users : option (list ObjectId))
| RemoveFromGroup (user : User.t) (id : ObjectId) (userId : string)
| TransferOwnership (user : User.t) (id userId : ObjectId).

Definition handleGroup (r : GroupReq) : M (Response Chat.t) :=
  match r with
  | CreateGroup newId user body => createGroupChat newId user body
  | JoinGroup user id => joinGroup user id
  | LeaveGroup user id => leaveGroup user id
  | AddToGroup user id users => addToGroup user id users
  | RemoveFromGroup user id userId => removeFromGroup user id userId
  | TransferOwnership user id userId => transferGroupOwnership user id userId
  end.

(** The database after a sequence of requests, each served in turn. *)
Definition runGroup (rs : list GroupReq) (db : DB) : DB :=
  fold_left (fun db r => (handleGroup r db).2) rs db.

(** A removal whose [$pull] is of the chat's current group admin and
    that the test on the group admin does not stop: it is sent by an app
    admin, or its [userId] is not the string of the stored id. *)
Definition evictsAdmin (db : DB) (r : GroupReq) : bool :=
  match r with
  | RemoveFromGroup user id userId =>
      match castObjectId userId with
      | Some pulled =>
          bool_decide ((db_chats db !! id) ≫= Chat.groupAdmin = Some pulled)
          && (isAdminRole user || negb (String.eqb userId pulled))
      | None => false
      end
  | _ => false
  end.

(** States reached from [db0] by requests none of which evicts a group
    admin. *)
Inductive reachable (db0 : DB) : DB → Prop :=
| reach_init : reachable db0 db0
| reach_step db r :
    reachable db0 db → evictsAdmin db r = false →
    reachable db0 (handleGroup r db).2.

(** The operations on an existing content item: verify, update, rate,
    like, comment, download, view, add a solution, delete. *)
Inductive ContentReq :=
| VerifyNote (id : ObjectId)
| VerifyVideo (id : ObjectId)
| VerifyPYQ (id : ObjectId)
| VerifyContent (contentType contentId : option string)
| UpdateNote (user : User.t) (id : ObjectId) (body : InfoBody.t) (fileInfo : option Upload.t)
| UpdateVideo (user : User.t) (id : ObjectId) (body : VideoBody.t) (fileInfo : option Upload.t)
| UpdatePYQ (user : User.t) (id : ObjectId) (body : PYQBody.t)
            (fileInfo solutionFileInfo : option Upload.t)
| UpdateSyllabus (user : User.t) (id : ObjectId) (body : SyllabusBody.t)
                 (fileInfo : option Upload.t)
| AddRating (now : Z) (user : User.t) (id : ObjectId) (body : RatingBody.t)
| LikeVideo (user : User.t) (id : ObjectId)
| AddComment (newId : ObjectId) (user : User.t) (id : ObjectId) (text : option string)
| DeleteComment (user : User.t) (id commentId : ObjectId)
| DownloadNote (id : ObjectId)
| DownloadPYQ (id : ObjectId)
| DownloadSyllabus (id : ObjectId)
| GetNote (id : ObjectId)
| IncrementNoteViews (id : ObjectId)
| GetVideo (id : ObjectId)
| GetPYQ (id : ObjectId)
| GetSyllabus (id : ObjectId)
| AddSolution (id : ObjectId) (fileInfo : option Upload.t)
| DeleteNote (user : User.t) (id : ObjectId)
| DeleteVideo (user : User.t) (id : ObjectId)
| DeletePYQ (user : User.t) (id : ObjectId)
| DeleteSyllabus (user : User.t) (id : ObjectId).

(** The database a request leaves behind, whether it succeeded or threw. *)
Definition handleContent (r : ContentReq) (db : DB) : DB :=
  match r with
  | VerifyNote id => (verifyNote id db).2
  | VerifyVideo id => (verifyVideo id db).2
  | VerifyPYQ id => (verifyPYQ id db).2
  | VerifyContent ty id => (verifyContent ty id db).2
  | UpdateNote user id body f => (updateNote user id body f db).2
  | UpdateVideo user id body f => (updateVideo user id body f db).2
  | UpdatePYQ user id body f s => (updatePYQ user id body f s db).2
  | UpdateSyllabus user id body f => (updateSyllabus user id body f db).2
  | AddRating now user id body => (addRating now user id body db).2
  | LikeVideo user id => (likeVideo user id db).2
  | AddComment newId user id text => (addComment newId user id text db).2
  | DeleteComment user id commentId => (deleteComment user id commentId db).2
  | DownloadNote id => (downloadNote id db).2
  | DownloadPYQ id => (downloadPYQ id db).2
  | DownloadSyllabus id => (downloadSyllabus id db).2
  | GetNote id => (getNote id db).2
  | IncrementNoteViews id => (incrementNoteViews id db).2
  | GetVideo id => (getVideo id db).2
  | GetPYQ id => (getPYQ id db).2
  | GetSyllabus id => (getSyllabus id db).2
  | AddSolution id f => (addSolution id f db).2
  | DeleteNote user id => (deleteNote user id db).2
  | DeleteVideo user id => (deleteVideo user id db).2
  | DeletePYQ user id => (deletePYQ user id db).2
  | DeleteSyllabus user id => (deleteSyllabus user id db).2
  end.

Definition runContent (rs : list ContentReq) (db : DB) : DB :=
  fold_left (fun db r => handleContent r db) rs db.

(** A created content item, of any of the four kinds. *)
Inductive Item :=
| INote (n : Note.t)
| IVideo (v : Video.t)
| IPYQ (p : PYQ.t)
| ISyllabus (s : Syllabus.t).

(** [item.isVerified]; [None] is [undefined], the path does not exist. *)
Definition itemIsVerified (i : Item) : option bool :=
  match i with
  | INote n => Some (Note.isVerified n)
  | IVideo v => Some (Video.isVerified v)
  | IPYQ p => Some (PYQ.isVerified p)
  | ISyllabus _ => None
  end.

Inductive CreateReq :=
| CreateNote (newId : ObjectId) (user : User.t) (body : InfoBody.t)
             (fileInfo : option Upload.t)
| CreateVideo (newId : ObjectId) (user : User.t) (body : VideoBody.t)
              (fileInfo : option Upload.t)
| CreatePYQ (newId : ObjectId) (user : User.t) (body : PYQBody.t)
            (fileInfo solutionFileInfo : option Upload.t)
| CreateSyllabus (newId : ObjectId) (user : User.t) (body : SyllabusBody.t)
                 (fileInfo : option Upload.t).

Definition uploader (r : CreateReq) : User.t :=
  match r with
  | CreateNote _ user _ _ => user
  | CreateVideo _ user _ _ => user
  | CreatePYQ _ user _ _ _ => user
  | CreateSyllabus _ user _ _ => user
  end.

Definition mapResponse {A B} (f : A → B) (m : M (Response A)) : M (Response B) :=
  r ← m; mret (Respond (status r) (f (payload r))).

Definition handleCreate (r : CreateReq) : M (Response Item) :=
  match r with
  | CreateNote newId user body f => mapResponse INote (createNote newId user body f)
  | CreateVideo newId user body f => mapResponse IVideo (createVideo newId user body f)
  | CreatePYQ newId user body f s => mapResponse IPYQ (createPYQ newId user body f s)
  | CreateSyllabus newId user body f =>
      mapResponse ISyllabus (createSyllabus newId user body f)
  end.

(** The document [handleCreate] left in its collection under the new id. *)
Definition storedItem (r : CreateReq) (db : DB) : option Item :=
  match r with
  | CreateNote newId _ _ _ => INote <$> db_notes db !! newId
  | CreateVideo newId _ _ _ => IVideo <$> db_videos db !! newId
  | CreatePYQ newId _ _ _ _ => IPYQ <$> db_pyqs db !! newId
  | CreateSyllabus newId _ _ _ => ISyllabus <$> db_syllabi db !! newId
  end.

(** The update and delete requests that are guarded by ownership. *)
Inductive OwnedReq :=
| OUpdateNote (user : User.t) (id : ObjectId) (body : InfoBody.t)
              (fileInfo : option Upload.t)
| ODeleteNote (user : User.t) (id : ObjectId)
| OUpdateVideo (user : User.t) (id : ObjectId) (body : VideoBody.t)
               (fileInfo : option Upload.t)
| ODeleteVideo (user : User.t) (id : ObjectId)
| OUpdatePYQ (user : User.t) (id : ObjectId) (body : PYQBody.t)
             (fileInfo solutionFileInfo : option Upload.t)
| ODeletePYQ (user : User.t) (id : ObjectId)
| OUpdateSyllabus (user : User.t) (id : ObjectId) (body : SyllabusBody.t)
                  (fileInfo : option Upload.t)
| ODeleteSyllabus (user : User.t) (id : ObjectId)
| ODeleteMessage (user : User.t) (id : ObjectId)
| OUpdateAnnouncement (user : User.t) (id : ObjectId) (body : AnnouncementBody.t)
                      (filesInfo : list Upload.t)
| ODeleteAnnouncement (user : User.t) (id : ObjectId).

(** The outcome without its payload: the status sent, or the error. *)
Definition outcome {A} (x : Result (Response A) * DB) : Result nat * DB :=
  match x with
  | (Ok r, db) => (Ok (status r), db)
  | (Err st msg, db) => (Err st msg, db)
  end.


Definition actor (r : OwnedReq) : User.t :=
  match r with
  | OUpdateNote user _ _ _ | ODeleteNote user _
  | OUpdateVideo user _ _ _ | ODeleteVideo user _
  | OUpdatePYQ user _ _ _ _ | ODeletePYQ user _
  | OUpdateSyllabus user _ _ _ | ODeleteSyllabus user _
  | ODeleteMessage user _
  | OUpdateAnnouncement user _ _ _ | ODeleteAnnouncement user _ => user
  end.



(** ** The rules as the specification words them *)

(** One field of the visibility filter: the explicit query value when
    there is one, else the student's own value, else no constraint. *)
Definition visibleValue {A} (explicit : option A) (role : Role) (own : option A)
    : option A :=
  match explicit with
  | Some v => Some v
  | None => match role with student => own | _ => None end
  end.

(** What a query supplies, and what a profile has set. *)
Definition suppliedText (x : option string) : option string :=
  if truthy x then x else None.
Definition suppliedNumber (x : option string) : option JSNumber :=
  if truthy x then parseInt <$> x else None.
Definition profileNumber (x : option Z) : option JSNumber :=
  if truthyNum x then Num <$> x else None.

(** The items a filter selects: every key that is present must equal the
    item's field, and [NaN] equals nothing. *)
Definition selectsNumber (c : option JSNumber) (x : Z) : bool :=
  match c with
  | None => true
  | Some (Num y) => x =? y
  | Some NaN => false
  end.

Definition selectsText (c : option string) (x : string) : bool :=
  match c with
  | None => true
  | Some y => String.eqb x y
  end.

Definition selects (f : Filter.t) (i : Info.t) : bool :=
  selectsText (Filter.branch f) (Info.branch i)
  && selectsNumber (Filter.year f) (Info.year i)
  && selectsNumber (Filter.semester f) (Info.semester i)
  && selectsText (Filter.subject f) (Info.subject i).

(** A message counts as unread for [uid]: it is in a chat [uid] belongs
    to, was sent by someone else, was not read by [uid], is not deleted. *)
Definition isMember (db : DB) (uid chatId : ObjectId) : bool :=
  match db_chats db !! chatId with
  | Some c => bool_decide (uid ∈ Chat.users c)
  | None => false
  end.

Definition unreadFor (db : DB) (uid : ObjectId) (m : Message.t) : bool :=
  isMember db uid (Message.chat m)
  && bool_decide (Message.sender m ≠ uid)
  && bool_decide (uid ∉ Message.readBy m)
  && negb (Message.isDeleted m).

Definition unreadIn (db : DB) (uid chatId : ObjectId) : nat :=
  length (List.filter
            (fun m => unreadFor db uid m && bool_decide (Message.chat m = chatId))
            (db_messages db)).

Definition unreadTotal (db : DB) (uid : ObjectId) : nat :=
  length (List.filter (unreadFor db uid) (db_messages db)).

(** The bucket of chat [c] in the output of the [$group] stage. *)
Fixpoint bucket (c : ObjectId) (acc : list (ObjectId * nat)) : option nat :=
  match acc with
  | [] => None
  | (c', n) :: rest => if bool_decide (c' = c) then Some n else bucket c rest
  end.

(** The sum of the per-chat counts of a response. *)
Definition sumCounts (m : gmap string nat) : nat :=
  sum_list_with snd (map_to_list m).

(** The per-chat count a response shows for [c]: a chat without unread
    messages has no entry. *)
Definition shownCount (n : nat) : option nat :=
  match n with O => None | S _ => Some n end.

(** The arithmetic mean of a list of values. *)
Definition arithmeticMean (values : list Q) : Q :=
  Qdiv (fold_right Qplus (0 # 1)%Q values) (inject_Z (Z.of_nat (length values))).

(** At most one rating per user. *)
Definition oneRatingPerUser (n : Note.t) : Prop :=
  NoDup (Rating.user <$> Note.ratings n).

(** In a group chat the [groupAdmin] field names a member, and only one
    member is named by it. *)
Definition adminIsMember (c : Chat.t) : Prop :=
  Chat.isGroupChat c = true →
  ∃ a, a ∈ Chat.users c ∧ Chat.groupAdmin c = Some a
       ∧ ∀ b, b ∈ Chat.users c → Chat.groupAdmin c = Some b → b = a.

Definition groupInvariant (db : DB) : Prop :=
  ∀ id c, db_chats db !! id = Some c → adminIsMember c.

(** Between two states of a collection no document appears, and every
    document is related by [R] to what it was. *)
Definition keptBy {A} (R : A → A → Prop) (m m' : gmap string A) : Prop :=
  ∀ id x', m' !! id = Some x' → ∃ x, m !! id = Some x ∧ R x x'.

(** No document that carried the flag has lost it. *)
Definition flagKept {A} (flag : A → bool) (m m' : gmap string A) : Prop :=
  keptBy (fun x x' => flag x = true → flag x' = true) m m'.

(** No note has come to hold two ratings of one user. *)
Definition ratingsKept (db db' : DB) : Prop :=
  keptBy (fun n n' => oneRatingPerUser n → oneRatingPerUser n')
         (db_notes db) (db_notes db').

Definition verifiedKept (db db' : DB) : Prop :=
  flagKept Note.isVerified (db_notes db) (db_notes db')
  ∧ flagKept Video.isVerified (db_videos db) (db_videos db')
  ∧ flagKept PYQ.isVerified (db_pyqs db) (db_pyqs db').

(** ** The routers

    A router is given with [req.user] as [protect] set it and with the
    outcome of each multer pass of the request; it answers with the
    status of the response, or with the error that ended the request.
    The listing routes ([GET /]) read the database only and are left
    out. *)

Definition downloadSolution (id : ObjectId) : M (Response string) :=
  pyq ← findPYQ id;
  throwIf (negb (PYQ.hasSolution pyq) || negb (truthy (PYQ.solutionFileUrl pyq)))
          404 "No solution available for this PYQ";;
  mret (Respond 302 (default "" (PYQ.solutionFileUrl pyq))).

(** [routes/noteRoutes.js] *)
Inductive NoteRoute :=
| POST_notes (newId : ObjectId) (body : InfoBody.t) (file : Multer)
| GET_note (id : ObjectId)
| PUT_note (id : ObjectId) (body : InfoBody.t) (file : Multer)
| DELETE_note (id : ObjectId)
| PUT_note_verify (id : ObjectId)
| POST_note_ratings (now : Z) (id : ObjectId) (body : RatingBody.t)
| GET_note_download (id : ObjectId)
| PUT_note_views (id : ObjectId).

Definition noteRoutes (origin : string) (user : User.t) (r : NoteRoute) (db : DB)
    : Result nat * DB :=
  match r with
  | POST_notes newId body file =>
      outcome ((isVerified user;;
                req ← uploadSingle origin file Request.empty;
                createNote newId user body (Request.fileInfo req)) db)
  | GET_note id => outcome ((isVerified user;; getNote id) db)
  | PUT_note id body file =>
      outcome ((isVerified user;;
                req ← uploadSingle origin file Request.empty;
                updateNote user id body (Request.fileInfo req)) db)
  | DELETE_note id => outcome ((isVerified user;; deleteNote user id) db)
  | PUT_note_verify id =>
      outcome ((isVerified user;; authorize [admin; teacher] user;; verifyNote id) db)
  | POST_note_ratings now id body =>
      outcome ((isVerified user;; addRating now user id body) db)
  | GET_note_download id => outcome ((isVerified user;; downloadNote id) db)
  | PUT_note_views id => outcome ((isVerified user;; incrementNoteViews id) db)
  end.

(** [routes/videoRoutes.js] *)
Inductive VideoRoute :=
| POST_videos (newId : ObjectId) (body : VideoBody.t) (file : Multer)
| GET_video (id : ObjectId)
| PUT_video (id : ObjectId) (body : VideoBody.t) (file : Multer)
| DELETE_video (id : ObjectId)
| PUT_video_verify (id : ObjectId)
| PUT_video_like (id : ObjectId)
| POST_video_comments (newId : ObjectId) (id : ObjectId) (text : option string)
| DELETE_video_comment (id commentId : ObjectId).

Definition videoRoutes (origin : string) (user : User.t) (r : VideoRoute) (db : DB)
    : Result nat * DB :=
  match r with
  | POST_videos newId body file =>
      outcome ((isVerified user;;
                req ← uploadSingle origin file Request.empty;
                createVideo newId user body (Request.fileInfo req)) db)
  | GET_video id => outcome ((isVerified user;; getVideo id) db)
  | PUT_video id body file =>
      outcome ((isVerified user;;
                req ← uploadSingle origin file Request.empty;
                updateVideo user id body (Request.fileInfo req)) db)
  | DELETE_video id => outcome ((isVerified user;; deleteVideo user id) db)
  | PUT_video_verify id =>
      outcome ((isVerified user;; authorize [admin; teacher] user;; verifyVideo id) db)
  | PUT_video_like id => outcome ((isVerified user;; likeVideo user id) db)
  | POST_video_comments newId id text =>
      outcome ((isVerified user;; addComment newId user id text) db)
  | DELETE_video_comment id commentId =>
      outcome ((isVerified user;; deleteComment user id commentId) db)
  end.

(** [routes/pyqRoutes.js]; [hasSolution] is [req.body.hasSolution]. *)
Inductive PyqRoute :=
| POST_pyq (newId : ObjectId) (body : PYQBody.t) (hasSolution : option string)
           (passes : TwoPasses)
| GET_pyq (id : ObjectId)
| PUT_pyq (id : ObjectId) (body : PYQBody.t) (hasSolution : option string)
          (passes : TwoPasses)
| DELETE_pyq (id : ObjectId)
| PUT_pyq_solution (id : ObjectId) (file : Multer)
| PUT_pyq_verify (id : ObjectId)
| GET_pyq_download (id : ObjectId)
| GET_pyq_solution_download (id : ObjectId).

Definition pyqRoutes (origin : string) (user : User.t) (r : PyqRoute) (db : DB)
    : Result nat * DB :=
  match r with
  | POST_pyq newId body hasSolution passes =>
      outcome ((isVerified user;;
                req ← handlePYQFiles origin hasSolution passes Request.empty;
                createPYQ newId user body (Request.fileInfo req)
                          (Request.solutionFileInfo req)) db)
  | GET_pyq id => outcome ((isVerified user;; getPYQ id) db)
  | PUT_pyq id body hasSolution passes =>
      outcome ((isVerified user;;
                req ← handlePYQFiles origin hasSolution passes Request.empty;
                updatePYQ user id body (Request.fileInfo req)
                          (Request.solutionFileInfo req)) db)
  | DELETE_pyq id => outcome ((isVerified user;; deletePYQ user id) db)
  | PUT_pyq_solution id file =>
      outcome ((isVerified user;; authorize [admin; teacher] user;;
                req ← uploadSingle origin file Request.empty;
                addSolution id (Request.fileInfo req)) db)
  | PUT_pyq_verify id =>
      outcome ((isVerified user;; authorize [admin; teacher] user;; verifyPYQ id) db)
  | GET_pyq_download id => outcome ((isVerified user;; downloadPYQ id) db)
  | GET_pyq_solution_download id => outcome ((isVerified user;; downloadSolution id) db)
  end.

(** [routes/syllabusRoutes.js] *)
Inductive SyllabusRoute :=
| POST_syllabus (newId : ObjectId) (body : SyllabusBody.t) (file : Multer)
| GET_syllabus (id : ObjectId)
| PUT_syllabus (id : ObjectId) (body : SyllabusBody.t) (file : Multer)
| DELETE_syllabus (id : ObjectId)
| GET_syllabus_download (id : ObjectId).

Definition syllabusRoutes (origin : string) (user : User.t) (r : SyllabusRoute)
    (db : DB) : Result nat * DB :=
  match r with
  | POST_syllabus newId body file =>
      outcome ((isVerified user;; authorize [admin; teacher] user;;
                req ← uploadSingle origin file Request.empty;
                createSyllabus newId user body (Request.fileInfo req)) db)
  | GET_syllabus id => outcome ((isVerified user;; getSyllabus id) db)
  | PUT_syllabus id body file =>
      outcome ((isVerified user;; authorize [admin; teacher] user;;
                req ← uploadSingle origin file Request.empty;
                updateSyllabus user id body (Request.fileInfo req)) db)
  | DELETE_syllabus id =>
      outcome ((isVerified user;; authorize [admin; teacher] user;;
                deleteSyllabus user id) db)
  | GET_syllabus_download id => outcome ((isVerified user;; downloadSyllabus id) db)
  end.

(** A request to one of the four content routers. *)
Inductive ContentRoute :=
| NoteR (r : NoteRoute)
| VideoR (r : VideoRoute)
| PyqR (r : PyqRoute)
| SyllabusR (r : SyllabusRoute).

Definition contentRoutes (origin : string) (user : User.t) (r : ContentRoute)
    (db : DB) : Result nat * DB :=
  match r with
  | NoteR r => noteRoutes origin user r db
  | VideoR r => videoRoutes origin user r db
  | PyqR r => pyqRoutes origin user r db
  | SyllabusR r => syllabusRoutes origin user r db
  end.

(** The database after a sequence of requests, each with its user. *)
Definition serveAll (origin : string) (rs : list (User.t * ContentRoute)) (db : DB)
    : DB :=
  fold_left (fun db ur => (contentRoutes origin ur.1 ur.2 db).2) rs db.

(** Every document that carries the flag carried it before. *)
Definition grantedBefore {A} (flag : A → bool) (m m' : gmap string A) : Prop :=
  ∀ id x', m' !! id = Some x' → flag x' = true →
           ∃ x, m !! id = Some x ∧ flag x = true.

Definition noneVerified (db db' : DB) : Prop :=
  grantedBefore Note.isVerified (db_notes db) (db_notes db')
  ∧ grantedBefore Video.isVerified (db_videos db) (db_videos db')
  ∧ grantedBefore PYQ.isVerified (db_pyqs db) (db_pyqs db').

(** Whatever the outcome of [m], the database it leaves is related by
    [P] to the one it started from. *)
Definition keeps {A} (P : DB → DB → Prop) (m : M A) : Prop :=
  ∀ db, P db (m db).2.

(** ** More of communityController.js *)

(** The filter of [accessChat]: a one-to-one chat with both users. *)
Definition isChatBetween (a b : ObjectId) (c : Chat.t) : bool :=
  negb (Chat.isGroupChat c) && includes (Chat.users c) a && includes (Chat.users c) b.

(** [accessChat].  Which chat [findOne] returns when several match is
    the order of [map_to_list]; nothing stated below depends on it. *)
Definition accessChat (newId : ObjectId) (user : User.t) (userId : option string)
    : M (Response Chat.t) :=
  throwIf (negb (truthy userId)) 400 "Please provide a user ID";;
  let userId := default "" userId in
  chat ← gets (fun db =>
    List.find (fun kv => isChatBetween (User._id user) userId kv.2)
              (map_to_list (db_chats db)));
  match chat with
  | Some (_, chat) => mret (Respond 200 chat)
  | None =>
      let chatData :=
        Chat.mk "sender" false [User._id user; userId] None false None None None None in
      (if validChat chatData then mret tt else validationError);;
      modify (with_chats (insert newId chatData));;
      mret (Respond 200 chatData)
  end.

(** [content.length > 50 ? content.substring(0, 50) + '...' : content] *)
Definition preview (content : string) : string :=
  if (50 <? String.length content)%nat
  then (String.substring 0 50 content ++ "...")%string
  else content.

(** [sendMessage].  The message schema trims [content] and requires it;
    the new message is the newest of the collection.  The chat's
    [latestMessage], which the controller sets next, is not a field of
    [Chat.t]. *)
Definition sendMessage (newId : ObjectId) (user : User.t) (chatId content : option string)
    (filesInfo : list Upload.t) : M (Response Message.t) :=
  throwIf (negb (truthy chatId) || negb (truthy content))
          400 "Please provide chat ID and message content";;
  let chatId := default "" chatId in
  let content := default "" content in
  chat ← findChat chatId;
  throwIf (negb (includes (Chat.users chat) (User._id user)))
          403 "Not authorized to send messages to this chat";;
  let attachments := attachmentOf <$> filesInfo in
  let message := Message.mk newId (User._id user) (trim content) chatId
                            [User._id user] attachments false in
  (if String.eqb (trim content) "" then validationError else mret tt);;
  modify (with_messages (fun ms => ms ++ [message]));;
  tryCatch (
    let otherUsers := List.filter (fun userId => negb (sameId userId (User._id user)))
                                  (Chat.users chat) in
    match otherUsers with
    | [] => mret tt
    | _ :: _ =>
        sender ← gets (fun db => db_users db !! User._id user);
        match sender with
        | None => typeError
        | Some sender =>
            notifyUsers (Notification.mk ("New message from " ++ User.name sender)
                                         (preview content) "message" otherUsers);;
            mret tt
        end
    end);;
  mret (Respond 201 message).

(** ** More of adminController.js *)

Definition findUser (id : ObjectId) : M User.t :=
  u ← gets (fun db => db_users db !! id);
  match u with
  | Some u => mret u
  | None => throw 404 ("User not found with id of " ++ id)
  end.

(** [deleteUser]; the collection is keyed by [_id], so
    [user.deleteOne()] removes the entry under [user._id]. *)
Definition deleteUser (id : ObjectId) : M (Response bool) :=
  user ← findUser id;
  (if bool_decide (User.role user = admin)
   then
     adminCount ← gets (fun db =>
       countDocuments (fun u => bool_decide (User.role u = admin)) (db_users db));
     throwIf (adminCount <=? 1)%nat 400 "Cannot delete the last admin user"
   else mret tt);;
  modify (with_users (delete (User._id user)));;
  mret (Respond 200 true).

(** [createUser].  The body carries no [year] and no [semester]; the
    new document is validated by the schema, whose [required] rule for a
    student is written out and whose other rules are [validUser]; the
    save hook hashes the password of a new document. *)
Definition createUser (newId : ObjectId) (body : CreateUserBody.t)
    : M (Response User.t) :=
  userExists ← gets (fun db =>
    existsb (fun u => bool_decide (Some (User.email u) = CreateUserBody.email body))
            (map_to_list (db_users db)).*2);
  throwIf userExists 400 "Email already registered";;
  let draft :=
    name ← CreateUserBody.name body;
    email ← CreateUserBody.email body;
    password ← CreateUserBody.password body;
    role ← castRole (CreateUserBody.role body);
    Some (User.mk newId name email password role (CreateUserBody.branch body)
                  None None None true None) in
  match draft with
  | None => validationError
  | Some user =>
      (if requiredForStudent user && validUser user then mret tt else validationError);;
      user ← saveUser user;
      mret (Respond 201 user)
  end.

(** [deleteSubject]; the subjects are a collection of their own, passed
    beside the database, which is only read. *)
Definition deleteSubject (id : ObjectId) (subjects : gmap string Subject.t) (db : DB)
    : Result (Response bool) * gmap string Subject.t :=
  match subjects !! id with
  | None => (Err 404 ("Subject not found with id of " ++ id), subjects)
  | Some subject =>
      let notesCount :=
        countDocuments (fun n => bool_decide (Info.subject (Note.info n) = id))
                       (db_notes db) in
      let syllabusCount :=
        countDocuments (fun s => bool_decide (Info.subject (Syllabus.info s) = id))
                       (db_syllabi db) in
      let videosCount :=
        countDocuments (fun v => bool_decide (Info.subject (Video.info v) = id))
                       (db_videos db) in
      let pyqsCount :=
        countDocuments (fun p => bool_decide (Info.subject (PYQ.info p) = id))
                       (db_pyqs db) in
      if (0 <? notesCount)%nat || (0 <? syllabusCount)%nat || (0 <? videosCount)%nat
         || (0 <? pyqsCount)%nat
      then (Err 400 ("Cannot delete subject with associated content. Found "
                     ++ showNat notesCount ++ " notes, " ++ showNat syllabusCount
                     ++ " syllabi, " ++ showNat videosCount ++ " videos, and "
                     ++ showNat pyqsCount ++ " PYQs."),
            subjects)
      else (Ok (Respond 200 true), delete id subjects)
  end.

(** The users are stored under their [_id]. *)
Definition keyedById (db : DB) : Prop :=
  ∀ k u, db_users db !! k = Some u → User._id u = k.

(** [User.countDocuments({ role: 'admin' })] *)
Definition adminCount (db : DB) : nat :=
  countDocuments (fun u => bool_decide (User.role u = admin)) (db_users db).

(** ** Invariants of the stored documents *)

(** The ratings of a note: one per user, each between 1 and 5. *)
Definition ratingsFine (rs : list Rating.t) : Prop :=
  NoDup (Rating.user <$> rs)
  ∧ Forall (fun r => (1 <= Rating.rating r)%Q ∧ (Rating.rating r <= 5)%Q) rs.

(** Moreover the stored average is the one of the stored ratings. *)
Definition ratingsOk (n : Note.t) : Prop :=
  ratingsFine (Note.ratings n)
  ∧ Note.averageRating n
    = match Note.ratings n with
      | [] => (0 # 1)%Q
      | _ :: _ => ratingMean (Note.ratings n)
      end.

(** The like counter of a video counts the users who like it. *)
Definition likesOk (v : Video.t) : Prop :=
  Video.likes v = Z.of_nat (length (Video.usersLiked v))
  ∧ NoDup (Video.usersLiked v).

(** If every document of [m] satisfies [I], so does every one of [m']. *)
Definition invKept {A} (I : A → Prop) (m m' : gmap string A) : Prop :=
  (∀ id x, m !! id = Some x → I x) → ∀ id x, m' !! id = Some x → I x.

Definition contentInv (db db' : DB) : Prop :=
  invKept ratingsOk (db_notes db) (db_notes db')
  ∧ invKept likesOk (db_videos db) (db_videos db').

(** No file of the upload directory is gone. *)
Definition filesKept (db db' : DB) : Prop := db_files db ⊆ db_files db'.

(** [if (x) updateFields.x = x] *)
Definition fieldIf (x : option string) : option string :=
  if truthy x then x else None.

(** The same for a path with a cast; [None] when the cast fails. *)
Definition castIf {A} (cast : string → option A) (x : option string)
    : option (option A) :=
  if truthy x then Some <$> (x ≫= cast) else Some None.

(** [updateFields] of [updateUser], cast to the schema types ([name]
    is a [trim] path); the password is hashed by the controller. *)
Definition userUpdateOf (body : UpdateUserBody.t) : option UserUpdate.t :=
  role ← castIf (fun s => castRole (Some s)) (UpdateUserBody.role body);
  year ← castIf castNumber (UpdateUserBody.year body);
  semester ← castIf castNumber (UpdateUserBody.semester body);
  isVerified ← match UpdateUserBody.isVerified body with
               | FlagAbsent => Some None
               | f => Some <$> castBoolean f
               end;
  Some (UserUpdate.mk (trim <$> fieldIf (UpdateUserBody.name body))
                      (fieldIf (UpdateUserBody.email body))
                      role
                      (fieldIf (UpdateUserBody.branch body))
                      year semester isVerified
                      (bcryptHash <$> fieldIf (UpdateUserBody.password body))).

(** The document after [$set]. *)
Definition applyUserUpdate (f : UserUpdate.t) (u : User.t) : User.t :=
  User.mk (User._id u)
          (default (User.name u) (UserUpdate.name f))
          (default (User.email u) (UserUpdate.email f))
          (default (User.password u) (UserUpdate.password f))
          (default (User.role u) (UserUpdate.role f))
          (match UserUpdate.branch f with Some b => Some b | None => User.branch u end)
          (match UserUpdate.year f with Some y => Some y | None => User.year u end)
          (match UserUpdate.semester f with Some s => Some s | None => User.semester u end)
          (User.fcmToken u)
          (default (User.isVerified u) (UserUpdate.isVerified f))
          (User.otp u).

(** [updateUser]: [findByIdAndUpdate] with [runValidators].  The update
    is cast and validated before it is sent, [validUpdate] being the
    update validators of the user schema, which see the paths that are
    set; the unique index on [email] refuses the e-mail of another user.
    The save hook does not run. *)
Definition updateUser (validUpdate : UserUpdate.t → bool) (id : ObjectId)
    (body : UpdateUserBody.t) : M (Response User.t) :=
  match userUpdateOf body with
  | None => validationError
  | Some fields =>
      (if validUpdate fields then mret tt else validationError);;
      user ← findUser id;
      let user' := applyUserUpdate fields user in
      taken ← gets (fun db =>
        existsb (fun kv => negb (sameId kv.1 id)
                           && String.eqb (User.email kv.2) (User.email user'))
                (map_to_list (db_users db)));
      throwIf taken (errorStatus "MongoServerError") "Duplicate key";;
      modify (with_users (insert id user'));;
      mret (Respond 200 user')
  end.

(** [routes/adminRoutes.js], the routes whose controllers are rendered
    here: every route comes after [isVerified] and [authorize('admin')]. *)
Inductive AdminRoute :=
| POST_users (newId : ObjectId) (body : CreateUserBody.t)
| PUT_user (id : ObjectId) (body : UpdateUserBody.t)
| DELETE_user (id : ObjectId)
| PUT_announcement (id : ObjectId) (body : AnnouncementBody.t) (files : MulterArray)
| DELETE_announcement (id : ObjectId)
| PUT_verify_content (contentType contentId : option string).

Definition adminRoutes (validUpdate : UserUpdate.t → bool) (origin : string)
    (user : User.t) (r : AdminRoute) (db : DB) : Result nat * DB :=
  match r with
  | POST_users newId body =>
      outcome ((isVerified user;; authorize [admin] user;; createUser newId body) db)
  | PUT_user id body =>
      outcome ((isVerified user;; authorize [admin] user;;
                updateUser validUpdate id body) db)
  | DELETE_user id =>
      outcome ((isVerified user;; authorize [admin] user;; deleteUser id) db)
  | PUT_announcement id body files =>
      outcome ((isVerified user;; authorize [admin] user;;
                filesInfo ← uploadMultiple origin files;
                updateAnnouncement user id body filesInfo) db)
  | DELETE_announcement id =>
      outcome ((isVerified user;; authorize [admin] user;; deleteAnnouncement user id) db)
  | PUT_verify_content contentType contentId =>
      outcome ((isVerified user;; authorize [admin] user;;
                verifyContent contentType contentId) db)
  end.







(** * Properties *)

(** Drop the parameters of the section that the goal does not mention. *)
Ltac tidy :=
  try clear castNumber; try clear castObjectId;
  try clear validChat; try clear validNote;
  try clear validVideo; try clear validPYQ; try clear validSyllabus;
  try clear validAnnouncement; try clear validUser; try clear errorStatus;
  try clear jsonParse; try clear getVideoInfo; try clear youtubeIdOf;
  try clear firebaseFails; try clear bcryptHash.

Ltac munfold :=
  unfold validationError, typeError, throwIf in *;
  unfold mbind, M_bind, mret, M_ret, bind, ret, throw, gets, modify, tryCatch in *.

(** ** The visibility filter *)

Lemma parseInt_plain : parseInt "3" = Num 3.
Proof. reflexivity. Qed.

Lemma parseInt_junk_suffix : parseInt "  -12px" = Num (-12).
Proof. reflexivity. Qed.

Lemma parseInt_hex : parseInt "0x1f" = Num 31.
Proof. reflexivity. Qed.

Lemma parseInt_nan : parseInt "second" = NaN.
Proof. reflexivity. Qed.

Lemma truthy_None : truthy None = false.
Proof. reflexivity. Qed.

Lemma truthy_Some_true (x : option string) :
  truthy x = true → ∃ s, x = Some s ∧ s ≠ "".
Proof.
  destruct x as [s|]; simpl; [|discriminate].
  intros H. exists s. split; [reflexivity|].
  intros ->. discriminate.
Qed.

(** C1. For every actor and listing query, each of branch, year and
    semester is constrained to the value the query supplies when it
    supplies one (for year and semester, its [parseInt]); otherwise, for a
    student whose profile has the field set, to the student's own value;
    otherwise the field is unconstrained.  A subject constraint is present
    exactly when the query names a subject, whatever the role.  A query
    supplies a value, and a profile field is set, in the sense of the
    JavaScript tests [if (x)].  The four listing controllers build their
    filter with this function. *)
Theorem C1_visibility_filter (query : Query.t) (user : User.t) :
  let f := filterEducationalResources query (User.role user) (User.data user) in
  Filter.branch f
    = visibleValue (suppliedText (Query.branch query)) (User.role user)
                   (suppliedText (User.branch user))
  ∧ Filter.year f
    = visibleValue (suppliedNumber (Query.year query)) (User.role user)
                   (profileNumber (User.year user))
  ∧ Filter.semester f
    = visibleValue (suppliedNumber (Query.semester query)) (User.role user)
                   (profileNumber (User.semester user))
  ∧ (is_Some (Filter.subject f) ↔ truthy (Query.subject query) = true)
  ∧ Filter.subject f = suppliedText (Query.subject query)
  ∧ getNotes user query = f ∧ getSyllabi user query = f
  ∧ getVideos user query = f
  ∧ ∀ examType examYear difficulty hasSolution,
      PYQFilter.base
        (getPYQs user (PYQQuery.mk query examType examYear difficulty hasSolution)) = f.
Proof.
  destruct query as [qb qy qs qj], user as [i n e p r ub uy us t v o].
  cbn -[parseInt truthy truthyNum].
  unfold suppliedText, suppliedNumber, profileNumber, visibleValue.
  repeat split.
  - destruct qb as [b|]; [destruct (truthy (Some b)) eqn:E|]; simpl; try done;
      destruct r, ub as [u|]; simpl; try done; destruct (truthy (Some u)); done.
  - destruct qy as [y|]; [destruct (truthy (Some y)) eqn:E|]; simpl; try done;
      destruct r, uy as [u|]; simpl; try done; destruct (truthyNum (Some u)); done.
  - destruct qs as [y|]; [destruct (truthy (Some y)) eqn:E|]; simpl; try done;
      destruct r, us as [u|]; simpl; try done; destruct (truthyNum (Some u)); done.
  - destruct qj as [j|]; [destruct (truthy (Some j)) eqn:E|]; simpl;
      intros [x Hx]; congruence.
  - destruct qj as [j|]; [destruct (truthy (Some j)) eqn:E|]; simpl;
      intros H; try discriminate; eauto.
Qed.

(** ** Group membership *)

Lemma includes_true (l : list string) (x : string) : includes l x = true ↔ x ∈ l.
Proof. unfold includes. apply bool_decide_eq_true. Qed.

Lemma includes_false (l : list string) (x : string) : includes l x = false ↔ x ∉ l.
Proof. unfold includes. apply bool_decide_eq_false. Qed.

Lemma sameId_true (a b : string) : sameId a b = true ↔ a = b.
Proof. unfold sameId. apply bool_decide_eq_true. Qed.

Lemma sameId_false (a b : string) : sameId a b = false ↔ a ≠ b.
Proof. unfold sameId. apply bool_decide_eq_false. Qed.

Lemma elem_of_addToSet (x y : string) (l : list string) :
  y ∈ addToSet x l ↔ y ∈ l ∨ y = x.
Proof.
  unfold addToSet. destruct (includes l x) eqn:E.
  - apply includes_true in E. split; [auto|]. intros [H| ->]; assumption.
  - rewrite elem_of_app, list_elem_of_singleton. reflexivity.
Qed.

Lemma elem_of_addEachToSet (xs : list string) (y : string) (l : list string) :
  y ∈ addEachToSet xs l ↔ y ∈ l ∨ y ∈ xs.
Proof.
  unfold addEachToSet. revert l.
  induction xs as [|x xs IH]; intros l; simpl.
  - split; [auto|]. intros [H|H]; [assumption|]. inversion H.
  - rewrite IH, elem_of_addToSet, elem_of_cons. tidy; tauto.
Qed.

Lemma elem_of_pull (x y : string) (l : list string) :
  y ∈ pull x l ↔ y ∈ l ∧ y ≠ x.
Proof. unfold pull. rewrite list_elem_of_filter. tidy; tauto. Qed.

Lemma adminIsMember_intro (c : Chat.t) (a : string) :
  Chat.groupAdmin c = Some a → a ∈ Chat.users c → adminIsMember c.
Proof.
  intros Ha Hin _. exists a. repeat split; try assumption.
  intros b _ Hb. congruence.
Qed.

Lemma adminIsMember_users (c : Chat.t) (us : list string) :
  adminIsMember c →
  (∀ a, Chat.groupAdmin c = Some a → a ∈ Chat.users c → a ∈ us) →
  adminIsMember (Chat.set_users us c).
Proof.
  intros Hc Hus Hg. destruct (Hc Hg) as (a & Hin & Ha & _).
  apply (adminIsMember_intro _ a); simpl; auto.
Qed.

Lemma groupInvariant_same (db db' : DB) :
  db_chats db' = db_chats db → groupInvariant db → groupInvariant db'.
Proof. unfold groupInvariant. intros ->. auto. Qed.

Lemma groupInvariant_insert (db db' : DB) (id : string) (c : Chat.t) :
  db_chats db' = <[id:=c]> (db_chats db) →
  groupInvariant db → adminIsMember c → groupInvariant db'.
Proof.
  unfold groupInvariant. intros -> Hdb Hc id' c'. rewrite lookup_insert.
  case_decide; [intros [= <-]; assumption | apply Hdb].
Qed.

Ltac inv_same := eapply groupInvariant_same; [reflexivity | assumption].
Ltac inv_insert := eapply groupInvariant_insert; [reflexivity | assumption | ].

Lemma handleGroup_invariant (r : GroupReq) (db : DB) :
  evictsAdmin db r = false → groupInvariant db →
  groupInvariant (handleGroup r db).2.
Proof.
  intros Hev Hdb.
  destruct r as [newId user body|user id|user id|user id us|user id userId|user id userId];
    simpl.
  - unfold createGroupChat. munfold.
    repeat (case_match; simplify_eq/=; try inv_same).
    inv_insert.
    eapply adminIsMember_intro; simpl; [reflexivity|].
    apply elem_of_app. right. apply list_elem_of_singleton. reflexivity.
  - unfold joinGroup, findChat, notifyUsers. munfold.
    destruct (db_chats db !! id) as [c|] eqn:Hc; simpl; [|inv_same].
    repeat (case_match; simplify_eq/=; try inv_same);
      inv_insert;
      (apply adminIsMember_users; [eauto|]);
      intros a _ Ha; apply elem_of_addToSet; auto.
  - unfold leaveGroup, findChat, groupAdminToString. munfold.
    destruct (db_chats db !! id) as [c|] eqn:Hc; simpl; [|inv_same].
    repeat (case_match; simplify_eq/=; try inv_same).
    inv_insert.
    apply adminIsMember_users; [eauto|].
    intros a Ha Hin. apply elem_of_pull. split; [assumption|].
    match goal with H : sameId _ _ = false |- _ => apply sameId_false in H end.
    congruence.
  - unfold addToGroup, findChat, groupAdminToString. munfold.
    destruct us as [us|]; simpl; [|inv_same].
    destruct (db_chats db !! id) as [c|] eqn:Hc; simpl; [|inv_same].
    repeat (case_match; simplify_eq/=; try inv_same).
    inv_insert.
    apply adminIsMember_users; [eauto|].
    intros a _ Hin. apply elem_of_addEachToSet. auto.
  - unfold removeFromGroup, findChat, groupAdminToString. munfold.
    simpl in Hev.
    destruct (db_chats db !! id) as [c|] eqn:Hc; simpl in *; [|inv_same].
    destruct (Chat.groupAdmin c) as [ga|] eqn:Hga; simpl in *; [|inv_same].
    destruct (castObjectId userId) as [pulled|] eqn:Hcast;
      repeat (case_match; simplify_eq/=; try inv_same).
    inv_insert.
    apply adminIsMember_users; [eauto|].
    intros a Ha Hin. apply elem_of_pull. split; [assumption|].
    assert (a = ga) by congruence. subst a.
    intros ->.
    rewrite bool_decide_eq_true_2 in Hev by reflexivity.
    apply orb_false_iff in Hev. destruct Hev as [Hadm Hsp].
    apply negb_false_iff in Hsp.
    match goal with H : String.eqb _ _ && negb _ = false |- _ =>
      rewrite Hsp, Hadm in H; discriminate H
    end.
  - unfold transferGroupOwnership, findChat, groupAdminToString, notifyUsers.
    munfold.
    destruct (db_chats db !! id) as [c|] eqn:Hc; simpl; [|inv_same].
    repeat (case_match; simplify_eq/=; try inv_same).
    inv_insert.
    eapply adminIsMember_intro; simpl; [reflexivity|].
    match goal with H : negb (includes _ _) = false |- _ =>
      apply negb_false_iff, includes_true in H; exact H end.
Qed.

Lemma groupInvariant_empty (db : DB) : db_chats db = ∅ → groupInvariant db.
Proof. intros H id c. rewrite H, lookup_empty. discriminate. Qed.

Lemma reachable_invariant (db0 db : DB) :
  groupInvariant db0 → reachable db0 db → groupInvariant db.
Proof.
  intros H0 Hr. induction Hr as [|db r _ IH Hev]; [assumption|].
  apply handleGroup_invariant; assumption.
Qed.

Lemma leaveGroup_admin_denied (user : User.t) (id : string) (db : DB) (c : Chat.t) :
  db_chats db !! id = Some c → Chat.groupAdmin c = Some (User._id user) →
  ∃ msg, leaveGroup user id db = (Err 400 msg, db).
Proof.
  intros Hc Hga. unfold leaveGroup, findChat, groupAdminToString. munfold.
  rewrite Hc, Hga. simpl.
  destruct (negb (Chat.isGroupChat c)); simpl; [eauto|].
  destruct (negb (includes (Chat.users c) (User._id user))); simpl; [eauto|].
  unfold sameId. rewrite bool_decide_eq_true_2 by reflexivity. simpl. eauto.
Qed.

Lemma removeFromGroup_admin_denied (user : User.t) (id a : string) (db : DB)
    (c : Chat.t) :
  db_chats db !! id = Some c → Chat.groupAdmin c = Some a →
  User.role user ≠ admin →
  ∃ msg, removeFromGroup user id a db = (Err 403 msg, db).
Proof.
  intros Hc Hga Hrole. unfold removeFromGroup, findChat, groupAdminToString. munfold.
  rewrite Hc, Hga. simpl.
  assert (isAdminRole user = false) as ->
    by (unfold isAdminRole; apply bool_decide_eq_false; assumption).
  simpl. rewrite !andb_true_r.
  destruct (negb (String.eqb a (User._id user)) && negb (sameId a (User._id user)));
    simpl; [eauto|].
  rewrite String.eqb_refl. simpl. eauto.
Qed.

Lemma removeFromGroup_by_app_admin (user : User.t) (id a : string) (db : DB)
    (c : Chat.t) :
  db_chats db !! id = Some c → Chat.groupAdmin c = Some a →
  User.role user = admin → castObjectId a = Some a →
  let c' := Chat.set_users (pull a (Chat.users c)) c in
  removeFromGroup user id a db = (Ok (Respond 200 c'), with_chats (insert id c') db)
  ∧ (a ∉ Chat.users c') ∧ Chat.groupAdmin c' = Some a.
Proof.
  intros Hc Hga Hrole Hcast.
  unfold removeFromGroup, findChat, groupAdminToString. munfold.
  rewrite Hc, Hga, Hcast. simpl.
  assert (isAdminRole user = true) as ->
    by (unfold isAdminRole; apply bool_decide_eq_true; assumption).
  simpl. rewrite !andb_false_r. simpl.
  repeat split; [|assumption].
  rewrite elem_of_pull. tidy; tauto.
Qed.

(** The test on the group admin is a comparison of strings.  A group
    admin who is not an app admin and asks for the removal of a [userId]
    that is not the string of their stored id, but is cast to it, passes
    both tests and is pulled from the members, still named by
    [groupAdmin]. *)
Lemma removeFromGroup_other_spelling (user : User.t) (id userId a : string)
    (db : DB) (c : Chat.t) :
  db_chats db !! id = Some c → Chat.groupAdmin c = Some a →
  User._id user = a → userId ≠ a → castObjectId userId = Some a →
  let c' := Chat.set_users (pull a (Chat.users c)) c in
  removeFromGroup user id userId db
  = (Ok (Respond 200 c'), with_chats (insert id c') db)
  ∧ (a ∉ Chat.users c') ∧ Chat.groupAdmin c' = Some a.
Proof.
  intros Hc Hga Hid Hne Hcast.
  unfold removeFromGroup, findChat, groupAdminToString. munfold.
  rewrite Hc, Hga, Hcast. simpl.
  unfold sameId. rewrite (bool_decide_eq_true_2 (a = User._id user)) by congruence.
  apply String.eqb_neq in Hne. rewrite Hne. simpl. rewrite !andb_false_r. simpl.
  repeat split; [|assumption].
  rewrite elem_of_pull. tidy; tauto.
Qed.

(** C2, as amended.  Starting with no chats and serving create-group,
    join, leave, add, remove and transfer requests, as long as no
    removal of a group's current admin is sent by an app admin or names
    the admin by a [userId] that is not the string of the stored id,
    every group chat has exactly one member named by its [groupAdmin].
    In any such state the group admin's own leave is refused (400) and a
    removal that names the group admin by the stored id, sent by anyone
    who is not an app admin, is refused (403), both without a change; an
    app admin's removal of the group admin goes through and leaves
    [groupAdmin] naming a user who is no longer a member. *)
Theorem C2_group_admin_membership (db0 db : DB) :
  db_chats db0 = ∅ → reachable db0 db →
  groupInvariant db
  ∧ ∀ (user : User.t) (id a : string) (c : Chat.t),
      db_chats db !! id = Some c → Chat.groupAdmin c = Some a →
      (User._id user = a → ∃ msg, leaveGroup user id db = (Err 400 msg, db))
      ∧ (User.role user ≠ admin →
         ∃ msg, removeFromGroup user id a db = (Err 403 msg, db))
      ∧ (User.role user = admin → castObjectId a = Some a →
         ∃ c', removeFromGroup user id a db
                 = (Ok (Respond 200 c'), with_chats (insert id c') db)
               ∧ (a ∉ Chat.users c') ∧ Chat.groupAdmin c' = Some a).
Proof.
  intros H0 Hr. split.
  - eapply reachable_invariant; [|exact Hr]. apply groupInvariant_empty, H0.
  - intros user id a c Hc Hga. repeat split.
    + intros <-. eapply leaveGroup_admin_denied; eassumption.
    + intros Hrole. eapply removeFromGroup_admin_denied; eassumption.
    + intros Hrole Hcast.
      destruct (removeFromGroup_by_app_admin user id a db c Hc Hga Hrole Hcast)
        as (H1 & H2 & H3).
      eexists. repeat split; eassumption.
Qed.

(** ** Adding members *)

Lemma addEachToSet_present (us l : list string) :
  (∀ x, x ∈ us → x ∈ l) → addEachToSet us l = l.
Proof.
  unfold addEachToSet. revert l.
  induction us as [|u us IH]; intros l H; simpl; [reflexivity|].
  assert (addToSet u l = l) as ->.
  { unfold addToSet. rewrite (proj2 (includes_true l u)); [reflexivity|].
    apply H. left. }
  apply IH. intros x Hx. apply H. right. assumption.
Qed.

Lemma addEachToSet_idem (us l : list string) :
  addEachToSet us (addEachToSet us l) = addEachToSet us l.
Proof.
  apply addEachToSet_present. intros x Hx.
  apply elem_of_addEachToSet. right. assumption.
Qed.

Lemma addToGroup_ok (user : User.t) (id : string) (us : list string) (db db1 : DB)
    (r1 : Response Chat.t) :
  addToGroup user id (Some us) db = (Ok r1, db1) →
  ∃ c ga, db_chats db !! id = Some c ∧ Chat.groupAdmin c = Some ga
    ∧ negb (sameId ga (User._id user)) && negb (isAdminRole user) = false
    ∧ r1 = Respond 200 (Chat.set_users (addEachToSet us (Chat.users c)) c)
    ∧ db1 = with_chats (insert id (payload r1)) db.
Proof.
  unfold addToGroup, findChat, groupAdminToString. munfold.
  destruct (db_chats db !! id) as [c|] eqn:Hc; simpl; [|discriminate].
  destruct (Chat.groupAdmin c) as [ga|] eqn:Hga; simpl; [|discriminate].
  destruct (negb (sameId ga (User._id user)) && negb (isAdminRole user)) eqn:E;
    simpl; [discriminate|].
  intros [= <- <-]. exists c, ga. repeat split; assumption.
Qed.

(** C8. Adding users to a group through [addToGroup] is a set union:
    when the call succeeds, a user who was already a member leaves the
    member list as it was (and the call still answers 200), a new user
    makes it one longer, and repeating the same call succeeds again with
    the same answer and changes nothing, so two calls with the same user
    give N+1 members, not N+2. *)
Theorem C8_add_to_group_idempotent (user : User.t) (id : string) (us : list string)
    (db db1 : DB) (r1 : Response Chat.t) :
  addToGroup user id (Some us) db = (Ok r1, db1) →
  ∃ c, db_chats db !! id = Some c
    ∧ status r1 = 200%nat
    ∧ db_chats db1 !! id = Some (payload r1)
    ∧ (∀ u, us = [u] → u ∈ Chat.users c →
            Chat.users (payload r1) = Chat.users c)
    ∧ (∀ u, us = [u] → u ∉ Chat.users c →
            length (Chat.users (payload r1)) = S (length (Chat.users c)))
    ∧ addToGroup user id (Some us) db1 = (Ok r1, db1).
Proof.
  intros H. destruct (addToGroup_ok _ _ _ _ _ _ H) as (c & ga & Hc & Hga & Hauth & -> & ->).
  exists c. simpl. repeat split.
  - assumption.
  - apply lookup_insert_eq.
  - intros u -> Hu. unfold addEachToSet, addToSet. simpl.
    rewrite (proj2 (includes_true _ _) Hu). reflexivity.
  - intros u -> Hu. unfold addEachToSet, addToSet. simpl.
    rewrite (proj2 (includes_false _ _) Hu). rewrite length_app. simpl. lia.
  - unfold addToGroup, findChat, groupAdminToString. munfold. simpl.
    rewrite lookup_insert_eq. simpl. rewrite Hga. simpl. rewrite Hauth. simpl.
    rewrite addEachToSet_idem. unfold with_chats. simpl.
    rewrite insert_insert_eq. reflexivity.
Qed.

(** ** Unread counts *)

Lemma bucket_bump_eq (c : string) (acc : list (string * nat)) :
  bucket c (bump c acc) = Some (S (default 0%nat (bucket c acc))).
Proof.
  induction acc as [|[c' n] acc IH]; simpl.
  - rewrite bool_decide_eq_true_2 by reflexivity. reflexivity.
  - destruct (bool_decide (c' = c)) eqn:E; simpl; rewrite E; [reflexivity|exact IH].
Qed.

Lemma bucket_bump_ne (c c0 : string) (acc : list (string * nat)) :
  c ≠ c0 → bucket c0 (bump c acc) = bucket c0 acc.
Proof.
  intros Hne. induction acc as [|[c' n] acc IH]; simpl.
  - rewrite bool_decide_eq_false_2 by assumption. reflexivity.
  - destruct (bool_decide (c' = c)) eqn:E; simpl.
    + apply bool_decide_eq_true in E. subst c'.
      rewrite !bool_decide_eq_false_2 by assumption. reflexivity.
    + destruct (bool_decide (c' = c0)); [reflexivity|exact IH].
Qed.

Lemma bump_keys (c : string) (acc : list (string * nat)) :
  (bump c acc).*1 = if bool_decide (c ∈ acc.*1) then acc.*1 else acc.*1 ++ [c].
Proof.
  induction acc as [|[c' n] acc IH]; [reflexivity|].
  cbn [bump]. destruct (bool_decide (c' = c)) eqn:E; rewrite !fmap_cons; cbn [fst].
  - apply bool_decide_eq_true in E. subst c'.
    rewrite bool_decide_eq_true_2 by left. reflexivity.
  - apply bool_decide_eq_false in E. rewrite IH.
    destruct (bool_decide (c ∈ acc.*1)) eqn:E2.
    + apply bool_decide_eq_true in E2.
      rewrite bool_decide_eq_true_2 by (right; assumption). reflexivity.
    + apply bool_decide_eq_false in E2.
      rewrite bool_decide_eq_false_2; [reflexivity|].
      intros H. apply elem_of_cons in H. destruct H; [congruence|contradiction].
Qed.

Lemma bump_NoDup (c : string) (acc : list (string * nat)) :
  NoDup acc.*1 → NoDup (bump c acc).*1.
Proof.
  intros H. rewrite bump_keys. case_bool_decide; [assumption|].
  apply NoDup_app. repeat split; [assumption| |apply NoDup_singleton].
  intros x Hx Hx'. apply list_elem_of_singleton in Hx'. congruence.
Qed.

Lemma bump_sum (c : string) (acc : list (string * nat)) :
  sum_list_with snd (bump c acc) = S (sum_list_with snd acc).
Proof.
  induction acc as [|[c' n] acc IH]; simpl; [reflexivity|].
  destruct (bool_decide (c' = c)); simpl; [reflexivity|]. rewrite IH. lia.
Qed.

Lemma bump_positive (c : string) (acc : list (string * nat)) :
  (∀ k n, bucket k acc = Some n → (0 < n)%nat) →
  ∀ k n, bucket k (bump c acc) = Some n → (0 < n)%nat.
Proof.
  intros H k n. destruct (decide (c = k)) as [->|Hne].
  - rewrite bucket_bump_eq. intros [= <-]. lia.
  - rewrite bucket_bump_ne by assumption. apply H.
Qed.

(** The [$group] stage, from any accumulator. *)
Lemma group_from (ms : list Message.t) (acc : list (string * nat)) :
  let out := fold_left (fun acc m => bump (Message.chat m) acc) ms acc in
  (NoDup acc.*1 → NoDup out.*1)
  ∧ sum_list_with snd out = (sum_list_with snd acc + length ms)%nat
  ∧ ((∀ k n, bucket k acc = Some n → (0 < n)%nat) →
     ∀ k n, bucket k out = Some n → (0 < n)%nat)
  ∧ ∀ c, default 0%nat (bucket c out)
         = (default 0%nat (bucket c acc)
            + length (List.filter (fun m => bool_decide (Message.chat m = c)) ms))%nat.
Proof.
  revert acc. induction ms as [|m ms IH]; intros acc; simpl.
  - repeat split; auto; intros; lia.
  - destruct (IH (bump (Message.chat m) acc)) as (H1 & H2 & H3 & H4).
    repeat split.
    + intros H. apply H1, bump_NoDup, H.
    + rewrite H2, bump_sum. lia.
    + intros H. apply H3, bump_positive, H.
    + intros c. rewrite H4. destruct (decide (Message.chat m = c)) as [->|Hne].
      * rewrite bucket_bump_eq, bool_decide_eq_true_2 by reflexivity. simpl. lia.
      * rewrite bucket_bump_ne, bool_decide_eq_false_2 by assumption. reflexivity.
Qed.

Lemma groupByChat_bucket (ms : list Message.t) (c : string) :
  bucket c (groupByChat ms)
  = shownCount (length (List.filter (fun m => bool_decide (Message.chat m = c)) ms)).
Proof.
  destruct (group_from ms []) as (_ & _ & Hpos & Hcnt).
  specialize (Hcnt c). simpl in Hcnt. fold (groupByChat ms) in *.
  destruct (bucket c (groupByChat ms)) as [n|] eqn:E; simpl in Hcnt.
  - rewrite <- Hcnt. apply Hpos in E; [|discriminate].
    destruct n; [lia|reflexivity].
  - rewrite <- Hcnt. reflexivity.
Qed.

(** The [forEach] that fills [unreadByChat]. *)
Lemma fill_lookup (l : list (string * nat)) (m : gmap string nat) (c : string) :
  NoDup l.*1 →
  fold_left (fun acc item => <[item.1:=item.2]> acc) l m !! c
  = match bucket c l with Some n => Some n | None => m !! c end.
Proof.
  revert m. induction l as [|[k n] l IH]; intros m Hnd; simpl; [reflexivity|].
  apply NoDup_cons in Hnd. destruct Hnd as [Hk Hnd].
  rewrite IH by assumption. destruct (decide (k = c)) as [->|Hne].
  - rewrite bool_decide_eq_true_2 by reflexivity.
    assert (bucket c l = None) as ->.
    { clear -Hk. induction l as [|[k' n'] l IH]; simpl; [reflexivity|].
      simpl in Hk. rewrite bool_decide_eq_false_2.
      - apply IH. intros H. apply Hk. right. assumption.
      - intros ->. apply Hk. left. }
    apply lookup_insert_eq.
  - rewrite bool_decide_eq_false_2 by assumption.
    destruct (bucket c l); [reflexivity|]. apply lookup_insert_ne. assumption.
Qed.

Lemma fill_is_list_to_map (l : list (string * nat)) :
  NoDup l.*1 →
  fold_left (fun acc item => <[item.1:=item.2]> acc) l (∅ : gmap string nat)
  = list_to_map l.
Proof.
  intros Hnd. apply map_eq. intros c. rewrite fill_lookup by assumption.
  rewrite lookup_empty.
  destruct (bucket c l) as [n|] eqn:E.
  - symmetry. apply elem_of_list_to_map; [assumption|].
    clear -E. induction l as [|[k' n'] l IH]; simpl in *; [discriminate|].
    case_bool_decide; simplify_eq; [left|right; auto].
  - symmetry. apply not_elem_of_list_to_map. intros Hin.
    apply list_elem_of_fmap in Hin. destruct Hin as ([k n] & -> & Hin). simpl in E.
    clear -E Hin. induction l as [|[k' n'] l IH]; [inversion Hin|].
    simpl in E. case_bool_decide; [discriminate|].
    apply elem_of_cons in Hin. destruct Hin as [Heq|Hin]; [congruence|auto].
Qed.

Lemma total_is_sum (l : list (string * nat)) (a : nat) :
  fold_left (fun acc item => (acc + item.2)%nat) l a = (a + sum_list_with snd l)%nat.
Proof.
  revert a. induction l as [|x l IH]; intros a; simpl; [lia|]. rewrite IH. lia.
Qed.

Lemma elem_of_chatIdsOf (uid : string) (db : DB) (c : string) :
  c ∈ chatIdsOf uid db ↔ isMember db uid c = true.
Proof.
  unfold chatIdsOf, isMember. rewrite list_elem_of_fmap. split.
  - intros ([k ch] & -> & Hin). apply elem_of_map_to_list in Hin.
    apply map_lookup_filter_Some in Hin. destruct Hin as [Hl Hu]. simpl in *.
    rewrite Hl. apply bool_decide_eq_true. assumption.
  - destruct (db_chats db !! c) as [ch|] eqn:Hl; [|discriminate].
    intros Hu. apply bool_decide_eq_true in Hu.
    exists (c, ch). split; [reflexivity|].
    apply elem_of_map_to_list, map_lookup_filter_Some. split; assumption.
Qed.

Lemma unreadMatch_unreadFor (uid : string) (db : DB) (m : Message.t) :
  unreadMatch (chatIdsOf uid db) uid m = unreadFor db uid m.
Proof.
  unfold unreadMatch, unreadFor, includes, sameId.
  assert (bool_decide (Message.chat m ∈ chatIdsOf uid db)
          = isMember db uid (Message.chat m)) as ->.
  { destruct (isMember db uid (Message.chat m)) eqn:E.
    - apply bool_decide_eq_true, elem_of_chatIdsOf, E.
    - apply bool_decide_eq_false. rewrite elem_of_chatIdsOf, E. discriminate. }
  rewrite <- !bool_decide_not. reflexivity.
Qed.

Lemma filter_none {A} (f : A → bool) (l : list A) :
  (∀ x, x ∈ l → f x = false) → List.filter f l = [].
Proof.
  induction l as [|x l IH]; intros H; simpl; [reflexivity|].
  rewrite (H x) by left. apply IH. intros y Hy. apply H. right. assumption.
Qed.

Lemma filter_filter_length {A} (f g : A → bool) (l : list A) :
  length (List.filter g (List.filter f l))
  = length (List.filter (fun x => f x && g x) l).
Proof.
  induction l as [|x l IH]; simpl; [reflexivity|].
  destruct (f x); simpl; [destruct (g x); simpl; congruence | assumption].
Qed.

Lemma getUnreadCount_spec (user : User.t) (db : DB) :
  ∃ u, getUnreadCount user db = (Ok (Respond 200 u), db)
    ∧ Unread.totalUnread u = unreadTotal db (User._id user)
    ∧ (∀ c, Unread.unreadByChat u !! c = shownCount (unreadIn db (User._id user) c))
    ∧ Unread.totalUnread u = sumCounts (Unread.unreadByChat u).
Proof.
  unfold getUnreadCount. munfold. eexists. split; [reflexivity|]. simpl.
  set (matched := List.filter (unreadMatch (chatIdsOf (User._id user) db) (User._id user))
                              (db_messages db)).
  assert (matched = List.filter (unreadFor db (User._id user)) (db_messages db)) as Hm.
  { apply List.filter_ext. intros m. apply unreadMatch_unreadFor. }
  destruct (group_from matched []) as (Hnd & Hsum & _ & _).
  fold (groupByChat matched) in Hnd, Hsum. specialize (Hnd (NoDup_nil_2)).
  repeat split.
  - rewrite total_is_sum, Hsum, Hm. reflexivity.
  - intros c. rewrite fill_lookup by assumption. rewrite lookup_empty.
    rewrite groupByChat_bucket, Hm, filter_filter_length.
    unfold unreadIn. destruct (shownCount _); reflexivity.
  - rewrite fill_is_list_to_map by assumption. unfold sumCounts.
    rewrite map_to_list_to_map by assumption. rewrite total_is_sum. reflexivity.
Qed.

Lemma markRead_chat (chatId uid : string) (m : Message.t) :
  Message.chat (markRead chatId uid m) = Message.chat m.
Proof. unfold markRead. case_match; reflexivity. Qed.

Lemma markRead_read (chatId uid : string) (m : Message.t) :
  Message.chat m = chatId → uid ∈ Message.readBy (markRead chatId uid m).
Proof.
  intros Hc. unfold markRead, sameId. rewrite bool_decide_eq_true_2 by assumption.
  simpl. destruct (includes (Message.readBy m) uid) eqn:E; simpl.
  - apply includes_true, E.
  - apply elem_of_addToSet. right. reflexivity.
Qed.

Lemma getMessages_ok (user : User.t) (chatId : string) (page limit : option string)
    (db db' : DB) (r : Response MessagePage.t) :
  getMessages user chatId page limit db = (Ok r, db') →
  isMember db (User._id user) chatId = true
  ∧ db' = with_messages (fmap (markRead chatId (User._id user))) db.
Proof.
  unfold getMessages, findChat, isMember. munfold.
  destruct (db_chats db !! chatId) as [c|]; simpl; [|discriminate].
  destruct (includes (Chat.users c) (User._id user)) eqn:E; simpl; [|discriminate].
  destruct (_ <? 0); simpl; [discriminate|].
  intros [= _ <-]. split; [|reflexivity].
  apply bool_decide_eq_true, includes_true, E.
Qed.

(** C6. The total that [getUnreadCount] reports for a user is the number
    of messages that are in a chat the user belongs to, were sent by
    someone else, do not have the user in [readBy] and are not
    soft-deleted; the per-chat map shows, for each chat, the number of
    such messages in that chat (a chat with none has no entry), and the
    total is the sum of the per-chat counts.  After a successful
    [getMessages] on a chat, every message of that chat has the user in
    [readBy], so the user's unread count for that chat is zero. *)
Theorem C6_unread_count (user : User.t) (db : DB) :
  (∃ u, getUnreadCount user db = (Ok (Respond 200 u), db)
     ∧ Unread.totalUnread u = unreadTotal db (User._id user)
     ∧ (∀ c, Unread.unreadByChat u !! c
             = shownCount (unreadIn db (User._id user) c))
     ∧ Unread.totalUnread u = sumCounts (Unread.unreadByChat u))
  ∧ ∀ chatId page limit r db',
      getMessages user chatId page limit db = (Ok r, db') →
      (∀ m, m ∈ db_messages db' → Message.chat m = chatId →
            User._id user ∈ Message.readBy m)
      ∧ unreadIn db' (User._id user) chatId = 0%nat
      ∧ ∃ u', getUnreadCount user db' = (Ok (Respond 200 u'), db')
              ∧ Unread.unreadByChat u' !! chatId = None.
Proof.
  split; [apply getUnreadCount_spec|].
  intros chatId page limit r db' H.
  apply getMessages_ok in H. destruct H as [_ ->].
  assert (∀ m, m ∈ db_messages (with_messages (fmap (markRead chatId (User._id user))) db) →
               Message.chat m = chatId → User._id user ∈ Message.readBy m) as Hread.
  { simpl. intros m Hin Hc. apply list_elem_of_fmap in Hin.
    destruct Hin as (m0 & -> & _). apply markRead_read.
    rewrite markRead_chat in Hc. assumption. }
  assert (unreadIn (with_messages (fmap (markRead chatId (User._id user))) db)
                   (User._id user) chatId = 0%nat) as Hzero.
  { unfold unreadIn. rewrite filter_none; [reflexivity|].
    intros m Hin. destruct (bool_decide (Message.chat m = chatId)) eqn:Ec;
      [|apply andb_false_r].
    apply bool_decide_eq_true in Ec. rewrite andb_true_r. unfold unreadFor.
    rewrite (bool_decide_eq_false_2 (User._id user ∉ Message.readBy m)).
    - rewrite andb_false_r. reflexivity.
    - intros Hn. apply Hn, Hread; assumption. }
  repeat split; [exact Hread|exact Hzero|].
  destruct (getUnreadCount_spec user
    (with_messages (fmap (markRead chatId (User._id user))) db)) as (u' & Hu & _ & Hby & _).
  exists u'. split; [exact Hu|]. rewrite Hby, Hzero. reflexivity.
Qed.

(** ** Ratings *)

Lemma rateExisting_None (uid : string) (v : Q) (c : option string) (now : Z)
    (rs : list Rating.t) :
  rateExisting uid v c now rs = None ↔ uid ∉ Rating.user <$> rs.
Proof.
  induction rs as [|r rs IH]; simpl.
  - split; [intros _ H; inversion H | reflexivity].
  - destruct (sameId (Rating.user r) uid) eqn:E.
    + apply sameId_true in E. split; [discriminate|].
      intros H. exfalso. apply H. rewrite E. left.
    + apply sameId_false in E. rewrite fmap_None, IH, not_elem_of_cons.
      split; [intros H; split; [congruence|assumption] | intros [_ H]; exact H].
Qed.

Lemma rateExisting_Some (uid : string) (v : Q) (c : option string) (now : Z)
    (rs rs' : list Rating.t) :
  rateExisting uid v c now rs = Some rs' →
  uid ∈ Rating.user <$> rs
  ∧ Rating.user <$> rs' = Rating.user <$> rs
  ∧ (∀ x, Rating.user x ≠ uid → x ∈ rs' ↔ x ∈ rs)
  ∧ (NoDup (Rating.user <$> rs) →
     ∀ x, x ∈ rs' → Rating.user x = uid → Rating.rating x = v).
Proof.
  revert rs'. induction rs as [|r rs IH]; intros rs'; cbn [rateExisting];
    [discriminate|].
  rewrite !fmap_cons. destruct (sameId (Rating.user r) uid) eqn:E.
  - apply sameId_true in E. intros [= <-]. rewrite fmap_cons. cbn [Rating.user].
    split; [|split; [|split]].
    + rewrite E. left.
    + reflexivity.
    + intros x Hx. rewrite !elem_of_cons. split.
      * intros [->|Hin]; [cbn in Hx; congruence|right; assumption].
      * intros [->|Hin]; [congruence|right; assumption].
    + intros Hnd x Hin Hu. apply NoDup_cons in Hnd. destruct Hnd as [Hnot _].
      apply elem_of_cons in Hin. destruct Hin as [->|Hin]; [reflexivity|].
      exfalso. apply Hnot. rewrite E, <- Hu. apply list_elem_of_fmap_2. assumption.
  - apply sameId_false in E.
    destruct (rateExisting uid v c now rs) as [rs0|] eqn:Hr; cbn; [|discriminate].
    intros [= <-]. destruct (IH rs0 eq_refl) as (H1 & H2 & H3 & H4).
    change (list_fmap Rating.t string Rating.user rs) with (Rating.user <$> rs).
    change (list_fmap Rating.t string Rating.user rs0) with (Rating.user <$> rs0).
    split; [|split; [|split]].
    + right. assumption.
    + rewrite ?fmap_cons, H2. reflexivity.
    + intros x Hx. rewrite !elem_of_cons, (H3 x Hx). reflexivity.
    + intros Hnd x Hin Hu.
      apply NoDup_cons in Hnd. destruct Hnd as [_ Hnd].
      apply elem_of_cons in Hin. destruct Hin as [->|Hin]; [congruence|].
      apply H4; assumption.
Qed.

Lemma ratingSum_from (rs : list Rating.t) (a : Q) :
  (fold_left (fun acc item => Qplus acc (Rating.rating item)) rs a
   == a + fold_right Qplus (0 # 1) (Rating.rating <$> rs))%Q.
Proof.
  revert a. induction rs as [|r rs IH]; intros a.
  - cbn. ring.
  - rewrite fmap_cons. cbn [fold_left fold_right]. rewrite IH. ring.
Qed.



(** In exact arithmetic the formula gives the arithmetic mean. *)
Lemma ratingMean_is_mean (rs : list Rating.t) :
  (ratingMean rs == arithmeticMean (Rating.rating <$> rs))%Q.
Proof.
  unfold ratingMean, arithmeticMean, ratingSum.
  rewrite ratingSum_from, length_fmap. apply Qdiv_comp; [ring|reflexivity].
Qed.



(** ** Verification is one-way *)

Lemma keptBy_refl {A} (R : A → A → Prop) (m : gmap string A) :
  (∀ x, R x x) → keptBy R m m.
Proof. intros HR id x H. exists x. split; [assumption|apply HR]. Qed.

Lemma keptBy_trans {A} (R : A → A → Prop) (m1 m2 m3 : gmap string A) :
  (∀ x y z, R x y → R y z → R x z) →
  keptBy R m1 m2 → keptBy R m2 m3 → keptBy R m1 m3.
Proof.
  intros HR H12 H23 id x3 H3. destruct (H23 id x3 H3) as (x2 & H2 & Hf2).
  destruct (H12 id x2 H2) as (x1 & H1 & Hf1). exists x1.
  split; [assumption|eapply HR; eassumption].
Qed.

Lemma keptBy_insert {A} (R : A → A → Prop) (m : gmap string A) (id : string)
    (x x' : A) :
  (∀ x, R x x) → m !! id = Some x → R x x' → keptBy R m (<[id:=x']> m).
Proof.
  intros HR Hx Hf id' y. rewrite lookup_insert. case_decide.
  - subst id'. intros [= <-]. exists x. split; assumption.
  - intros Hy. exists y. split; [assumption|apply HR].
Qed.

Lemma keptBy_delete {A} (R : A → A → Prop) (m : gmap string A) (id : string) :
  (∀ x, R x x) → keptBy R m (delete id m).
Proof.
  intros HR id' y. rewrite lookup_delete. case_decide; [discriminate|].
  intros Hy. exists y. split; [assumption|apply HR].
Qed.

Lemma flagKept_refl {A} (flag : A → bool) (m : gmap string A) : flagKept flag m m.
Proof. apply keptBy_refl. auto. Qed.

Lemma flagKept_trans {A} (flag : A → bool) (m1 m2 m3 : gmap string A) :
  flagKept flag m1 m2 → flagKept flag m2 m3 → flagKept flag m1 m3.
Proof. apply keptBy_trans. auto. Qed.

Lemma flagKept_insert {A} (flag : A → bool) (m : gmap string A) (id : string) (x x' : A) :
  m !! id = Some x → (flag x = true → flag x' = true) →
  flagKept flag m (<[id:=x']> m).
Proof.
  intros Hx Hf.
  apply (keptBy_insert (fun x x' => flag x = true → flag x' = true) m id x x');
    auto.
Qed.

Lemma flagKept_delete {A} (flag : A → bool) (m : gmap string A) (id : string) :
  flagKept flag m (delete id m).
Proof. apply keptBy_delete. auto. Qed.

Lemma verifiedKept_refl (db : DB) : verifiedKept db db.
Proof. repeat split; apply flagKept_refl. Qed.

Lemma verifiedKept_trans (db1 db2 db3 : DB) :
  verifiedKept db1 db2 → verifiedKept db2 db3 → verifiedKept db1 db3.
Proof.
  intros (A1 & B1 & C1) (A2 & B2 & C2).
  repeat split; eapply flagKept_trans; eassumption.
Qed.

Lemma notePreSave_isVerified (n : Note.t) :
  Note.isVerified (notePreSave n) = Note.isVerified n.
Proof. unfold notePreSave. destruct (Note.ratings n); reflexivity. Qed.

Lemma videoPreSave_isVerified (v : Video.t) :
  Video.isVerified (videoPreSave v) = Video.isVerified v.
Proof. unfold videoPreSave. repeat case_match; reflexivity. Qed.

(** One collection after a request: unchanged, one document rewritten
    with its flag kept or set, or one document removed. *)
Ltac kept_one :=
  first
    [ apply flagKept_refl
    | apply flagKept_delete
    | eapply flagKept_insert;
      [ eassumption
      | rewrite ?notePreSave_isVerified, ?videoPreSave_isVerified; cbn;
        solve [ auto ] ] ].

Ltac kept := split; [|split]; cbn; kept_one.

Ltac content_cases :=
  munfold; repeat (case_match; simplify_eq/=);
  repeat match goal with
    | H : _ <$> _ = Some _ |- _ =>
        apply fmap_Some in H; destruct H as (? & ? & ?); simplify_eq/=
    | H : option_bind _ _ _ _ = Some _ |- _ =>
        apply bind_Some in H; destruct H as (? & ? & H); simplify_eq/=
    end;
  try kept.

Lemma handleContent_kept (r : ContentReq) (db : DB) :
  verifiedKept db (handleContent r db).
Proof.
  destruct r; cbn [handleContent].
  - unfold verifyNote, findNote, saveNote. content_cases.
  - unfold verifyVideo, findVideo, saveVideo. content_cases.
  - unfold verifyPYQ, findPYQ, savePYQ. content_cases.
  - unfold verifyContent, saveNote, saveVideo, savePYQ, notifyUsers. content_cases.
  - unfold updateNote, findNote, deleteFile. content_cases.
  - unfold updateVideo, findVideo. content_cases.
  - unfold updatePYQ, findPYQ, deleteFile. content_cases.
  - unfold updateSyllabus, findSyllabus, parseIf, deleteFile. content_cases.
  - unfold addRating, findNote, saveNote. content_cases.
  - unfold likeVideo, findVideo, saveVideo. content_cases.
  - unfold addComment, findVideo, saveVideo. content_cases.
  - unfold deleteComment, findVideo, saveVideo. content_cases.
  - unfold downloadNote, findNote, saveNote. content_cases.
  - unfold downloadPYQ, findPYQ, savePYQ. content_cases.
  - unfold downloadSyllabus, findSyllabus, saveSyllabus. content_cases.
  - unfold getNote, findNote, saveNote. content_cases.
  - unfold incrementNoteViews, findNote, saveNote. content_cases.
  - unfold getVideo, findVideo, saveVideo. content_cases.
  - unfold getPYQ, findPYQ, savePYQ. content_cases.
  - unfold getSyllabus, findSyllabus, saveSyllabus. content_cases.
  - unfold addSolution, findPYQ, savePYQ, deleteFile. content_cases.
  - unfold deleteNote, findNote, deleteFile. content_cases.
  - unfold deleteVideo, findVideo. content_cases.
  - unfold deletePYQ, findPYQ, deleteFile. content_cases.
  - unfold deleteSyllabus, findSyllabus, deleteFile. content_cases.
Qed.

Lemma runContent_kept (rs : list ContentReq) (db : DB) :
  verifiedKept db (runContent rs db).
Proof.
  revert db. induction rs as [|r rs IH]; intros db; cbn.
  - apply verifiedKept_refl.
  - eapply verifiedKept_trans; [apply handleContent_kept|apply IH].
Qed.

(** C3. Whatever sequence of verify, update, rate, like, comment,
    download, view, add-solution and delete requests is served, a note,
    video or PYQ that was verified before is, as long as it exists,
    still verified after: no request sets [isVerified] back to false.
    (A syllabus has no such flag.) *)
Theorem C3_verification_one_way (rs : list ContentReq) (db : DB) (id : string) :
  (∀ n n', db_notes db !! id = Some n → Note.isVerified n = true →
           db_notes (runContent rs db) !! id = Some n' → Note.isVerified n' = true)
  ∧ (∀ v v', db_videos db !! id = Some v → Video.isVerified v = true →
             db_videos (runContent rs db) !! id = Some v' →
             Video.isVerified v' = true)
  ∧ (∀ p p', db_pyqs db !! id = Some p → PYQ.isVerified p = true →
             db_pyqs (runContent rs db) !! id = Some p' → PYQ.isVerified p' = true).
Proof.
  destruct (runContent_kept rs db) as (Hn & Hv & Hp).
  repeat split.
  - intros n n' H Hver H'. destruct (Hn id n' H') as (x & Hx & Hf).
    apply Hf. congruence.
  - intros v v' H Hver H'. destruct (Hv id v' H') as (x & Hx & Hf).
    apply Hf. congruence.
  - intros p p' H Hver H'. destruct (Hp id p' H') as (x & Hx & Hf).
    apply Hf. congruence.
Qed.

(** ** Verification state of an upload *)

Lemma mapResponse_ok {A B} (f : A → B) (m : M (Response A)) (db db' : DB)
    (resp : Response B) :
  mapResponse f m db = (Ok resp, db') →
  ∃ a, m db = (Ok a, db') ∧ resp = Respond (status a) (f (payload a)).
Proof.
  unfold mapResponse. munfold. destruct (m db) as [[a|st msg] d]; [|discriminate].
  intros [= <- <-]. exists a. split; reflexivity.
Qed.

Ltac create_cases :=
  munfold; repeat (case_match; simplify_eq/=);
  repeat match goal with
    | H : option_bind _ _ _ _ = Some _ |- _ =>
        apply bind_Some in H; destruct H as (? & ? & H); simplify_eq/=
    end.

(** C4, as amended.  A successful upload answers 201 with the document
    it stored under the new id.  For a note, a video and a PYQ that
    document's [isVerified] is false when the uploader is a student and
    true when the uploader is a teacher or an admin; a syllabus has no
    [isVerified] flag at all. *)
Theorem C4_verified_on_upload (r : CreateReq) (db db' : DB) (resp : Response Item) :
  handleCreate r db = (Ok resp, db') →
  status resp = 201%nat
  ∧ storedItem r db' = Some (payload resp)
  ∧ itemIsVerified (payload resp)
    = match payload resp with
      | ISyllabus _ => None
      | _ => match User.role (uploader r) with
             | student => Some false
             | teacher | admin => Some true
             end
      end.
Proof.
  intros H. destruct r as [newId user body f|newId user body f|newId user body f s
                          |newId user body f]; cbn [handleCreate] in H;
    apply mapResponse_ok in H; destruct H as (a & H & ->); cbn [uploader storedItem].
  - unfold createNote, saveNote, verifiedOnUpload in H. create_cases.
    all: rewrite lookup_insert_eq; repeat split;
      rewrite ?notePreSave_isVerified; cbn;
      destruct (User.role user); try reflexivity; try done.
  - unfold createVideo, saveVideo, verifiedOnUpload in H. create_cases.
    all: rewrite lookup_insert_eq; repeat split;
      rewrite ?videoPreSave_isVerified; cbn;
      destruct (User.role user); try reflexivity; try done.
  - unfold createPYQ, savePYQ, verifiedOnUpload in H. create_cases.
    all: rewrite ?insert_insert_eq, lookup_insert_eq; repeat split; cbn;
      destruct (User.role user); try reflexivity; try done.
  - unfold createSyllabus, saveSyllabus, parseOrEmpty in H. create_cases.
    all: rewrite lookup_insert_eq; repeat split.
Qed.

(** ** Ownership *)



Arguments deleteAttachments : simpl never.










(** ** Verification and its notification *)

Lemma verifyNote_ok (id : string) (db : DB) (n : Note.t) :
  db_notes db !! id = Some n →
  verifyNote id db
  = (Ok (Respond 200 "Note verified successfully"),
     with_notes (insert id (notePreSave (Note.set_isVerified true n))) db).
Proof.
  intros H. unfold verifyNote, findNote, saveNote. munfold. rewrite H. reflexivity.
Qed.

(** [verifyContent] on an existing note: the verification is stored,
    then a notification to the uploader is handed to [notifyUsers]; the
    answer is 200 whether or not the push fails. *)
Lemma verifyContent_note (id : string) (db : DB) (n : Note.t) :
  id ≠ "" → db_notes db !! id = Some n →
  ∃ n' note, verifyContent (Some "note") (Some id) db
    = (Ok (Respond 200 "note verified successfully"),
       with_outbox (fun o => o ++ [note]) (with_notes (insert id n') db))
    ∧ Note.isVerified n' = true
    ∧ Notification.targetUsers note = [Note.uploadedBy n].
Proof.
  intros Hid H. unfold verifyContent, saveNote, notifyUsers. munfold.
  assert (truthy (Some id) = true) as Ht.
  { cbn. apply negb_true_iff, String.eqb_neq. assumption. }
  rewrite Ht. cbn. rewrite H. cbn.
  eexists. eexists. split; [reflexivity|].
  rewrite notePreSave_isVerified. split; reflexivity.
Qed.

(** C9.  The per-item verify routes store [isVerified = true] and answer
    200, but hand nothing to [notifyUsers]: the outbox is the same after
    [verifyNote], [verifyVideo] and [verifyPYQ] as before, on every
    database and for every id.  (Only [verifyContent] notifies the
    uploader, see [verifyContent_note].) *)
Theorem C9_item_verify_queues_nothing (id : string) (db : DB) :
  db_outbox (verifyNote id db).2 = db_outbox db
  ∧ db_outbox (verifyVideo id db).2 = db_outbox db
  ∧ db_outbox (verifyPYQ id db).2 = db_outbox db
  ∧ match db_notes db !! id with
    | Some n =>
        ∃ n', verifyNote id db
              = (Ok (Respond 200 "Note verified successfully"),
                 with_notes (insert id n') db)
              ∧ Note.isVerified n' = true
    | None => True
    end.
Proof.
  repeat split.
  - unfold verifyNote, findNote, saveNote. munfold.
    destruct (db_notes db !! id); reflexivity.
  - unfold verifyVideo, findVideo, saveVideo. munfold.
    destruct (db_videos db !! id); reflexivity.
  - unfold verifyPYQ, findPYQ, savePYQ. munfold.
    destruct (db_pyqs db !! id); reflexivity.
  - destruct (db_notes db !! id) as [n|] eqn:H; [|exact I].
    eexists. split; [apply verifyNote_ok, H|].
    rewrite notePreSave_isVerified. reflexivity.
Qed.

(** ** Registration *)

Lemma userPreSave_fields (u : User.t) :
  User.role (userPreSave u) = User.role u
  ∧ User.isVerified (userPreSave u) = User.isVerified u
  ∧ User._id (userPreSave u) = User._id u.
Proof. repeat split. Qed.

(** C10.  A registration request whose [role] is supplied (in the sense
    of the JavaScript test [if (role)]) and is not ['student'] fails with
    a 400 and creates no user.  Every registration that succeeds answers
    201 with the one user it stored under the new id, and that user has
    role student and [isVerified = false], whatever the request said. *)
Theorem C10_register_student_only (newId hashedOTP : string) (body : RegisterBody.t)
    (db : DB) :
  (truthy (RegisterBody.role body) = true →
   RegisterBody.role body ≠ Some "student" →
   ∃ msg, register newId hashedOTP body db = (Err 400 msg, db))
  ∧ (∀ resp db',
       register newId hashedOTP body db = (Ok resp, db') →
       status resp = 201%nat
       ∧ User.role (payload resp) = student
       ∧ User.isVerified (payload resp) = false
       ∧ db' = with_users (insert newId (payload resp)) db).
Proof.
  split.
  - intros Ht Hne. unfold register. munfold.
    destruct (existsb _ _); cbn; [eauto|].
    rewrite Ht. cbn.
    destruct (RegisterBody.role body) as [r|] eqn:Hr; [|discriminate].
    cbn. destruct (String.eqb r "student") eqn:E; cbn; [|eauto].
    apply String.eqb_eq in E. congruence.
  - intros resp db' H. unfold register, saveUser in H. munfold.
    repeat (case_match; simplify_eq/=).
    repeat match goal with
      | H : option_bind _ _ _ _ = Some _ |- _ =>
          apply bind_Some in H; destruct H as (? & ? & H); simplify_eq/=
      | H : mbind _ _ = Some _ |- _ =>
          apply bind_Some in H; destruct H as (? & ? & H); simplify_eq/=
      end.
    repeat split. unfold with_users. cbn. rewrite insert_insert_eq. reflexivity.
Qed.
(** ** One rating per user, over request sequences *)

Lemma notePreSave_ratings (n : Note.t) :
  Note.ratings (notePreSave n) = Note.ratings n.
Proof. unfold notePreSave. destruct (Note.ratings n) eqn:E; cbn; congruence. Qed.

Lemma rated_keeps_one (uid : string) (v : Q) (c : option string) (now : Z)
    (rs : list Rating.t) :
  NoDup (Rating.user <$> rs) →
  NoDup (Rating.user <$>
           match rateExisting uid v c now rs with
           | Some rs' => rs'
           | None => rs ++ [Rating.mk v c uid now]
           end).
Proof.
  intros Hnd. destruct (rateExisting uid v c now rs) as [rs'|] eqn:E.
  - apply rateExisting_Some in E. destruct E as (_ & -> & _). assumption.
  - apply rateExisting_None in E. rewrite fmap_app.
    apply NoDup_app. repeat split; [assumption| |apply NoDup_singleton].
    intros x Hx Hx'. cbn in Hx'. apply list_elem_of_singleton in Hx'. congruence.
Qed.

Ltac ratings_one :=
  first
    [ apply keptBy_refl; solve [ auto ]
    | apply keptBy_delete; solve [ auto ]
    | eapply keptBy_insert;
      [ solve [ auto ]
      | eassumption
      | unfold oneRatingPerUser; rewrite ?notePreSave_ratings; cbn;
        solve [ auto using rated_keeps_one ] ] ].

Ltac ratings_cases :=
  munfold; repeat (case_match; simplify_eq/=);
  repeat match goal with
    | H : _ <$> _ = Some _ |- _ =>
        apply fmap_Some in H; destruct H as (? & ? & ?); simplify_eq/=
    | H : option_bind _ _ _ _ = Some _ |- _ =>
        apply bind_Some in H; destruct H as (? & ? & H); simplify_eq/=
    end;
  try (unfold ratingsKept; cbn; ratings_one).

Lemma handleContent_ratings (r : ContentReq) (db : DB) :
  ratingsKept db (handleContent r db).
Proof.
  destruct r; cbn [handleContent].
  - unfold verifyNote, findNote, saveNote. ratings_cases.
  - unfold verifyVideo, findVideo, saveVideo. ratings_cases.
  - unfold verifyPYQ, findPYQ, savePYQ. ratings_cases.
  - unfold verifyContent, saveNote, saveVideo, savePYQ, notifyUsers. ratings_cases.
  - unfold updateNote, findNote, deleteFile. ratings_cases.
  - unfold updateVideo, findVideo. ratings_cases.
  - unfold updatePYQ, findPYQ, deleteFile. ratings_cases.
  - unfold updateSyllabus, findSyllabus, parseIf, deleteFile. ratings_cases.
  - unfold addRating, findNote, saveNote. ratings_cases.
    all: unfold ratingsKept; cbn; eapply keptBy_insert; [solve [auto]|eassumption|];
      unfold oneRatingPerUser; rewrite notePreSave_ratings; cbn; intros Hnd;
      match goal with
      | H : rateExisting ?u ?v ?c ?n ?rs = _ |- _ =>
          pose proof (rated_keeps_one u v c n rs Hnd) as Hk; rewrite H in Hk; exact Hk
      end.
  - unfold likeVideo, findVideo, saveVideo. ratings_cases.
  - unfold addComment, findVideo, saveVideo. ratings_cases.
  - unfold deleteComment, findVideo, saveVideo. ratings_cases.
  - unfold downloadNote, findNote, saveNote. ratings_cases.
  - unfold downloadPYQ, findPYQ, savePYQ. ratings_cases.
  - unfold downloadSyllabus, findSyllabus, saveSyllabus. ratings_cases.
  - unfold getNote, findNote, saveNote. ratings_cases.
  - unfold incrementNoteViews, findNote, saveNote. ratings_cases.
  - unfold getVideo, findVideo, saveVideo. ratings_cases.
  - unfold getPYQ, findPYQ, savePYQ. ratings_cases.
  - unfold getSyllabus, findSyllabus, saveSyllabus. ratings_cases.
  - unfold addSolution, findPYQ, savePYQ, deleteFile. ratings_cases.
  - unfold deleteNote, findNote, deleteFile. ratings_cases.
  - unfold deleteVideo, findVideo. ratings_cases.
  - unfold deletePYQ, findPYQ, deleteFile. ratings_cases.
  - unfold deleteSyllabus, findSyllabus, deleteFile. ratings_cases.
Qed.

(** If every note holds at most one rating per user, it does so after
    any sequence of requests on existing items; a new note starts with
    no rating. *)
Lemma one_rating_per_user_invariant (rs : list ContentReq) (db : DB) :
  (∀ id n, db_notes db !! id = Some n → oneRatingPerUser n) →
  ∀ id n, db_notes (runContent rs db) !! id = Some n → oneRatingPerUser n.
Proof.
  revert db. induction rs as [|r rs IH]; intros db Hdb; cbn; [exact Hdb|].
  apply IH. intros id n Hn.
  destruct (handleContent_ratings r db id n Hn) as (n0 & Hn0 & Hkeep).
  apply Hkeep. eapply Hdb. exact Hn0.
Qed.

Lemma createNote_no_rating (newId : string) (user : User.t) (body : InfoBody.t)
    (fileInfo : option Upload.t) (db db' : DB) (resp : Response Note.t) :
  createNote newId user body fileInfo db = (Ok resp, db') →
  Note.ratings (payload resp) = [] ∧ oneRatingPerUser (payload resp).
Proof.
  intros H. unfold createNote, saveNote in H. munfold.
  repeat (case_match; simplify_eq/=). split; [reflexivity|].
  unfold oneRatingPerUser. cbn. apply NoDup_nil_2.
Qed.

(** ** What the filter selects *)

(** With no query, a student whose profile is complete is shown exactly
    the items of the student's own branch, year and semester. *)
Lemma student_default_scope (user : User.t) (b : string) (y s : Z) (i : Info.t) :
  User.role user = student →
  User.branch user = Some b → b ≠ "" →
  User.year user = Some y → y ≠ 0 →
  User.semester user = Some s → s ≠ 0 →
  selects (getNotes user noQuery) i = true
  ↔ Info.branch i = b ∧ Info.year i = y ∧ Info.semester i = s.
Proof.
  tidy. intros Hr Hb Hbne Hy Hyne Hs Hsne.
  unfold getNotes, filterEducationalResources, selects, User.data. cbn.
  rewrite Hr, Hb, Hy, Hs. cbn.
  rewrite (proj2 (String.eqb_neq b "") Hbne), (proj2 (Z.eqb_neq y 0) Hyne),
    (proj2 (Z.eqb_neq s 0) Hsne). cbn.
  rewrite bool_decide_eq_true_2 by reflexivity. cbn.
  rewrite andb_true_r, !andb_true_iff, String.eqb_eq, !Z.eqb_eq. tauto.
Qed.

(** With no query, a teacher or an admin is shown every item. *)
Lemma staff_unrestricted (user : User.t) (i : Info.t) :
  User.role user ≠ student → selects (getNotes user noQuery) i = true.
Proof.
  intros Hr. unfold getNotes, filterEducationalResources, selects. cbn.
  rewrite (bool_decide_eq_false_2 _ Hr). reflexivity.
Qed.

(** ** The routers: who can make content verified *)

Lemma grantedBefore_refl {A} (flag : A → bool) (m : gmap string A) :
  grantedBefore flag m m.
Proof. intros id x Hx Hf. exists x. split; assumption. Qed.

Lemma grantedBefore_trans {A} (flag : A → bool) (m1 m2 m3 : gmap string A) :
  grantedBefore flag m1 m2 → grantedBefore flag m2 m3 → grantedBefore flag m1 m3.
Proof.
  intros H12 H23 id x3 H3 Hf3. destruct (H23 id x3 H3 Hf3) as (x2 & H2 & Hf2).
  exact (H12 id x2 H2 Hf2).
Qed.

Lemma grantedBefore_insert {A} (flag : A → bool) (m : gmap string A) (id : string)
    (x x' : A) :
  m !! id = Some x → (flag x' = true → flag x = true) →
  grantedBefore flag m (<[id:=x']> m).
Proof.
  intros Hx Hf id' y. rewrite lookup_insert. case_decide.
  - subst id'. intros [= <-] Hy. exists x. split; [assumption|apply Hf, Hy].
  - intros Hy Hfy. exists y. split; assumption.
Qed.

Lemma grantedBefore_new {A} (flag : A → bool) (m : gmap string A) (id : string)
    (x' : A) :
  flag x' = false → grantedBefore flag m (<[id:=x']> m).
Proof.
  intros Hf id' y. rewrite lookup_insert. case_decide.
  - subst id'. intros [= <-] Hy. congruence.
  - intros Hy Hfy. exists y. split; assumption.
Qed.

Lemma grantedBefore_delete {A} (flag : A → bool) (m : gmap string A) (id : string) :
  grantedBefore flag m (delete id m).
Proof.
  intros id' y. rewrite lookup_delete. case_decide; [discriminate|].
  intros Hy Hfy. exists y. split; assumption.
Qed.

Lemma noneVerified_refl (db : DB) : noneVerified db db.
Proof. repeat split; apply grantedBefore_refl. Qed.

Lemma noneVerified_trans (db1 db2 db3 : DB) :
  noneVerified db1 db2 → noneVerified db2 db3 → noneVerified db1 db3.
Proof.
  intros (A1 & B1 & C1) (A2 & B2 & C2).
  repeat split; eapply grantedBefore_trans; eassumption.
Qed.

Lemma keeps_bind {A B} (P : DB → DB → Prop) (m : M A) (k : A → M B) :
  (∀ a b c, P a b → P b c → P a c) →
  keeps P m → (∀ a, keeps P (k a)) → keeps P (m ≫= k).
Proof.
  intros Htrans Hm Hk db. specialize (Hm db). unfold mbind, M_bind, bind.
  destruct (m db) as [[a|st msg] db1]; cbn in *; [|assumption].
  eapply Htrans; [eassumption|apply Hk].
Qed.

Lemma keeps_throwIf (P : DB → DB → Prop) (c : bool) (st : nat) (msg : string) :
  (∀ db, P db db) → keeps P (throwIf c st msg).
Proof. intros Hrefl db. unfold throwIf. destruct c; apply Hrefl. Qed.

Lemma outcome_snd {A} (x : Result (Response A) * DB) : (outcome x).2 = x.2.
Proof. destruct x as [[r|st msg] db]; reflexivity. Qed.

Lemma uploadSingle_noneVerified (origin : string) (m : Multer) (req : Request.t) :
  keeps noneVerified (uploadSingle origin m req).
Proof.
  intros db. destruct m as [msg|st msg|[f|]]; cbn; try apply noneVerified_refl.
  repeat split; apply grantedBefore_refl.
Qed.

Lemma handlePYQFiles_noneVerified (origin : string) (hasSolution : option string)
    (passes : TwoPasses) (req : Request.t) :
  keeps noneVerified (handlePYQFiles origin hasSolution passes req).
Proof.
  unfold handlePYQFiles. apply keeps_bind.
  - apply noneVerified_trans.
  - apply uploadSingle_noneVerified.
  - intros req1. case_bool_decide; [|intros db; apply noneVerified_refl].
    apply keeps_bind.
    + apply noneVerified_trans.
    + apply uploadSingle_noneVerified.
    + intros req2 db. apply noneVerified_refl.
Qed.

Lemma authorize_student (user : User.t) (db : DB) :
  User.role user = student →
  authorize [admin; teacher] user db
  = (Err 403 "User role student is not authorized to access this route", db).
Proof. intros H. unfold authorize. rewrite H. reflexivity. Qed.

Ltac granted_one :=
  first
    [ apply grantedBefore_refl
    | apply grantedBefore_delete
    | eapply grantedBefore_insert;
      [ eassumption
      | rewrite ?notePreSave_isVerified, ?videoPreSave_isVerified; cbn;
        solve [ auto ] ]
    | apply grantedBefore_new;
      rewrite ?notePreSave_isVerified, ?videoPreSave_isVerified; reflexivity ].

Ltac granted := split; [|split]; cbn; rewrite ?insert_insert_eq; granted_one.

Ltac route_cases :=
  intros db; munfold; repeat (case_match; simplify_eq/=);
  repeat match goal with
    | H : _ <$> _ = Some _ |- _ =>
        apply fmap_Some in H; destruct H as (? & ? & ?); simplify_eq/=
    | H : option_bind _ _ _ _ = Some _ |- _ =>
        apply bind_Some in H; destruct H as (? & ? & H); simplify_eq/=
    | H : mbind _ _ = Some _ |- _ =>
        apply bind_Some in H; destruct H as (? & ? & H); simplify_eq/=
    end;
  try granted.

(** What each controller leaves of the verification flags.  An upload
    by a student is stored unverified; the controllers other than the
    verify ones keep the flag of the document they rewrite. *)
Lemma createNote_student newId user body f :
  User.role user = student → keeps noneVerified (createNote newId user body f).
Proof. intros Hr. unfold createNote, saveNote, verifiedOnUpload. rewrite Hr. route_cases. Qed.

Lemma createVideo_student newId user body f :
  User.role user = student → keeps noneVerified (createVideo newId user body f).
Proof. intros Hr. unfold createVideo, saveVideo, verifiedOnUpload. rewrite Hr. route_cases. Qed.

Lemma createPYQ_student newId user body f s :
  User.role user = student → keeps noneVerified (createPYQ newId user body f s).
Proof. intros Hr. unfold createPYQ, savePYQ, verifiedOnUpload. rewrite Hr. route_cases. Qed.

Lemma getNote_noneVerified id : keeps noneVerified (getNote id).
Proof. unfold getNote, findNote, saveNote. route_cases. Qed.
Lemma updateNote_noneVerified user id body f :
  keeps noneVerified (updateNote user id body f).
Proof. unfold updateNote, findNote, deleteFile. route_cases. Qed.
Lemma deleteNote_noneVerified user id : keeps noneVerified (deleteNote user id).
Proof. unfold deleteNote, findNote, deleteFile. route_cases. Qed.
Lemma addRating_noneVerified now user id body :
  keeps noneVerified (addRating now user id body).
Proof. unfold addRating, findNote, saveNote. route_cases. Qed.
Lemma downloadNote_noneVerified id : keeps noneVerified (downloadNote id).
Proof. unfold downloadNote, findNote, saveNote. route_cases. Qed.
Lemma incrementNoteViews_noneVerified id : keeps noneVerified (incrementNoteViews id).
Proof. unfold incrementNoteViews, findNote, saveNote. route_cases. Qed.

Lemma getVideo_noneVerified id : keeps noneVerified (getVideo id).
Proof. unfold getVideo, findVideo, saveVideo. route_cases. Qed.
Lemma updateVideo_noneVerified user id body f :
  keeps noneVerified (updateVideo user id body f).
Proof. unfold updateVideo, findVideo. route_cases. Qed.
Lemma deleteVideo_noneVerified user id : keeps noneVerified (deleteVideo user id).
Proof. unfold deleteVideo, findVideo. route_cases. Qed.
Lemma likeVideo_noneVerified user id : keeps noneVerified (likeVideo user id).
Proof. unfold likeVideo, findVideo, saveVideo. route_cases. Qed.
Lemma addComment_noneVerified newId user id text :
  keeps noneVerified (addComment newId user id text).
Proof. unfold addComment, findVideo, saveVideo. route_cases. Qed.
Lemma deleteComment_noneVerified user id commentId :
  keeps noneVerified (deleteComment user id commentId).
Proof. unfold deleteComment, findVideo, saveVideo. route_cases. Qed.

Lemma getPYQ_noneVerified id : keeps noneVerified (getPYQ id).
Proof. unfold getPYQ, findPYQ, savePYQ. route_cases. Qed.
Lemma updatePYQ_noneVerified user id body f s :
  keeps noneVerified (updatePYQ user id body f s).
Proof. unfold updatePYQ, findPYQ, deleteFile. route_cases. Qed.
Lemma deletePYQ_noneVerified user id : keeps noneVerified (deletePYQ user id).
Proof. unfold deletePYQ, findPYQ, deleteFile. route_cases. Qed.
Lemma downloadPYQ_noneVerified id : keeps noneVerified (downloadPYQ id).
Proof. unfold downloadPYQ, findPYQ, savePYQ. route_cases. Qed.
Lemma downloadSolution_noneVerified id : keeps noneVerified (downloadSolution id).
Proof. unfold downloadSolution, findPYQ. route_cases. Qed.

Lemma createSyllabus_noneVerified newId user body f :
  keeps noneVerified (createSyllabus newId user body f).
Proof. unfold createSyllabus, saveSyllabus, parseOrEmpty. route_cases. Qed.
Lemma getSyllabus_noneVerified id : keeps noneVerified (getSyllabus id).
Proof. unfold getSyllabus, findSyllabus, saveSyllabus. route_cases. Qed.
Lemma updateSyllabus_noneVerified user id body f :
  keeps noneVerified (updateSyllabus user id body f).
Proof. unfold updateSyllabus, findSyllabus, parseIf, deleteFile. route_cases. Qed.
Lemma deleteSyllabus_noneVerified user id : keeps noneVerified (deleteSyllabus user id).
Proof. unfold deleteSyllabus, findSyllabus, deleteFile. route_cases. Qed.
Lemma downloadSyllabus_noneVerified id : keeps noneVerified (downloadSyllabus id).
Proof. unfold downloadSyllabus, findSyllabus, saveSyllabus. route_cases. Qed.

Create HintDb routes.

#[local] Hint Resolve createNote_student createVideo_student createPYQ_student
  getNote_noneVerified updateNote_noneVerified deleteNote_noneVerified
  addRating_noneVerified downloadNote_noneVerified incrementNoteViews_noneVerified
  getVideo_noneVerified updateVideo_noneVerified deleteVideo_noneVerified
  likeVideo_noneVerified addComment_noneVerified deleteComment_noneVerified
  getPYQ_noneVerified updatePYQ_noneVerified deletePYQ_noneVerified
  downloadPYQ_noneVerified downloadSolution_noneVerified
  createSyllabus_noneVerified getSyllabus_noneVerified updateSyllabus_noneVerified
  deleteSyllabus_noneVerified downloadSyllabus_noneVerified
  uploadSingle_noneVerified handlePYQFiles_noneVerified : routes.

Lemma contentRoutes_student (origin : string) (user : User.t) (r : ContentRoute) :
  User.role user = student → keeps noneVerified (contentRoutes origin user r).
Proof.
  intros Hrole.
  assert (∀ A (h : M A), keeps noneVerified (authorize [admin; teacher] user;; h))
    as Hauth.
  { intros A h d. unfold mbind, M_bind, bind. rewrite authorize_student by assumption.
    apply noneVerified_refl. }
  intros db.
  destruct r as [r|r|r|r]; destruct r;
    cbn [contentRoutes noteRoutes videoRoutes pyqRoutes syllabusRoutes];
    unfold isVerified; rewrite outcome_snd; revert db;
    match goal with |- ∀ db, noneVerified db (?m db).2 =>
      change (keeps noneVerified m)
    end.
  all: apply keeps_bind;
    [ apply noneVerified_trans
    | apply keeps_throwIf; apply noneVerified_refl
    | intros [] ].
  all: try apply Hauth.
  all: repeat first
    [ solve [ auto with routes ]
    | apply keeps_bind; [ apply noneVerified_trans | | intros ? ] ].
Qed.

Lemma serveAll_student (origin : string) (rs : list (User.t * ContentRoute)) (db : DB) :
  Forall (λ ur, User.role ur.1 = student) rs →
  noneVerified db (serveAll origin rs db).
Proof.
  intros Hrs. revert db. induction Hrs as [|[u r] rs Hu _ IH]; intros db.
  - apply noneVerified_refl.
  - cbn. eapply noneVerified_trans; [|apply IH].
    apply contentRoutes_student. exact Hu.
Qed.

(** X1. Students cannot get content verified.  Whatever requests users
    whose role is student send to the notes, videos, PYQ and syllabus
    routers, in any number and order, every note, video and PYQ that is
    verified afterwards was already there and verified before. *)
Theorem X1_students_cannot_verify (origin : string)
    (rs : list (User.t * ContentRoute)) (db : DB) :
  Forall (λ ur, User.role ur.1 = student) rs →
  let db' := serveAll origin rs db in
  (∀ id n', db_notes db' !! id = Some n' → Note.isVerified n' = true →
            ∃ n, db_notes db !! id = Some n ∧ Note.isVerified n = true)
  ∧ (∀ id v', db_videos db' !! id = Some v' → Video.isVerified v' = true →
              ∃ v, db_videos db !! id = Some v ∧ Video.isVerified v = true)
  ∧ (∀ id p', db_pyqs db' !! id = Some p' → PYQ.isVerified p' = true →
              ∃ p, db_pyqs db !! id = Some p ∧ PYQ.isVerified p = true).
Proof. intros Hrs. exact (serveAll_student origin rs db Hrs). Qed.


(** ** The two files of a PYQ *)

(** X3. The PYQ upload never stores a solution.  [handlePYQFiles] runs
    multer twice over the same request when the body says [hasSolution]
    is ['true']: on a multipart request the second pass fails, and on any
    other request neither pass finds a file, so [req.solutionFileInfo] is
    never set.  Hence a [POST /api/pyq] that says [hasSolution] is
    ['true'] does not succeed and every PYQ the route creates is stored
    without a solution; a [PUT /api/pyq/:id] that says so succeeds only
    when it is not multipart, and no successful one changes the
    solution of the PYQ. *)
Theorem X3_pyq_upload_never_stores_a_solution (origin : string) (user : User.t)
    (r : PyqRoute) (db db' : DB) (st : nat) :
  pyqRoutes origin user r db = (Ok st, db') →
  (∀ newId body hasSolution passes,
     r = POST_pyq newId body hasSolution passes →
     hasSolution ≠ Some "true"
     ∧ ∃ p, db_pyqs db' !! newId = Some p
            ∧ PYQ.hasSolution p = false
            ∧ PYQ.solutionFileUrl p = None ∧ PYQ.solutionFilePath p = None)
  ∧ (∀ id body hasSolution passes,
       r = PUT_pyq id body hasSolution passes →
       (hasSolution = Some "true" → passes = NotMultipart)
       ∧ ∃ p p', db_pyqs db !! id = Some p ∧ db_pyqs db' !! id = Some p'
                 ∧ PYQ.hasSolution p' = PYQ.hasSolution p
                 ∧ PYQ.solutionFileUrl p' = PYQ.solutionFileUrl p
                 ∧ PYQ.solutionFilePath p' = PYQ.solutionFilePath p).
Proof.
  intros H. split.
  - intros newId body hasSolution passes ->. revert H. cbn [pyqRoutes].
    unfold isVerified, handlePYQFiles, uploadSingle, createPYQ, savePYQ, outcome.
    destruct passes as [|first status message]; cbn [firstPass secondPass];
      munfold; intros H; repeat (case_match; simplify_eq/=).
    all: repeat match goal with
      | H : mbind _ _ = Some _ |- _ =>
          apply bind_Some in H; destruct H as (? & ? & H); simplify_eq/=
      | H : option_bind _ _ _ _ = Some _ |- _ =>
          apply bind_Some in H; destruct H as (? & ? & H); simplify_eq/=
      | H : bool_decide _ = false |- _ => apply bool_decide_eq_false_1 in H
      end.
    all: split; [assumption|].
    all: eexists; rewrite ?insert_insert_eq, lookup_insert_eq; split; [reflexivity|].
    all: repeat split.
  - intros id body hasSolution passes ->. revert H. cbn [pyqRoutes].
    unfold isVerified, handlePYQFiles, uploadSingle, updatePYQ, findPYQ, deleteFile,
      outcome.
    destruct passes as [|first status message]; cbn [firstPass secondPass];
      munfold; intros H; repeat (case_match; simplify_eq/=).
    all: repeat match goal with
      | H : mbind _ _ = Some _ |- _ =>
          apply bind_Some in H; destruct H as (? & ? & H); simplify_eq/=
      | H : option_bind _ _ _ _ = Some _ |- _ =>
          apply bind_Some in H; destruct H as (? & ? & H); simplify_eq/=
      | H : bool_decide _ = false |- _ => apply bool_decide_eq_false_1 in H
      end.
    all: (split; [intros Hs; try reflexivity; contradiction|]).
    all: eexists _, _; (split; [eassumption|]);
      rewrite lookup_insert_eq; (split; [reflexivity|]); repeat split.
Qed.

(** X4. Adding a solution replaces the solution and nothing else.  A
    successful [PUT /api/pyq/:id/solution] comes from a verified teacher
    or admin with a file; it stores the PYQ with [hasSolution] set and
    the uploaded file as its solution, everything else as it was; the
    only file it unlinks is the one recorded as the previous solution,
    so the question file stays in the upload directory unless it was
    recorded as the solution too. *)
Theorem X4_add_solution_replaces_solution_file (origin : string) (t : User.t)
    (id : ObjectId) (file : Multer) (db db' : DB) (st : nat) (p : PYQ.t) :
  db_pyqs db !! id = Some p →
  pyqRoutes origin t (PUT_pyq_solution id file) db = (Ok st, db') →
  ∃ f,
    file = Parsed (Some f)
    ∧ User.isVerified t = true ∧ User.role t ≠ student
    ∧ db_pyqs db'
      = <[id := PYQ.set_solution (Upload.url (fileInfoOf origin f))
                                 (MulterFile.path f) p]> (db_pyqs db)
    ∧ (∀ path, path ∈ db_files db →
               PYQ.solutionFilePath p ≠ Some path → path ∈ db_files db')
    ∧ (PYQ.hasSolution p = false → MulterFile.path f ∈ db_files db').
Proof.
  intros Hp. cbn [pyqRoutes].
  unfold isVerified, authorize, uploadSingle, addSolution, findPYQ, savePYQ,
    deleteFile, outcome.
  munfold. intros H. repeat (case_match; simplify_eq/=).
  all: eexists; split; [reflexivity|].
  all: repeat match goal with
    | H : negb _ = false |- _ => apply negb_false_iff in H
    | H : bool_decide _ = true |- _ => apply bool_decide_eq_true_1 in H
    end.
  all: split; [assumption|].
  all: split; [intros Hs; rewrite Hs in *;
               match goal with H : student ∈ _ |- _ =>
                 repeat (apply elem_of_cons in H; destruct H as [H|H]; [discriminate H|]);
                 apply elem_of_nil in H; exact H
               end|].
  all: split; [reflexivity|].
  all: split; [intros path Hin Hne|intros Hno].
  all: try (rewrite Hno in *; discriminate).
  all: try (tidy; set_solver).
  destruct (PYQ.solutionFilePath p) as [old|]; cbn in *;
    [|rewrite andb_false_r in *; discriminate].
  assert (path ≠ old) by congruence. tidy. set_solver.
Qed.

(** ** Chats and messages *)

Lemma pull_app_new (x : string) (l : list string) :
  x ∉ l → pull x (l ++ [x]) = l.
Proof.
  intros Hx. unfold pull. rewrite filter_app. cbn.
  rewrite decide_False by (intros H; apply H; reflexivity). cbn.
  rewrite app_nil_r. induction l as [|y l IH]; [reflexivity|].
  cbn. rewrite decide_True by (intros ->; apply Hx; left).
  f_equal. apply IH. intros H. apply Hx. right. assumption.
Qed.

Lemma joinGroup_ok (user : User.t) (id : string) (db db1 : DB) (r : Response Chat.t) :
  joinGroup user id db = (Ok r, db1) →
  ∃ c, db_chats db !! id = Some c
       ∧ User._id user ∉ Chat.users c
       ∧ db_chats db1
         = <[id := Chat.set_users (Chat.users c ++ [User._id user]) c]> (db_chats db)
       ∧ db_messages db1 = db_messages db.
Proof.
  unfold joinGroup, findChat, notifyUsers. munfold. intros H.
  destruct (db_chats db !! id) as [c|] eqn:Hc; cbn in H; [|discriminate].
  destruct (negb (Chat.isPublic c) || negb (Chat.isGroupChat c)); cbn in H;
    [discriminate|].
  destruct (includes (Chat.users c) (User._id user)) eqn:Hin; cbn in H;
    [discriminate|].
  exists c. split; [reflexivity|]. split; [apply includes_false, Hin|].
  unfold addToSet in H. rewrite Hin in H.
  destruct (db_users db !! User._id user); cbn in H; injection H as _ <-;
    split; reflexivity.
Qed.

Lemma leaveGroup_ok (user : User.t) (id : string) (db db1 : DB) (r : Response Chat.t) :
  leaveGroup user id db = (Ok r, db1) →
  ∃ c, db_chats db !! id = Some c
       ∧ User._id user ∈ Chat.users c
       ∧ db_chats db1
         = <[id := Chat.set_users (pull (User._id user) (Chat.users c)) c]> (db_chats db)
       ∧ db_messages db1 = db_messages db.
Proof.
  unfold leaveGroup, findChat, groupAdminToString. munfold. intros H.
  destruct (db_chats db !! id) as [c|] eqn:Hc; cbn in H; [|discriminate].
  destruct (negb (Chat.isGroupChat c)); cbn in H; [discriminate|].
  destruct (includes (Chat.users c) (User._id user)) eqn:Hin; cbn in H;
    [|discriminate].
  destruct (Chat.groupAdmin c) as [a|]; cbn in H; [|discriminate].
  destruct (sameId a (User._id user)); cbn in H; [discriminate|].
  injection H as _ <-. exists c. split; [reflexivity|].
  split; [apply includes_true, Hin|]. split; reflexivity.
Qed.

(** X5. Joining a public group and then leaving it again restores the
    chat collection: the chat has the members it had, in the order it
    had them, and everything else as it was. *)
Theorem X5_join_then_leave (user : User.t) (id : string) (db db1 db2 : DB)
    (r1 r2 : Response Chat.t) :
  joinGroup user id db = (Ok r1, db1) →
  leaveGroup user id db1 = (Ok r2, db2) →
  db_chats db2 = db_chats db.
Proof.
  intros H1 H2.
  apply joinGroup_ok in H1. destruct H1 as (c & Hc & Hin & Hdb1 & _).
  apply leaveGroup_ok in H2. destruct H2 as (c1 & Hc1 & _ & Hdb2 & _).
  rewrite Hdb1, lookup_insert_eq in Hc1. injection Hc1 as <-.
  rewrite Hdb2, Hdb1, insert_insert_eq. unfold Chat.set_users. cbn [Chat.users].
  rewrite pull_app_new by assumption.
  destruct c; cbn. apply insert_id. assumption.
Qed.

Lemma filter_fmap_length {A B} (g : A → B) (f : A → bool) (f' : B → bool) (l : list A) :
  (∀ x, f' (g x) = f x) →
  length (List.filter f' (g <$> l)) = length (List.filter f l).
Proof.
  intros H. induction l as [|x l IH]; [reflexivity|].
  rewrite fmap_cons. cbn [List.filter]. rewrite H.
  destruct (f x); cbn [length]; congruence.
Qed.

Lemma filter_split_length {A} (f g : A → bool) (l : list A) :
  (length (List.filter (fun x => f x && negb (g x)) l)
   + length (List.filter (fun x => f x && g x) l))%nat
  = length (List.filter f l).
Proof.
  induction l as [|x l IH]; [reflexivity|].
  cbn [List.filter]. destruct (f x), (g x); cbn [andb negb length]; lia.
Qed.

Lemma shownCount_default (n : nat) : default 0%nat (shownCount n) = n.
Proof. destruct n; reflexivity. Qed.

Lemma markRead_unreadFor_other (db : DB) (chatId uid v : string) (m : Message.t) :
  v ≠ uid →
  unreadFor (with_messages (fmap (markRead chatId uid)) db) v (markRead chatId uid m)
  = unreadFor db v m.
Proof.
  intros Hv. unfold unreadFor, isMember. cbn [db_chats with_messages].
  rewrite markRead_chat. unfold markRead.
  destruct (sameId (Message.chat m) chatId && negb (includes (Message.readBy m) uid));
    [|reflexivity].
  cbn. do 2 f_equal. apply bool_decide_ext. rewrite elem_of_addToSet.
  split; intros H Hin; apply H; [left; assumption|].
  destruct Hin as [Hin| ->]; [assumption|]. contradiction.
Qed.

Lemma markRead_unreadFor_reader (db : DB) (chatId uid : string) (m : Message.t) :
  unreadFor (with_messages (fmap (markRead chatId uid)) db) uid (markRead chatId uid m)
  = unreadFor db uid m && negb (bool_decide (Message.chat m = chatId)).
Proof.
  unfold unreadFor, isMember. cbn [db_chats with_messages].
  rewrite markRead_chat. unfold markRead, sameId.
  destruct (bool_decide (Message.chat m = chatId)) eqn:Ec; cbn.
  - destruct (includes (Message.readBy m) uid) eqn:Ei; cbn.
    + apply includes_true in Ei.
      rewrite (bool_decide_eq_false_2 (uid ∉ Message.readBy m)) by auto.
      rewrite !andb_false_r. reflexivity.
    + rewrite (bool_decide_eq_false_2 (uid ∉ addToSet uid (Message.readBy m))).
      * rewrite !andb_false_r. reflexivity.
      * intros H. apply H, elem_of_addToSet. right. reflexivity.
  - rewrite andb_true_r. reflexivity.
Qed.

(** X6. Reading a chat is private to the reader.  After a successful
    [getMessages] of a chat, [getUnreadCount] answers every other user
    exactly as before; for the reader the chat's entry is gone from the
    per-chat map, every other entry is as before, and the total has
    dropped by the count that entry showed. *)
Theorem X6_reading_is_private (user : User.t) (chatId : string)
    (page limit : option string) (db db' : DB) (r : Response MessagePage.t) :
  getMessages user chatId page limit db = (Ok r, db') →
  (∀ other, User._id other ≠ User._id user →
            (getUnreadCount other db').1 = (getUnreadCount other db).1)
  ∧ ∃ u u', getUnreadCount user db = (Ok (Respond 200 u), db)
            ∧ getUnreadCount user db' = (Ok (Respond 200 u'), db')
            ∧ Unread.unreadByChat u' = delete chatId (Unread.unreadByChat u)
            ∧ (Unread.totalUnread u'
               + default 0 (Unread.unreadByChat u !! chatId))%nat
              = Unread.totalUnread u.
Proof.
  intros H. apply getMessages_ok in H. destruct H as [_ ->].
  set (uid := User._id user).
  set (db' := with_messages (fmap (markRead chatId uid)) db).
  assert (∀ v c, v ≠ uid → unreadIn db' v c = unreadIn db v c) as Hother.
  { intros v c Hv. unfold unreadIn, db'. cbn [db_messages with_messages].
    apply filter_fmap_length. intros m.
    rewrite markRead_unreadFor_other, markRead_chat by assumption. reflexivity. }
  assert (∀ v, v ≠ uid → unreadTotal db' v = unreadTotal db v) as Htotal.
  { intros v Hv. unfold unreadTotal, db'. cbn [db_messages with_messages].
    apply filter_fmap_length. intros m. apply markRead_unreadFor_other, Hv. }
  assert (∀ c, unreadIn db' uid c
               = if bool_decide (c = chatId) then 0%nat else unreadIn db uid c) as Hreader.
  { intros c. unfold unreadIn, db'. cbn [db_messages with_messages].
    case_bool_decide as Hc.
    - subst c. rewrite (filter_fmap_length _ (fun _ => false)).
      + induction (db_messages db); [reflexivity|assumption].
      + intros m. rewrite markRead_unreadFor_reader, markRead_chat.
        destruct (bool_decide (Message.chat m = chatId)); cbn;
          rewrite ?andb_false_r; reflexivity.
    - apply filter_fmap_length. intros m.
      rewrite markRead_unreadFor_reader, markRead_chat.
      destruct (bool_decide (Message.chat m = c)) eqn:E1; [|rewrite !andb_false_r; reflexivity].
      apply bool_decide_eq_true in E1.
      rewrite (bool_decide_eq_false_2 (Message.chat m = chatId)) by congruence.
      cbn. rewrite !andb_true_r. reflexivity. }
  split.
  - intros other Hne.
    destruct (getUnreadCount_spec other db) as (u & -> & Ht & Hby & _).
    destruct (getUnreadCount_spec other db') as (u' & -> & Ht' & Hby' & _).
    cbn. do 2 f_equal. destruct u as [t m], u' as [t' m']. cbn in *. f_equal.
    + rewrite Ht, Ht'. apply Htotal, Hne.
    + apply map_eq. intros c. rewrite Hby, Hby', Hother by assumption. reflexivity.
  - destruct (getUnreadCount_spec user db) as (u & Hu & Ht & Hby & _).
    destruct (getUnreadCount_spec user db') as (u' & Hu' & Ht' & Hby' & _).
    exists u, u'. split; [exact Hu|]. split; [exact Hu'|]. split.
    + apply map_eq. intros c. rewrite Hby'. fold uid. rewrite Hreader.
      case_bool_decide as Hc.
      * subst c. rewrite lookup_delete_eq. reflexivity.
      * rewrite lookup_delete_ne by congruence. rewrite Hby. reflexivity.
    + rewrite Ht, Ht', Hby, shownCount_default. fold uid.
      unfold unreadTotal, unreadIn, db'. cbn [db_messages with_messages].
      rewrite (filter_fmap_length _
                 (fun m => unreadFor db uid m
                           && negb (bool_decide (Message.chat m = chatId)))).
      * apply filter_split_length.
      * intros m. apply markRead_unreadFor_reader.
Qed.

Lemma deleteAttachments_files (atts : list Attachment.t) (db : DB) :
  ∃ db', deleteAttachments atts db = (Ok tt, db')
         ∧ db_messages db' = db_messages db
         ∧ db_chats db' = db_chats db
         ∧ db_files db' ⊆ db_files db
         ∧ ∀ a, a ∈ atts → Attachment.filePath a ∉ db_files db'.
Proof.
  tidy. revert db. induction atts as [|a atts IH]; intros db.
  - exists db. repeat split; [reflexivity|]. intros a Ha. inversion Ha.
  - unfold deleteAttachments, deleteFile in *. munfold. cbn.
    destruct (IH (with_files (λ fs, fs ∖ {[Attachment.filePath a]}) db))
      as (db' & -> & Hm & Hc & Hsub & Hnot).
    exists db'. cbn in *. split; [reflexivity|]. split; [assumption|].
    split; [assumption|]. split; [tidy; set_solver|].
    intros b Hb. apply elem_of_cons in Hb. destruct Hb as [->|Hb]; [|apply Hnot, Hb].
    tidy. set_solver.
Qed.

Lemma deleteMessage_ok (user : User.t) (id : string) (db db' : DB) (r : Response bool) :
  deleteMessage user id db = (Ok r, db') →
  ∃ m0 content,
    List.find (fun m => sameId (Message._id m) id) (db_messages db) = Some m0
    ∧ (content = "[Message deleted]" ∨ content = "[Attachments removed]")
    ∧ db_messages db'
      = (fun m => if sameId (Message._id m) (Message._id m0)
                  then Message.mk (Message._id m0) (Message.sender m0) content
                                  (Message.chat m0) (Message.readBy m0) [] true
                  else m) <$> db_messages db
    ∧ db_chats db' = db_chats db
    ∧ ∀ a, a ∈ Message.attachments m0 → Attachment.filePath a ∉ db_files db'.
Proof.
  unfold deleteMessage, findMessage, saveMessage. munfold. intros H.
  destruct (List.find _ (db_messages db)) as [m0|] eqn:Hfind; cbn in H; [|discriminate].
  destruct (negb (sameId (Message.sender m0) (User._id user)) && negb (isAdminRole user));
    cbn in H; [discriminate|].
  exists m0. destruct (Message.attachments m0) as [|a atts] eqn:Hatts.
  - cbn in H. injection H as _ <-. exists "[Message deleted]".
    split; [reflexivity|]. split; [left; reflexivity|]. split; [reflexivity|].
    split; [reflexivity|]. intros a Ha. inversion Ha.
  - destruct (deleteAttachments_files (a :: atts) db) as (db1 & Hdel & Hm & Hc & _ & Hnot).
    rewrite Hdel in H. cbn in H. injection H as _ <-.
    exists "[Attachments removed]". split; [reflexivity|]. split; [right; reflexivity|].
    cbn. rewrite Hm. split; [reflexivity|]. split; assumption.
Qed.

(** X7. Deleting a message is a soft delete.  After a successful
    [deleteMessage] the collection holds the same messages in the same
    order, each under its id; the message with the deleted id is flagged
    [isDeleted], has a placeholder as content and no attachment, and
    counts as unread for nobody; the files of its attachments are gone
    from the upload directory. *)
Theorem X7_delete_message_is_soft (user : User.t) (id : string) (db db' : DB)
    (r : Response bool) :
  deleteMessage user id db = (Ok r, db') →
  Message._id <$> db_messages db' = Message._id <$> db_messages db
  ∧ (∀ m, m ∈ db_messages db' → Message._id m = id →
          Message.isDeleted m = true ∧ Message.attachments m = []
          ∧ (Message.content m = "[Message deleted]"
             ∨ Message.content m = "[Attachments removed]")
          ∧ ∀ uid, unreadFor db' uid m = false)
  ∧ (∀ m0 a, List.find (fun m => sameId (Message._id m) id) (db_messages db) = Some m0 →
             a ∈ Message.attachments m0 → Attachment.filePath a ∉ db_files db').
Proof.
  intros H. apply deleteMessage_ok in H.
  destruct H as (m0 & content & Hfind & Hcontent & Hms & _ & Hfiles).
  assert (Message._id m0 = id) as Hid.
  { apply List.find_some in Hfind. destruct Hfind as [_ Hs].
    apply bool_decide_eq_true in Hs. exact Hs. }
  split; [|split].
  - rewrite Hms, <- list_fmap_compose. apply list_fmap_ext. intros i m _. cbn.
    unfold sameId. case_bool_decide; cbn; congruence.
  - intros m Hin Hm. rewrite Hms in Hin. apply list_elem_of_fmap in Hin.
    destruct Hin as (m1 & -> & _). unfold sameId in *.
    case_bool_decide as E; cbn in *.
    + repeat split; try reflexivity; [tidy; tauto|].
      intros uid. unfold unreadFor. cbn. apply andb_false_r.
    + congruence.
  - intros m a Hf Ha. rewrite Hfind in Hf. injection Hf as <-. apply Hfiles, Ha.
Qed.

Lemma find_is_Some {A} (f : A → bool) (l : list A) (x : A) :
  x ∈ l → f x = true → ∃ y, List.find f l = Some y.
Proof.
  intros Hin Hf. destruct (List.find f l) as [y|] eqn:E; [eauto|].
  exfalso. apply list_elem_of_In in Hin.
  pose proof (List.find_none f l E x Hin). congruence.
Qed.

(** X8. [accessChat] opens at most one chat per pair.  When it has
    answered, the database holds a one-to-one chat of the two users, and
    asking again, under whatever new id, stores nothing: the second
    answer is a chat that was found, with both users in it. *)
Theorem X8_access_chat_idempotent (newId newId' : string) (user : User.t)
    (userId : option string) (db db1 : DB) (r : Response Chat.t) :
  accessChat newId user userId db = (Ok r, db1) →
  isChatBetween (User._id user) (default "" userId) (payload r) = true
  ∧ ∃ r', accessChat newId' user userId db1 = (Ok r', db1)
          ∧ isChatBetween (User._id user) (default "" userId) (payload r') = true.
Proof.
  unfold accessChat. munfold. intros H.
  destruct (negb (truthy userId)) eqn:Htr; cbn in H; [discriminate|]. cbn.
  set (uid := default "" userId) in *.
  set (P := fun kv : string * Chat.t => isChatBetween (User._id user) uid kv.2) in *.
  assert (∃ kv, List.find P (map_to_list (db_chats db1)) = Some kv
                ∧ isChatBetween (User._id user) uid (payload r) = true)
    as (kv & Hkv & Hr).
  { destruct (List.find P (map_to_list (db_chats db))) as [[k c]|] eqn:Hfind; cbn in H.
    - injection H as <- <-. exists (k, c). split; [assumption|].
      apply List.find_some in Hfind. exact (proj2 Hfind).
    - destruct (validChat _); cbn in H; [|discriminate]. injection H as <- <-.
      cbn [payload db_chats with_chats].
      assert (isChatBetween (User._id user) uid
                (Chat.mk "sender" false [User._id user; uid] None false None None
                         None None) = true) as Hb.
      { unfold isChatBetween, includes. cbn.
        rewrite !bool_decide_eq_true_2; [reflexivity| |];
          rewrite !elem_of_cons; auto. }
      destruct (find_is_Some P (map_to_list (<[newId := Chat.mk "sender" false
                  [User._id user; uid] None false None None None None]> (db_chats db)))
                  (newId, Chat.mk "sender" false [User._id user; uid] None false None
                                  None None None)) as [y Hy].
      + apply elem_of_map_to_list, lookup_insert_eq.
      + exact Hb.
      + exists y. split; assumption. }
  split; [assumption|]. rewrite Hkv. destruct kv as [k c]. cbn.
  eexists. split; [reflexivity|]. apply List.find_some in Hkv. exact (proj2 Hkv).
Qed.

Lemma sendMessage_ok (newId : string) (user : User.t) (chatId content : option string)
    (filesInfo : list Upload.t) (db db' : DB) (r : Response Message.t) :
  sendMessage newId user chatId content filesInfo db = (Ok r, db') →
  ∃ chat,
    db_chats db !! default "" chatId = Some chat
    ∧ User._id user ∈ Chat.users chat
    ∧ db_chats db' = db_chats db
    ∧ db_messages db'
      = db_messages db
        ++ [Message.mk newId (User._id user) (trim (default "" content))
                       (default "" chatId) [User._id user]
                       (attachmentOf <$> filesInfo) false]
    ∧ r = Respond 201 (Message.mk newId (User._id user) (trim (default "" content))
                                  (default "" chatId) [User._id user]
                                  (attachmentOf <$> filesInfo) false).
Proof.
  unfold sendMessage, findChat, notifyUsers. munfold. intros H.
  destruct (negb (truthy chatId) || negb (truthy content)); cbn in H; [discriminate|].
  destruct (db_chats db !! default "" chatId) as [chat|] eqn:Hc; cbn in H;
    [|discriminate].
  destruct (includes (Chat.users chat) (User._id user)) eqn:Hin; cbn in H;
    [|discriminate].
  destruct (String.eqb (trim (default "" content)) ""); cbn in H; [discriminate|].
  exists chat. split; [reflexivity|]. split; [apply includes_true, Hin|].
  destruct (List.filter _ (Chat.users chat)); cbn in H.
  - injection H as <- <-. repeat split.
  - destruct (db_users db !! User._id user); cbn in H; injection H as <- <-;
      repeat split.
Qed.

(** X9. A message that was sent is unread for every other member of its
    chat and for nobody else.  After a successful [sendMessage],
    [getUnreadCount] shows a member other than the sender one more
    unread message in that chat and in total, and shows the sender and
    every user outside the chat exactly what it showed before. *)
Theorem X9_sent_message_is_unread (newId : string) (user : User.t)
    (chatId content : option string) (filesInfo : list Upload.t) (db db' : DB)
    (r : Response Message.t) (other : User.t) :
  sendMessage newId user chatId content filesInfo db = (Ok r, db') →
  ∃ chat u u',
    db_chats db !! default "" chatId = Some chat
    ∧ getUnreadCount other db = (Ok (Respond 200 u), db)
    ∧ getUnreadCount other db' = (Ok (Respond 200 u'), db')
    ∧ if bool_decide (User._id other ∈ Chat.users chat)
         && negb (bool_decide (User._id other = User._id user))
      then Unread.unreadByChat u'
           = <[default "" chatId :=
                 S (default 0%nat (Unread.unreadByChat u !! default "" chatId))]>
               (Unread.unreadByChat u)
           ∧ Unread.totalUnread u' = S (Unread.totalUnread u)
      else u' = u.
Proof.
  intros H. apply sendMessage_ok in H.
  destruct H as (chat & Hchat & _ & Hchats & Hms & _).
  set (cid := default "" chatId) in *.
  set (msg := Message.mk newId (User._id user) (trim (default "" content)) cid
                         [User._id user] (attachmentOf <$> filesInfo) false) in *.
  set (v := User._id other).
  assert (∀ m, unreadFor db' v m = unreadFor db v m) as Hfor.
  { intros m. unfold unreadFor, isMember. rewrite Hchats. reflexivity. }
  assert (unreadFor db v msg
          = bool_decide (v ∈ Chat.users chat)
            && negb (bool_decide (v = User._id user))) as Hmsg.
  { unfold unreadFor, isMember. cbn [Message.chat Message.sender Message.readBy
                                       Message.isDeleted msg].
    rewrite Hchat, andb_true_r.
    destruct (bool_decide (v ∈ Chat.users chat)); cbn; [|reflexivity].
    destruct (decide (v = User._id user)) as [Heq|Hne].
    - rewrite Heq.
      rewrite (bool_decide_eq_false_2 (User._id user ≠ User._id user))
        by (intros E; apply E; reflexivity).
      rewrite (bool_decide_eq_true_2 (User._id user = User._id user)) by reflexivity.
      reflexivity.
    - rewrite (bool_decide_eq_false_2 (v = User._id user)) by assumption.
      rewrite (bool_decide_eq_true_2 (User._id user ≠ v))
        by (intros E; apply Hne; symmetry; exact E).
      rewrite bool_decide_eq_true_2; [reflexivity|].
      intros Hin. apply list_elem_of_singleton in Hin. contradiction. }
  assert (∀ c, unreadIn db' v c
               = (unreadIn db v c
                  + if unreadFor db v msg && bool_decide (c = cid) then 1 else 0)%nat)
    as Hin.
  { intros c. unfold unreadIn. rewrite Hms, List.filter_app, length_app.
    f_equal; [apply f_equal, List.filter_ext; intros m; rewrite Hfor; reflexivity|].
    cbn [List.filter]. rewrite Hfor. cbn [Message.chat msg].
    rewrite (bool_decide_ext (cid = c) (c = cid)) by (split; congruence).
    destruct (unreadFor db v msg && bool_decide (c = cid)); reflexivity. }
  assert (unreadTotal db' v
          = (unreadTotal db v + if unreadFor db v msg then 1 else 0)%nat) as Htot.
  { unfold unreadTotal. rewrite Hms, List.filter_app, length_app.
    f_equal; [apply f_equal, List.filter_ext; intros m; rewrite Hfor; reflexivity|].
    cbn [List.filter]. rewrite Hfor. destruct (unreadFor db v msg); reflexivity. }
  destruct (getUnreadCount_spec other db) as (u & Hu & Ht & Hby & _).
  destruct (getUnreadCount_spec other db') as (u' & Hu' & Ht' & Hby' & _).
  exists chat, u, u'. split; [exact Hchat|]. split; [exact Hu|]. split; [exact Hu'|].
  fold v in Ht, Hby, Ht', Hby'. rewrite <- Hmsg.
  destruct (unreadFor db v msg) eqn:E.
  - split.
    + apply map_eq. intros c. rewrite Hby', Hin. cbn [andb].
      destruct (decide (c = cid)) as [->|Hc].
      * rewrite bool_decide_eq_true_2 by reflexivity.
        rewrite lookup_insert_eq, Hby, shownCount_default.
        rewrite Nat.add_1_r. reflexivity.
      * rewrite bool_decide_eq_false_2 by assumption.
        rewrite lookup_insert_ne by congruence. rewrite Hby, Nat.add_0_r. reflexivity.
    + rewrite Ht', Htot, Ht. lia.
  - destruct u as [t m], u' as [t' m']. cbn in *. f_equal.
    + rewrite Ht', Htot, Ht. lia.
    + apply map_eq. intros c. rewrite Hby', Hin, Hby. cbn [andb].
      rewrite Nat.add_0_r. reflexivity.
Qed.

(** ** Users and subjects *)

Lemma countDocuments_delete {A} (P : A → bool) (m : gmap string A) (k : string) :
  countDocuments P (delete k m)
  = match m !! k with
    | Some x => if P x then pred (countDocuments P m) else countDocuments P m
    | None => countDocuments P m
    end.
Proof.
  unfold countDocuments. rewrite map_filter_delete, map_size_delete.
  destruct (m !! k) as [x|] eqn:Hk.
  - destruct (P x) eqn:HP.
    + rewrite (map_lookup_filter_Some_2 _ _ k x); [reflexivity|assumption|exact HP].
    + rewrite (proj2 (map_lookup_filter_None _ _ _)); [reflexivity|].
      right. intros y Hy. rewrite Hk in Hy. injection Hy as <-. cbn. congruence.
  - rewrite (proj2 (map_lookup_filter_None _ _ _)); [reflexivity|]. left. assumption.
Qed.

Lemma countDocuments_zero {A} (P : A → bool) (m : gmap string A) :
  countDocuments P m = 0%nat → ∀ k x, m !! k = Some x → P x = false.
Proof.
  unfold countDocuments. intros H k x Hk. apply map_size_empty_inv in H.
  destruct (P x) eqn:HP; [|reflexivity].
  assert (filter (λ kv : string * A, P kv.2 = true) m !! k = Some x) as Hf
    by (apply map_lookup_filter_Some; split; assumption).
  rewrite H, lookup_empty in Hf. discriminate.
Qed.

(** X10. [deleteUser] never deletes the last admin.  On a collection
    keyed by [_id], a successful [deleteUser] removes exactly the user
    named, and if there was an admin before there is one after; a
    request that is refused changes nothing. *)
Theorem X10_delete_user_keeps_an_admin (id : string) (db : DB) :
  keyedById db →
  match deleteUser id db with
  | (Ok r, db') =>
      db_users db' = delete id (db_users db)
      ∧ ((1 <= adminCount db)%nat → (1 <= adminCount db')%nat)
  | (Err _ _, db') => db' = db
  end.
Proof.
  intros Hkey. unfold deleteUser, findUser, adminCount. munfold.
  destruct (db_users db !! id) as [u|] eqn:Hu; cbn; [|reflexivity].
  rewrite (Hkey id u Hu).
  pose proof (countDocuments_delete (fun u => bool_decide (User.role u = admin))
                (db_users db) id) as Hdel.
  rewrite Hu in Hdel. case_bool_decide as Hrole; cbn.
  - destruct (Nat.leb_spec (countDocuments (λ u0, bool_decide (User.role u0 = admin))
                              (db_users db)) 1) as [Hle|Hgt]; cbn; [reflexivity|].
    split; [reflexivity|]. intros _. rewrite Hdel. lia.
  - split; [reflexivity|]. rewrite Hdel. trivial.
Qed.

(** X11. The admin's [createUser] creates staff only.  The body has no
    [year] and no [semester], which the schema requires of a student, so
    a user that was created is a teacher or an admin; such a user is
    verified from the start, is stored under the new id with a hashed
    password, and uses an e-mail address no stored user had. *)
Theorem X11_create_user_makes_verified_staff (newId : string)
    (body : CreateUserBody.t) (db db' : DB) (r : Response User.t) :
  createUser newId body db = (Ok r, db') →
  status r = 201%nat
  ∧ db_users db' = <[newId := payload r]> (db_users db)
  ∧ User.role (payload r) ≠ student
  ∧ User.isVerified (payload r) = true
  ∧ (∃ password, CreateUserBody.password body = Some password
                 ∧ User.password (payload r) = bcryptHash password)
  ∧ ∀ k u, db_users db !! k = Some u → Some (User.email u) ≠ CreateUserBody.email body.
Proof.
  unfold createUser, saveUser, userPreSave, requiredForStudent. munfold. intros H.
  destruct (existsb _ _) eqn:Hex; cbn in H; [discriminate|].
  destruct (CreateUserBody.name body) as [name|]; cbn in H; [|discriminate].
  destruct (CreateUserBody.email body) as [email|] eqn:He; cbn in H; [|discriminate].
  destruct (CreateUserBody.password body) as [password|]; cbn in H; [|discriminate].
  destruct (castRole (CreateUserBody.role body)) as [role|]; cbn in H; [|discriminate].
  destruct role; cbn in H.
  - rewrite bool_decide_eq_true_2 in H by reflexivity.
    rewrite !andb_false_r in H. cbn in H. discriminate.
  - destruct (validUser _); cbn in H; [|discriminate]. injection H as <- <-. cbn.
    repeat split; try discriminate; [eexists; split; reflexivity|].
    intros k u Hk Heq. apply (f_equal negb) in Hex. cbn in Hex.
    apply negb_true_iff, not_true_iff_false in Hex. apply Hex.
    apply existsb_exists. exists u. split.
    + apply list_elem_of_In, list_elem_of_fmap. exists (k, u).
      split; [reflexivity|]. apply elem_of_map_to_list. assumption.
    + apply bool_decide_eq_true. assumption.
  - destruct (validUser _); cbn in H; [|discriminate]. injection H as <- <-. cbn.
    repeat split; try discriminate; [eexists; split; reflexivity|].
    intros k u Hk Heq. apply (f_equal negb) in Hex. cbn in Hex.
    apply negb_true_iff, not_true_iff_false in Hex. apply Hex.
    apply existsb_exists. exists u. split.
    + apply list_elem_of_In, list_elem_of_fmap. exists (k, u).
      split; [reflexivity|]. apply elem_of_map_to_list. assumption.
    + apply bool_decide_eq_true. assumption.
Qed.

(** X12. A subject that content refers to is never deleted.  When
    [deleteSubject] succeeds, the subject is removed and no note,
    syllabus, video or PYQ names it as its subject; when it fails, the
    subjects are unchanged. *)
Theorem X12_delete_subject_keeps_references (id : string)
    (subjects : gmap string Subject.t) (db : DB) :
  match deleteSubject id subjects db with
  | (Ok r, subjects') =>
      subjects' = delete id subjects
      ∧ (∀ k n, db_notes db !! k = Some n → Info.subject (Note.info n) ≠ id)
      ∧ (∀ k s, db_syllabi db !! k = Some s → Info.subject (Syllabus.info s) ≠ id)
      ∧ (∀ k v, db_videos db !! k = Some v → Info.subject (Video.info v) ≠ id)
      ∧ (∀ k p, db_pyqs db !! k = Some p → Info.subject (PYQ.info p) ≠ id)
  | (Err _ _, subjects') => subjects' = subjects
  end.
Proof.
  tidy. unfold deleteSubject. destruct (subjects !! id); [|reflexivity].
  destruct (_ || _) eqn:E; [reflexivity|].
  apply orb_false_iff in E. destruct E as [E Hp].
  apply orb_false_iff in E. destruct E as [E Hv].
  apply orb_false_iff in E. destruct E as [Hn Hs].
  apply Nat.ltb_ge, Nat.le_0_r in Hn, Hs, Hv, Hp.
  split; [reflexivity|]. repeat split; intros k x Hk Hid.
  - pose proof (countDocuments_zero _ _ Hn k x Hk) as H. cbn in H.
    apply bool_decide_eq_false in H. contradiction.
  - pose proof (countDocuments_zero _ _ Hs k x Hk) as H. cbn in H.
    apply bool_decide_eq_false in H. contradiction.
  - pose proof (countDocuments_zero _ _ Hv k x Hk) as H. cbn in H.
    apply bool_decide_eq_false in H. contradiction.
  - pose proof (countDocuments_zero _ _ Hp k x Hk) as H. cbn in H.
    apply bool_decide_eq_false in H. contradiction.
Qed.

(** X13. Computer-science students and computer-science content do not
    meet by default.  The user schema spells the branch ['Computer
    Science'], the content schemas spell it ['CSE'].  For a student who
    gives no branch in the query, the listing filter therefore selects
    no item at all when the student's branch is ['Computer Science'],
    and never selects an item whose branch is ['CSE']. *)
Theorem X13_cs_hidden_by_default (user : User.t) (query : Query.t) (b : string)
    (i : Info.t) :
  User.role user = student →
  truthy (Query.branch query) = false →
  User.branch user = Some b → b ∈ userBranches →
  Info.branch i ∈ contentBranches →
  b = "Computer Science" ∨ Info.branch i = "CSE" →
  selects (getNotes user query) i = false
  ∧ getVideos user query = getNotes user query
  ∧ getSyllabi user query = getNotes user query.
Proof.
  tidy. intros Hrole Hq Hb Hin Hi Hcs. split; [|split; reflexivity].
  unfold getNotes, filterEducationalResources, selects, User.data. cbn.
  rewrite Hq, Hrole, Hb. cbn. rewrite bool_decide_eq_true_2 by reflexivity. cbn.
  assert (String.eqb b "" = false) as Hne.
  { apply String.eqb_neq. intros ->. unfold userBranches in Hin.
    repeat (apply elem_of_cons in Hin; destruct Hin as [Hin|Hin]; [discriminate|]).
    inversion Hin. }
  rewrite Hne. cbn.
  assert (String.eqb (Info.branch i) b = false) as Hsel.
  { apply String.eqb_neq. intros Heq. rewrite Heq in Hi, Hcs.
    unfold userBranches, contentBranches in *.
    destruct Hcs as [->| ->].
    - repeat (apply elem_of_cons in Hi; destruct Hi as [Hi|Hi]; [discriminate|]).
      inversion Hi.
    - repeat (apply elem_of_cons in Hin; destruct Hin as [Hin|Hin]; [discriminate|]).
      inversion Hin. }
  rewrite Hsel. reflexivity.
Qed.

(** ** Ratings and likes stay consistent *)

Lemma invKept_refl {A} (I : A → Prop) (m : gmap string A) : invKept I m m.
Proof. intros H. exact H. Qed.

Lemma invKept_trans {A} (I : A → Prop) (m1 m2 m3 : gmap string A) :
  invKept I m1 m2 → invKept I m2 m3 → invKept I m1 m3.
Proof. intros H12 H23 H. apply H23, H12, H. Qed.

Lemma invKept_insert {A} (I : A → Prop) (m : gmap string A) (id : string) (x' : A) :
  ((∀ id x, m !! id = Some x → I x) → I x') → invKept I m (<[id:=x']> m).
Proof.
  intros Hx H id' y. rewrite lookup_insert. case_decide.
  - intros [= <-]. apply Hx, H.
  - apply H.
Qed.

Lemma invKept_delete {A} (I : A → Prop) (m : gmap string A) (id : string) :
  invKept I m (delete id m).
Proof.
  intros H id' y. rewrite lookup_delete. case_decide; [discriminate|]. apply H.
Qed.

Lemma contentInv_refl (db : DB) : contentInv db db.
Proof. split; apply invKept_refl. Qed.

Lemma contentInv_trans (db1 db2 db3 : DB) :
  contentInv db1 db2 → contentInv db2 db3 → contentInv db1 db3.
Proof. intros [A1 B1] [A2 B2]. split; eapply invKept_trans; eassumption. Qed.

Lemma ratingsOk_preSave (n : Note.t) :
  ratingsFine (Note.ratings n) → ratingsOk (notePreSave n).
Proof.
  intros H. unfold ratingsOk, notePreSave.
  destruct (Note.ratings n) eqn:E; cbn; rewrite E; split; try assumption; reflexivity.
Qed.

Lemma ratingsFine_nil : ratingsFine [].
Proof. split; [apply NoDup_nil_2|apply Forall_nil_2]. Qed.

Lemma rateExisting_bounds (uid : string) (v : Q) (c : option string) (now : Z)
    (rs rs' : list Rating.t) :
  (1 <= v)%Q → (v <= 5)%Q →
  Forall (fun r => (1 <= Rating.rating r)%Q ∧ (Rating.rating r <= 5)%Q) rs →
  rateExisting uid v c now rs = Some rs' →
  Forall (fun r => (1 <= Rating.rating r)%Q ∧ (Rating.rating r <= 5)%Q) rs'.
Proof.
  intros H1 H5 Hrs. revert rs'. induction Hrs as [|r rs Hr Hrs IH]; intros rs' H.
  - discriminate.
  - cbn in H. destruct (sameId (Rating.user r) uid).
    + injection H as <-. constructor; [split; assumption|assumption].
    + apply fmap_Some in H. destruct H as (rest & Hrest & ->).
      constructor; [assumption|]. apply IH, Hrest.
Qed.

Lemma rated_fine (uid : string) (v : Q) (c : option string) (now : Z)
    (rs : list Rating.t) :
  (1 <= v)%Q → (v <= 5)%Q → ratingsFine rs →
  ratingsFine match rateExisting uid v c now rs with
              | Some rs' => rs'
              | None => rs ++ [Rating.mk v c uid now]
              end.
Proof.
  intros H1 H5 [Hnd Hb]. split; [apply rated_keeps_one, Hnd|].
  destruct (rateExisting uid v c now rs) as [rs'|] eqn:E.
  - eapply rateExisting_bounds; eassumption.
  - apply Forall_app. split; [assumption|]. constructor; [split; assumption|constructor].
Qed.

Lemma pull_length (x : string) (l : list string) :
  NoDup l → x ∈ l → length l = S (length (pull x l)).
Proof.
  tidy. intros Hnd Hin. induction Hnd as [|y l Hy Hnd IH]; [inversion Hin|].
  unfold pull in *. cbn. destruct (decide (y = x)) as [->|Hne].
  - rewrite decide_False by (intros H; apply H; reflexivity). cbn. f_equal.
    clear IH Hin. induction l as [|z l IHl]; [reflexivity|].
    cbn. rewrite decide_True.
    + cbn. f_equal. apply IHl.
      * intros H. apply Hy. right. assumption.
      * apply NoDup_cons in Hnd. tauto.
    + intros ->. apply Hy. left.
  - rewrite decide_True by assumption. cbn. f_equal. apply IH.
    apply elem_of_cons in Hin. destruct Hin as [->|Hin]; [contradiction|assumption].
Qed.

Lemma pull_NoDup (x : string) (l : list string) : NoDup l → NoDup (pull x l).
Proof. intros H. unfold pull. apply NoDup_filter, H. Qed.

Lemma liked_ok (uid : string) (v : Video.t) :
  likesOk v →
  likesOk (if includes (Video.usersLiked v) uid
           then Video.set_likes (Z.max 0 (Video.likes v - 1))
                                (pull uid (Video.usersLiked v)) v
           else Video.set_likes (Video.likes v + 1) (Video.usersLiked v ++ [uid]) v).
Proof.
  tidy. intros [Hl Hnd]. destruct (includes (Video.usersLiked v) uid) eqn:E.
  - apply includes_true in E. split; cbn; [|apply pull_NoDup, Hnd].
    rewrite Hl, (pull_length uid _ Hnd E). lia.
  - apply includes_false in E. split; cbn.
    + rewrite Hl, length_app. cbn. lia.
    + apply NoDup_app. repeat split; [assumption| |apply NoDup_singleton].
      intros x Hx Hx'. apply list_elem_of_singleton in Hx'. congruence.
Qed.

Lemma likesOk_preSave (v : Video.t) : likesOk v → likesOk (videoPreSave v).
Proof. intros Hok. unfold videoPreSave. repeat case_match; exact Hok. Qed.

Ltac db_simpl :=
  cbn [db_users db_chats db_messages db_notes db_videos db_pyqs db_syllabi
       db_announcements db_files db_outbox with_users with_chats with_messages
       with_notes with_videos with_pyqs with_syllabi with_announcements with_files
       with_outbox].

(** One collection after a request. *)
Ltac inv_one :=
  first
    [ apply invKept_refl
    | apply invKept_delete
    | apply invKept_insert; intros Hinv;
      repeat match goal with
        | H : _ !! _ = Some _ |- _ => apply Hinv in H
        end;
      first
        [ assumption
        | apply likesOk_preSave; first [ assumption | apply liked_ok; assumption
                                       | split; [reflexivity|apply NoDup_nil_2] ]
        | apply ratingsOk_preSave; cbn;
          first [ apply ratingsFine_nil
                | match goal with H : ratingsOk _ |- _ => exact (proj1 H) end ]
        | match goal with H : ratingsOk _ |- _ => exact H end
        | match goal with H : likesOk _ |- _ => exact H end ] ].

Ltac inv_cases :=
  intros db; munfold; repeat (case_match; simplify_eq/=);
  repeat match goal with
    | H : _ <$> _ = Some _ |- _ =>
        apply fmap_Some in H; destruct H as (? & ? & ?); simplify_eq/=
    | H : option_bind _ _ _ _ = Some _ |- _ =>
        apply bind_Some in H; destruct H as (? & ? & H); simplify_eq/=
    | H : mbind _ _ = Some _ |- _ =>
        apply bind_Some in H; destruct H as (? & ? & H); simplify_eq/=
    end;
  try (split; db_simpl; rewrite ?insert_insert_eq; inv_one).

Lemma createNote_inv newId user body f : keeps contentInv (createNote newId user body f).
Proof. unfold createNote, saveNote. inv_cases. Qed.

Lemma getNote_inv id : keeps contentInv (getNote id).
Proof. unfold getNote, findNote, saveNote. inv_cases. Qed.
Lemma updateNote_inv user id body f : keeps contentInv (updateNote user id body f).
Proof. unfold updateNote, findNote, deleteFile. inv_cases. Qed.
Lemma deleteNote_inv user id : keeps contentInv (deleteNote user id).
Proof. unfold deleteNote, findNote, deleteFile. inv_cases. Qed.
Lemma verifyNote_inv id : keeps contentInv (verifyNote id).
Proof. unfold verifyNote, findNote, saveNote. inv_cases. Qed.
Lemma downloadNote_inv id : keeps contentInv (downloadNote id).
Proof. unfold downloadNote, findNote, saveNote. inv_cases. Qed.
Lemma incrementNoteViews_inv id : keeps contentInv (incrementNoteViews id).
Proof. unfold incrementNoteViews, findNote, saveNote. inv_cases. Qed.

Lemma addRating_inv now user id body : keeps contentInv (addRating now user id body).
Proof.
  unfold addRating, findNote, saveNote. intros db. munfold.
  destruct (RatingBody.rating body) as [v|]; cbn; [|apply contentInv_refl].
  destruct (negb (Qle_bool 1 v) || negb (Qle_bool v 5)) eqn:Hb; cbn;
    [apply contentInv_refl|].
  apply orb_false_iff in Hb. destruct Hb as [H1 H5].
  apply negb_false_iff, Qle_bool_iff in H1, H5.
  destruct (db_notes db !! id) as [n|] eqn:Hn; cbn; [|apply contentInv_refl].
  match goal with |- context [if ?b then _ else _] => destruct b end; cbn;
    [apply contentInv_refl|].
  split; db_simpl; [|apply invKept_refl].
  apply invKept_insert. intros Hinv. apply ratingsOk_preSave. cbn.
  apply rated_fine; [assumption..|]. exact (proj1 (Hinv id n Hn)).
Qed.

Lemma createVideo_inv newId user body f : keeps contentInv (createVideo newId user body f).
Proof. unfold createVideo, saveVideo. inv_cases. Qed.
Lemma getVideo_inv id : keeps contentInv (getVideo id).
Proof. unfold getVideo, findVideo, saveVideo. inv_cases. Qed.
Lemma updateVideo_inv user id body f : keeps contentInv (updateVideo user id body f).
Proof. unfold updateVideo, findVideo. inv_cases. Qed.
Lemma deleteVideo_inv user id : keeps contentInv (deleteVideo user id).
Proof. unfold deleteVideo, findVideo. inv_cases. Qed.
Lemma verifyVideo_inv id : keeps contentInv (verifyVideo id).
Proof. unfold verifyVideo, findVideo, saveVideo. inv_cases. Qed.
Lemma addComment_inv newId user id text : keeps contentInv (addComment newId user id text).
Proof. unfold addComment, findVideo, saveVideo. inv_cases. Qed.
Lemma deleteComment_inv user id commentId :
  keeps contentInv (deleteComment user id commentId).
Proof. unfold deleteComment, findVideo, saveVideo. inv_cases. Qed.

Lemma likeVideo_inv user id : keeps contentInv (likeVideo user id).
Proof.
  unfold likeVideo, findVideo, saveVideo. intros db. munfold.
  destruct (db_videos db !! id) as [v|] eqn:Hv; cbn; [|apply contentInv_refl].
  split; db_simpl; [apply invKept_refl|].
  apply invKept_insert. intros Hinv. apply likesOk_preSave, liked_ok.
  exact (Hinv id v Hv).
Qed.

Lemma createPYQ_inv newId user body f s : keeps contentInv (createPYQ newId user body f s).
Proof. unfold createPYQ, savePYQ. inv_cases. Qed.
Lemma getPYQ_inv id : keeps contentInv (getPYQ id).
Proof. unfold getPYQ, findPYQ, savePYQ. inv_cases. Qed.
Lemma updatePYQ_inv user id body f s : keeps contentInv (updatePYQ user id body f s).
Proof. unfold updatePYQ, findPYQ, deleteFile. inv_cases. Qed.
Lemma deletePYQ_inv user id : keeps contentInv (deletePYQ user id).
Proof. unfold deletePYQ, findPYQ, deleteFile. inv_cases. Qed.
Lemma addSolution_inv id f : keeps contentInv (addSolution id f).
Proof. unfold addSolution, findPYQ, savePYQ, deleteFile. inv_cases. Qed.
Lemma verifyPYQ_inv id : keeps contentInv (verifyPYQ id).
Proof. unfold verifyPYQ, findPYQ, savePYQ. inv_cases. Qed.
Lemma downloadPYQ_inv id : keeps contentInv (downloadPYQ id).
Proof. unfold downloadPYQ, findPYQ, savePYQ. inv_cases. Qed.
Lemma downloadSolution_inv id : keeps contentInv (downloadSolution id).
Proof. unfold downloadSolution, findPYQ. inv_cases. Qed.

Lemma createSyllabus_inv newId user body f :
  keeps contentInv (createSyllabus newId user body f).
Proof. unfold createSyllabus, saveSyllabus, parseOrEmpty. inv_cases. Qed.
Lemma getSyllabus_inv id : keeps contentInv (getSyllabus id).
Proof. unfold getSyllabus, findSyllabus, saveSyllabus. inv_cases. Qed.
Lemma updateSyllabus_inv user id body f :
  keeps contentInv (updateSyllabus user id body f).
Proof. unfold updateSyllabus, findSyllabus, parseIf, deleteFile. inv_cases. Qed.
Lemma deleteSyllabus_inv user id : keeps contentInv (deleteSyllabus user id).
Proof. unfold deleteSyllabus, findSyllabus, deleteFile. inv_cases. Qed.
Lemma downloadSyllabus_inv id : keeps contentInv (downloadSyllabus id).
Proof. unfold downloadSyllabus, findSyllabus, saveSyllabus. inv_cases. Qed.

Lemma uploadSingle_inv (origin : string) (m : Multer) (req : Request.t) :
  keeps contentInv (uploadSingle origin m req).
Proof.
  intros db. destruct m as [msg|st msg|[f|]]; cbn; try apply contentInv_refl.
  split; apply invKept_refl.
Qed.

Lemma handlePYQFiles_inv (origin : string) (hasSolution : option string)
    (passes : TwoPasses) (req : Request.t) :
  keeps contentInv (handlePYQFiles origin hasSolution passes req).
Proof.
  unfold handlePYQFiles. apply keeps_bind.
  - apply contentInv_trans.
  - apply uploadSingle_inv.
  - intros req1. case_bool_decide; [|intros db; apply contentInv_refl].
    apply keeps_bind.
    + apply contentInv_trans.
    + apply uploadSingle_inv.
    + intros req2 db. apply contentInv_refl.
Qed.

Create HintDb invariants.

#[local] Hint Resolve createNote_inv getNote_inv updateNote_inv deleteNote_inv
  verifyNote_inv downloadNote_inv incrementNoteViews_inv addRating_inv
  createVideo_inv getVideo_inv updateVideo_inv deleteVideo_inv verifyVideo_inv
  addComment_inv deleteComment_inv likeVideo_inv
  createPYQ_inv getPYQ_inv updatePYQ_inv deletePYQ_inv addSolution_inv verifyPYQ_inv
  downloadPYQ_inv downloadSolution_inv
  createSyllabus_inv getSyllabus_inv updateSyllabus_inv deleteSyllabus_inv
  downloadSyllabus_inv uploadSingle_inv handlePYQFiles_inv : invariants.

Lemma contentRoutes_inv (origin : string) (user : User.t) (r : ContentRoute) :
  keeps contentInv (contentRoutes origin user r).
Proof.
  intros db.
  destruct r as [r|r|r|r]; destruct r;
    cbn [contentRoutes noteRoutes videoRoutes pyqRoutes syllabusRoutes];
    unfold isVerified, authorize; rewrite outcome_snd; revert db;
    match goal with |- ∀ db, contentInv db (?m db).2 =>
      change (keeps contentInv m)
    end.
  all: repeat first
    [ solve [ auto with invariants ]
    | apply keeps_throwIf; apply contentInv_refl
    | apply keeps_bind; [ apply contentInv_trans | | intros ? ] ].
Qed.

Lemma serveAll_inv (origin : string) (rs : list (User.t * ContentRoute)) (db : DB) :
  contentInv db (serveAll origin rs db).
Proof.
  revert db. induction rs as [|[u r] rs IH]; intros db.
  - apply contentInv_refl.
  - cbn. eapply contentInv_trans; [apply contentRoutes_inv|apply IH].
Qed.




(** X15. The like counter of a video always counts the users who like
    it.  If in every stored video [likes] is the length of [usersLiked]
    and no user is listed twice, then the same holds after any sequence
    of requests to the content routers, by any users. *)
Theorem X15_likes_count_users (origin : string)
    (rs : list (User.t * ContentRoute)) (db : DB) :
  (∀ id v, db_videos db !! id = Some v → likesOk v) →
  ∀ id v, db_videos (serveAll origin rs db) !! id = Some v →
          Video.likes v = Z.of_nat (length (Video.usersLiked v))
          ∧ NoDup (Video.usersLiked v).
Proof.
  intros Hdb id v Hv.
  destruct (serveAll_inv origin rs db) as [_ Hvideos]. exact (Hvideos Hdb id v Hv).
Qed.

(** ** Who gets into a chat *)

Lemma addToSet_elem (x u : ObjectId) (l : list ObjectId) :
  u ∈ addToSet x l → u ∈ l ∨ u = x.
Proof.
  tidy. unfold addToSet. destruct (includes l x); [left; assumption|].
  rewrite elem_of_app, list_elem_of_singleton. tauto.
Qed.

Lemma addEachToSet_elem (xs : list ObjectId) (u : ObjectId) (l : list ObjectId) :
  u ∈ addEachToSet xs l → u ∈ l ∨ u ∈ xs.
Proof.
  tidy. unfold addEachToSet. revert l. induction xs as [|x xs IH]; intros l; cbn.
  - left. assumption.
  - intros H. destruct (IH _ H) as [H1|H1].
    + destruct (addToSet_elem _ _ _ H1) as [H2| ->]; [left; assumption|].
      right. apply list_elem_of_here.
    + right. apply list_elem_of_further. assumption.
Qed.

Lemma pull_elem (x u : ObjectId) (l : list ObjectId) : u ∈ pull x l → u ∈ l.
Proof. tidy. unfold pull. rewrite list_elem_of_filter. tauto. Qed.

(** X18. A one-to-one chat is closed to the group operations.  Over
    any sequence of create, join, leave, add, remove and transfer
    requests, by any users, none of which creates a chat under its id, a
    chat that is not a group chat and has no group admin stays exactly
    as it is. *)
Theorem X18_one_to_one_chat_is_closed (rs : list GroupReq) (db : DB) (id : ObjectId)
    (c : Chat.t) :
  db_chats db !! id = Some c →
  Chat.isGroupChat c = false →
  Chat.groupAdmin c = None →
  (∀ user body, CreateGroup id user body ∉ rs) →
  db_chats (runGroup rs db) !! id = Some c.
Proof.
  intros Hc Hgroup Hadmin. revert db Hc. unfold runGroup.
  induction rs as [|r rs IH]; intros db Hc Hfresh; [exact Hc|].
  cbn [fold_left]. apply IH.
  - assert (∀ user body, r ≠ CreateGroup id user body) as Hr.
    { intros user body ->. apply (Hfresh user body). apply list_elem_of_here. }
    clear IH Hfresh.
    destruct r as [newId user body|user i|user i|user i us|user i userId|user i userId];
      cbn [handleGroup].
    + specialize (Hr user body).
      unfold createGroupChat. munfold.
      destruct (negb (truthy (GroupBody.chatName body))); cbn; [exact Hc|].
      destruct (validChat _); cbn; [|exact Hc].
      rewrite lookup_insert_ne by congruence. exact Hc.
    + unfold joinGroup, findChat, notifyUsers. munfold. cbn.
      destruct (decide (i = id)) as [->|Hne].
      * rewrite Hc. cbn. rewrite Hgroup, orb_true_r. cbn. exact Hc.
      * repeat (case_match; simplify_eq/=); rewrite ?lookup_insert_ne by congruence;
          exact Hc.
    + unfold leaveGroup, findChat, groupAdminToString. munfold. cbn.
      destruct (decide (i = id)) as [->|Hne].
      * rewrite Hc. cbn. rewrite Hgroup. cbn. exact Hc.
      * repeat (case_match; simplify_eq/=); rewrite ?lookup_insert_ne by congruence;
          exact Hc.
    + unfold addToGroup, findChat, groupAdminToString. munfold. cbn.
      destruct us as [us|]; cbn; [|exact Hc].
      destruct (decide (i = id)) as [->|Hne].
      * rewrite Hc. cbn. rewrite Hadmin. cbn. exact Hc.
      * repeat (case_match; simplify_eq/=); rewrite ?lookup_insert_ne by congruence;
          exact Hc.
    + unfold removeFromGroup, findChat, groupAdminToString. munfold. cbn.
      destruct (decide (i = id)) as [->|Hne].
      * rewrite Hc. cbn. rewrite Hadmin. cbn. exact Hc.
      * repeat (case_match; simplify_eq/=); rewrite ?lookup_insert_ne by congruence;
          exact Hc.
    + unfold transferGroupOwnership, findChat, groupAdminToString, notifyUsers.
      munfold. cbn.
      destruct (decide (i = id)) as [->|Hne].
      * rewrite Hc. cbn. rewrite Hadmin. cbn. exact Hc.
      * repeat (case_match; simplify_eq/=); rewrite ?lookup_insert_ne by congruence;
          exact Hc.
  - intros user body Hin. apply (Hfresh user body). apply list_elem_of_further, Hin.
Qed.

(** X19. A group that is not public is entered by invitation only.  Of
    the create, join, leave, add, remove and transfer requests, the only
    one after which an existing non-public chat has a member it did not
    have before is an add-to-group that lists this user and is sent by
    the chat's group admin or by an app admin (the id of a chat that is
    created being new). *)
Theorem X19_private_group_by_invitation (r : GroupReq) (db : DB) (id : ObjectId)
    (c c' : Chat.t) (u : ObjectId) :
  db_chats db !! id = Some c →
  Chat.isPublic c = false →
  (∀ user body, r ≠ CreateGroup id user body) →
  db_chats (handleGroup r db).2 !! id = Some c' →
  u ∈ Chat.users c' → u ∉ Chat.users c →
  ∃ actor us,
    r = AddToGroup actor id (Some us) ∧ u ∈ us
    ∧ (Chat.groupAdmin c = Some (User._id actor) ∨ User.role actor = admin).
Proof.
  intros Hc Hpriv Hr Hc' Hin Hnin.
  assert (db_chats db !! id = Some c' → False) as Hsame.
  { intros H. rewrite Hc in H. injection H as ->. contradiction. }
  destruct r as [newId user body|user i|user i|user i us|user i userId|user i userId];
    cbn [handleGroup] in Hc'.
  - exfalso. specialize (Hr user body).
    unfold createGroupChat in Hc'. munfold.
    destruct (negb (truthy (GroupBody.chatName body))); cbn in Hc'; [tidy; tauto|].
    destruct (validChat _); cbn in Hc'; [|tidy; tauto].
    rewrite lookup_insert_ne in Hc' by congruence. tidy; tauto.
  - exfalso. unfold joinGroup, findChat, notifyUsers in Hc'. munfold. cbn in Hc'.
    destruct (decide (i = id)) as [->|Hne].
    + rewrite Hc in Hc'. cbn in Hc'. rewrite Hpriv in Hc'. cbn in Hc'. tidy; tauto.
    + repeat (case_match; simplify_eq/=);
        rewrite ?lookup_insert_ne in Hc' by congruence; tidy; tauto.
  - exfalso. unfold leaveGroup, findChat, groupAdminToString in Hc'. munfold.
    cbn in Hc'.
    destruct (decide (i = id)) as [->|Hne].
    + rewrite Hc in Hc'. cbn in Hc'.
      repeat (case_match; simplify_eq/=); try (tidy; tauto).
      rewrite lookup_insert_eq in Hc'. injection Hc' as <-.
      apply Hnin. eapply pull_elem. exact Hin.
    + repeat (case_match; simplify_eq/=);
        rewrite ?lookup_insert_ne in Hc' by congruence; tidy; tauto.
  - unfold addToGroup, findChat, groupAdminToString in Hc'. munfold. cbn in Hc'.
    destruct us as [us|]; cbn in Hc'; [|exfalso; tidy; tauto].
    destruct (decide (i = id)) as [->|Hne].
    + rewrite Hc in Hc'. cbn in Hc'.
      destruct (Chat.groupAdmin c) as [ga|] eqn:Hga; cbn in Hc'; [|exfalso; tidy; tauto].
      destruct (negb (sameId ga (User._id user)) && negb (isAdminRole user)) eqn:Hauth;
        cbn in Hc'; [exfalso; tidy; tauto|].
      rewrite lookup_insert_eq in Hc'. injection Hc' as <-.
      exists user, us. split; [reflexivity|]. split.
      * destruct (addEachToSet_elem _ _ _ Hin) as [H|H]; [contradiction|exact H].
      * apply andb_false_iff in Hauth. rewrite !negb_false_iff in Hauth.
        unfold sameId, isAdminRole in Hauth. rewrite !bool_decide_eq_true in Hauth.
        destruct Hauth as [->|H]; [left; reflexivity|right; exact H].
    + exfalso. repeat (case_match; simplify_eq/=);
        rewrite ?lookup_insert_ne in Hc' by congruence; tidy; tauto.
  - exfalso. unfold removeFromGroup, findChat, groupAdminToString in Hc'. munfold.
    cbn in Hc'.
    destruct (decide (i = id)) as [->|Hne].
    + rewrite Hc in Hc'. cbn in Hc'.
      repeat (case_match; simplify_eq/=); try (tidy; tauto).
      rewrite lookup_insert_eq in Hc'. injection Hc' as <-.
      apply Hnin. eapply pull_elem. exact Hin.
    + repeat (case_match; simplify_eq/=);
        rewrite ?lookup_insert_ne in Hc' by congruence; tidy; tauto.
  - exfalso. unfold transferGroupOwnership, findChat, groupAdminToString, notifyUsers in Hc'.
    munfold. cbn in Hc'.
    destruct (decide (i = id)) as [->|Hne].
    + rewrite Hc in Hc'. cbn in Hc'.
      repeat (case_match; simplify_eq/=); try (tidy; tauto);
        rewrite lookup_insert_eq in Hc'; injection Hc' as <-; apply Hnin; exact Hin.
    + repeat (case_match; simplify_eq/=);
        rewrite ?lookup_insert_ne in Hc' by congruence; tidy; tauto.
Qed.

(** ** The files of the videos *)

Lemma filesKept_refl (db : DB) : filesKept db db.
Proof. tidy. unfold filesKept. set_solver. Qed.

Lemma filesKept_trans (a b c : DB) : filesKept a b → filesKept b c → filesKept a c.
Proof. tidy. unfold filesKept. set_solver. Qed.

Ltac files_cases :=
  intros db; munfold; repeat (case_match; simplify_eq/=);
  first [ apply filesKept_refl | unfold filesKept; db_simpl; tidy; set_solver ].

Lemma uploadSingle_files (origin : string) (m : Multer) (req : Request.t) :
  keeps filesKept (uploadSingle origin m req).
Proof. unfold uploadSingle. files_cases. Qed.
Lemma createVideo_files newId user body f : keeps filesKept (createVideo newId user body f).
Proof. unfold createVideo, saveVideo. files_cases. Qed.
Lemma getVideo_files id : keeps filesKept (getVideo id).
Proof. unfold getVideo, findVideo, saveVideo. files_cases. Qed.
Lemma updateVideo_files user id body f : keeps filesKept (updateVideo user id body f).
Proof. unfold updateVideo, findVideo. files_cases. Qed.
Lemma deleteVideo_files user id : keeps filesKept (deleteVideo user id).
Proof. unfold deleteVideo, findVideo. files_cases. Qed.
Lemma verifyVideo_files id : keeps filesKept (verifyVideo id).
Proof. unfold verifyVideo, findVideo, saveVideo. files_cases. Qed.
Lemma likeVideo_files user id : keeps filesKept (likeVideo user id).
Proof. unfold likeVideo, findVideo, saveVideo. files_cases. Qed.
Lemma addComment_files newId user id text : keeps filesKept (addComment newId user id text).
Proof. unfold addComment, findVideo, saveVideo. files_cases. Qed.
Lemma deleteComment_files user id commentId :
  keeps filesKept (deleteComment user id commentId).
Proof. unfold deleteComment, findVideo, saveVideo. files_cases. Qed.

Lemma videoRoutes_files (origin : string) (user : User.t) (r : VideoRoute) (db : DB) :
  filesKept db (videoRoutes origin user r db).2.
Proof.
  destruct r; cbn [videoRoutes]; unfold isVerified, authorize; rewrite outcome_snd;
    revert db;
    match goal with |- ∀ db, filesKept db (?m db).2 => change (keeps filesKept m) end.
  all: repeat first
    [ apply uploadSingle_files | apply createVideo_files | apply getVideo_files
    | apply updateVideo_files | apply deleteVideo_files | apply verifyVideo_files
    | apply likeVideo_files | apply addComment_files | apply deleteComment_files
    | apply keeps_throwIf; apply filesKept_refl
    | apply keeps_bind; [ apply filesKept_trans | | intros ? ] ].
Qed.

(** X23. The file of a video is never unlinked.  The video schema has
    no [filePath], so what [updateVideo] and [deleteVideo] would unlink
    is never there: a file that is in the upload directory is still
    there after any sequence of requests to the video router, by any
    users, the deletion of its video and the upload of a replacement
    included. *)
Theorem X23_video_files_are_never_unlinked (origin : string)
    (rs : list (User.t * VideoRoute)) (db : DB) (path : string) :
  path ∈ db_files db →
  path ∈ db_files (serveAll origin ((fun ur => (ur.1, VideoR ur.2)) <$> rs) db).
Proof.
  revert db. unfold serveAll. induction rs as [|[user r] rs IH]; intros db Hin.
  - exact Hin.
  - cbn [fmap list_fmap fold_left]. apply IH. cbn [contentRoutes fst snd].
    apply (videoRoutes_files origin user r db). exact Hin.
Qed.

(** X24. A rejected upload leaves its file behind.  When a verified
    user posts a note, a video or a PYQ with a file and the request is
    refused (a field is missing, a number does not cast, the document is
    not valid, the second multer pass of a PYQ fails), neither the
    router nor the controller unlinks the file that the upload
    middleware has stored: it is in the upload directory, and no note,
    video, PYQ or syllabus has been added or changed. *)
Theorem X24_rejected_upload_leaves_file (origin : string) (user : User.t)
    (r : ContentRoute) (f : MulterFile.t) (db db' : DB) (st : nat) (msg : string) :
  User.isVerified user = true →
  (∃ newId body, r = NoteR (POST_notes newId body (Parsed (Some f))))
  ∨ (∃ newId body, r = VideoR (POST_videos newId body (Parsed (Some f))))
  ∨ (∃ newId body hasSolution status message,
       r = PyqR (POST_pyq newId body hasSolution
                          (Multipart (Parsed (Some f)) status message))) →
  contentRoutes origin user r db = (Err st msg, db') →
  MulterFile.path f ∈ db_files db'
  ∧ db_notes db' = db_notes db ∧ db_videos db' = db_videos db
  ∧ db_pyqs db' = db_pyqs db ∧ db_syllabi db' = db_syllabi db.
Proof.
  intros Hver Hr H.
  destruct Hr as [(newId & body & ->)|[(newId & body & ->)
                 |(newId & body & hasSolution & status & message & ->)]];
    cbn [contentRoutes noteRoutes videoRoutes pyqRoutes] in H;
    unfold isVerified in H; rewrite Hver in H.
  - unfold createNote, saveNote, uploadSingle, outcome in H. munfold. cbn in H.
    repeat (case_match; simplify_eq/=); db_simpl;
      (split; [tidy; set_solver|repeat split; reflexivity]).
  - unfold createVideo, saveVideo, uploadSingle, outcome in H. munfold. cbn in H.
    repeat (case_match; simplify_eq/=); db_simpl;
      (split; [tidy; set_solver|repeat split; reflexivity]).
  - unfold createPYQ, savePYQ, handlePYQFiles, uploadSingle, outcome in H.
    cbn [firstPass secondPass] in H. munfold. cbn in H.
    repeat (case_match; simplify_eq/=); db_simpl;
      (split; [tidy; set_solver|repeat split; reflexivity]).
Qed.

(** ** Likes *)

Lemma videoPreSave_set_likes (n : Z) (us : list ObjectId) (v : Video.t) :
  videoPreSave (Video.set_likes n us v) = Video.set_likes n us (videoPreSave v).
Proof.
  unfold videoPreSave. destruct v; cbn.
  repeat case_match; reflexivity.
Qed.

Lemma videoPreSave_idem (v : Video.t) : videoPreSave (videoPreSave v) = videoPreSave v.
Proof.
  unfold videoPreSave. destruct v as [i url th yt yid d tg up ver vw lk ul cm]; cbn.
  destruct (yt && negb (String.eqb url "")) eqn:E; cbn; [|rewrite E; reflexivity].
  destruct (youtubeIdOf url) as [y|] eqn:Ey; cbn; rewrite E, ?Ey; reflexivity.
Qed.

(** X25. Liking a video twice takes the like back.  For a user who
    does not like the video yet, the first [likeVideo] answers with one
    like more and [liked: true], the second with the old count and
    [liked: false], and the video is then what saving it unchanged
    would have stored: the same likes and the same users, in the same
    order. *)
Theorem X25_like_twice_is_undone (user : User.t) (id : ObjectId) (db : DB) (v : Video.t) :
  db_videos db !! id = Some v →
  User._id user ∉ Video.usersLiked v →
  0 <= Video.likes v →
  ∃ db1,
    likeVideo user id db = (Ok (Respond 200 (Video.likes v + 1, true)), db1)
    ∧ likeVideo user id db1
      = (Ok (Respond 200 (Video.likes v, false)),
         with_videos (insert id (videoPreSave v)) db).
Proof.
  intros Hv Hnew Hlikes. eexists. split.
  - unfold likeVideo, findVideo, saveVideo. munfold. cbn. rewrite Hv. cbn.
    rewrite (proj2 (includes_false _ _) Hnew). cbn.
    rewrite videoPreSave_set_likes. reflexivity.
  - unfold likeVideo, findVideo, saveVideo. munfold. cbn.
    rewrite lookup_insert_eq. cbn.
    rewrite (proj2 (includes_true _ _)) by (apply elem_of_app; right; apply list_elem_of_here).
    cbn. fold (pull (User._id user) (Video.usersLiked v ++ [User._id user])).
    rewrite pull_app_new by exact Hnew.
    replace (Video.likes v + 1 - 1) with (Video.likes v) by lia.
    rewrite Z.max_r by exact Hlikes.
    rewrite videoPreSave_set_likes, videoPreSave_set_likes, videoPreSave_idem.
    replace (Video.set_likes (Video.likes v) (Video.usersLiked v)
               (Video.set_likes (Video.likes v + 1)
                  (Video.usersLiked v ++ [User._id user]) (videoPreSave v)))
      with (videoPreSave v).
    + assert (Video.likes (videoPreSave v) = Video.likes v) as ->
        by (unfold videoPreSave; repeat case_match; reflexivity).
      destruct db. unfold with_videos. cbn. rewrite insert_insert_eq. reflexivity.
    + unfold videoPreSave. destruct v. cbn. repeat case_match; reflexivity.
Qed.

(** ** The admin router *)

Lemma adminRoutes_not_admin (validUpdate : UserUpdate.t → bool) (origin : string)
    (user : User.t) (r : AdminRoute) (db : DB) :
  User.role user ≠ admin →
  ∃ msg, adminRoutes validUpdate origin user r db = (Err 403 msg, db).
Proof.
  intros Hrole.
  assert (bool_decide (User.role user ∈ [admin]) = false) as Hauth.
  { apply bool_decide_eq_false. intros H. apply list_elem_of_singleton in H.
    contradiction. }
  destruct r; cbn [adminRoutes]; unfold isVerified, authorize; munfold;
    rewrite Hauth; destruct (User.isVerified user); cbn; eexists; reflexivity.
Qed.


(** X27. [updateUser] does not keep an admin.  [deleteUser] refuses to
    delete the last admin, [updateUser] has no such guard: when it gives
    the only admin another role, no admin is left, and from then on the
    admin router answers 403 to every stored user, whatever the
    request. *)
Theorem X27_update_user_can_demote_the_last_admin (validUpdate : UserUpdate.t → bool)
    (id : ObjectId) (body : UpdateUserBody.t) (db db' : DB) (u : User.t) (ro : Role)
    (r : Response User.t) :
  db_users db !! id = Some u →
  User.role u = admin →
  adminCount db = 1%nat →
  truthy (UpdateUserBody.role body) = true →
  castRole (UpdateUserBody.role body) = Some ro →
  ro ≠ admin →
  updateUser validUpdate id body db = (Ok r, db') →
  User.role (payload r) = ro
  ∧ db_users db' = <[id := payload r]> (db_users db)
  ∧ adminCount db' = 0%nat
  ∧ ∀ k user, db_users db' !! k = Some user →
              ∀ validUpdate' origin route,
                ∃ msg, adminRoutes validUpdate' origin user route db'
                       = (Err 403 msg, db').
Proof.
  intros Hu Hadmin Hcount Htruthy Hcast Hro H.
  unfold updateUser, findUser in H. munfold.
  destruct (userUpdateOf body) as [fields|] eqn:Hfields; [|discriminate H].
  destruct (validUpdate fields); cbn in H; [|discriminate H].
  rewrite Hu in H. cbn in H.
  match type of H with context [if ?b then _ else _] => destruct b end;
    cbn in H; [discriminate H|].
  injection H as <- <-. cbn [payload db_users with_users].
  assert (UserUpdate.role fields = Some ro) as Hrole.
  { unfold userUpdateOf, castIf in Hfields. rewrite Htruthy in Hfields.
    destruct (UpdateUserBody.role body) as [s|]; [|discriminate Htruthy].
    change (Some s ≫= λ s : string, castRole (Some s)) with (castRole (Some s))
      in Hfields.
    rewrite Hcast in Hfields. cbn [fmap option_fmap option_map mbind option_bind] in Hfields.
    repeat (apply bind_Some in Hfields; destruct Hfields as (? & ? & Hfields)).
    injection Hfields as <-. reflexivity. }
  assert (User.role (applyUserUpdate fields u) = ro) as Hnew.
  { unfold applyUserUpdate. cbn. rewrite Hrole. reflexivity. }
  assert (adminCount (with_users (insert id (applyUserUpdate fields u)) db) = 0%nat)
    as Hzero.
  { unfold adminCount, countDocuments in *. cbn [db_users with_users].
    rewrite map_filter_insert_False.
    - pose proof (countDocuments_delete (fun u => bool_decide (User.role u = admin))
                    (db_users db) id) as Hdel.
      unfold countDocuments in Hdel. rewrite Hdel, Hu, Hadmin.
      rewrite bool_decide_eq_true_2 by reflexivity. rewrite Hcount. reflexivity.
    - intros HP. apply bool_decide_eq_true in HP.
      change (User.role (applyUserUpdate fields u) = admin) in HP.
      rewrite Hnew in HP. contradiction. }
  split; [exact Hnew|]. split; [reflexivity|]. split; [exact Hzero|].
  intros k user Hk validUpdate' origin route. apply adminRoutes_not_admin.
  pose proof (countDocuments_zero _ _ Hzero k user Hk) as Hnot.
  apply bool_decide_eq_false in Hnot. exact Hnot.
Qed.

(** ** The life of a note *)


(** ** Who reads a chat *)



(** ** Leaving a group *)

Lemma leave_unreadFor_other (db db1 : DB) (id uid v : ObjectId) (c : Chat.t)
    (m : Message.t) :
  db_chats db !! id = Some c →
  db_chats db1 = <[id := Chat.set_users (pull uid (Chat.users c)) c]> (db_chats db) →
  v ≠ uid →
  unreadFor db1 v m = unreadFor db v m.
Proof.
  intros Hc Hchats Hv. unfold unreadFor, isMember. rewrite Hchats.
  destruct (decide (Message.chat m = id)) as [->|Hne].
  - rewrite lookup_insert_eq, Hc. cbn [Chat.users Chat.set_users].
    do 3 f_equal. apply bool_decide_ext. rewrite elem_of_pull.
    split; [intros [H _]; exact H|intros H; split; [exact H|exact Hv]].
  - rewrite lookup_insert_ne by congruence. reflexivity.
Qed.

Lemma leave_unreadFor_leaver (db db1 : DB) (id uid : ObjectId) (c : Chat.t)
    (m : Message.t) :
  db_chats db !! id = Some c →
  db_chats db1 = <[id := Chat.set_users (pull uid (Chat.users c)) c]> (db_chats db) →
  unreadFor db1 uid m = unreadFor db uid m && negb (bool_decide (Message.chat m = id)).
Proof.
  intros Hc Hchats. unfold unreadFor, isMember. rewrite Hchats.
  destruct (decide (Message.chat m = id)) as [->|Hne].
  - rewrite lookup_insert_eq. cbn [Chat.users Chat.set_users].
    rewrite (bool_decide_eq_false_2 (uid ∈ pull uid (Chat.users c))).
    + rewrite (bool_decide_eq_true_2 (id = id)) by reflexivity.
      cbn. rewrite andb_false_r. reflexivity.
    + rewrite elem_of_pull. intros [_ H]. apply H. reflexivity.
  - rewrite lookup_insert_ne by congruence.
    rewrite (bool_decide_eq_false_2 (Message.chat m = id)) by exact Hne.
    cbn. rewrite andb_true_r. reflexivity.
Qed.

(** X30. Leaving a group clears its unread messages.  After a
    successful [leaveGroup], [getUnreadCount] shows the leaver no entry
    for the group, every other entry as before, and a total that has
    dropped by the count the entry showed; every other user is answered
    exactly as before. *)
Theorem X30_leaving_clears_unread (user : User.t) (id : ObjectId) (db db1 : DB)
    (r : Response Chat.t) :
  leaveGroup user id db = (Ok r, db1) →
  (∀ other, User._id other ≠ User._id user →
            (getUnreadCount other db1).1 = (getUnreadCount other db).1)
  ∧ ∃ u u1, getUnreadCount user db = (Ok (Respond 200 u), db)
            ∧ getUnreadCount user db1 = (Ok (Respond 200 u1), db1)
            ∧ Unread.unreadByChat u1 = delete id (Unread.unreadByChat u)
            ∧ (Unread.totalUnread u1 + default 0 (Unread.unreadByChat u !! id))%nat
              = Unread.totalUnread u.
Proof.
  intros H. apply leaveGroup_ok in H. destruct H as (c & Hc & _ & Hchats & Hms).
  set (uid := User._id user) in *.
  split.
  - intros other Hne.
    destruct (getUnreadCount_spec other db) as (u & -> & Ht & Hby & _).
    destruct (getUnreadCount_spec other db1) as (u1 & -> & Ht1 & Hby1 & _).
    cbn. do 2 f_equal. destruct u as [t m], u1 as [t1 m1]. cbn in *. f_equal.
    + rewrite Ht, Ht1. unfold unreadTotal. rewrite Hms. f_equal.
      apply List.filter_ext. intros x.
      apply (leave_unreadFor_other db db1 id uid _ c x Hc Hchats Hne).
    + apply map_eq. intros k. rewrite Hby, Hby1. f_equal.
      unfold unreadIn. rewrite Hms. f_equal. apply List.filter_ext. intros x.
      rewrite (leave_unreadFor_other db db1 id uid _ c x Hc Hchats Hne). reflexivity.
  - destruct (getUnreadCount_spec user db) as (u & Hu & Ht & Hby & _).
    destruct (getUnreadCount_spec user db1) as (u1 & Hu1 & Ht1 & Hby1 & _).
    exists u, u1. split; [exact Hu|]. split; [exact Hu1|]. fold uid in Ht, Ht1, Hby, Hby1.
    split.
    + apply map_eq. intros k. rewrite Hby1.
      destruct (decide (k = id)) as [->|Hk].
      * rewrite lookup_delete_eq. unfold unreadIn. rewrite Hms.
        rewrite (List.filter_ext _ (fun _ => false)).
        -- generalize (db_messages db). intros l.
           induction l as [|x l IH]; [reflexivity|exact IH].
        -- intros x. rewrite (leave_unreadFor_leaver db db1 id uid c x Hc Hchats).
           destruct (bool_decide (Message.chat x = id)); cbn;
             rewrite ?andb_false_r; reflexivity.
      * rewrite lookup_delete_ne by congruence. rewrite Hby. f_equal.
        unfold unreadIn. rewrite Hms. f_equal. apply List.filter_ext. intros x.
        rewrite (leave_unreadFor_leaver db db1 id uid c x Hc Hchats).
        destruct (bool_decide (Message.chat x = k)) eqn:E1;
          [|rewrite !andb_false_r; reflexivity].
        apply bool_decide_eq_true in E1.
        rewrite (bool_decide_eq_false_2 (Message.chat x = id)) by congruence.
        cbn. rewrite !andb_true_r. reflexivity.
    + rewrite Ht, Ht1, Hby, shownCount_default.
      unfold unreadTotal, unreadIn. rewrite Hms.
      rewrite (List.filter_ext (unreadFor db1 uid)
                 (fun m => unreadFor db uid m
                           && negb (bool_decide (Message.chat m = id)))).
      * apply filter_split_length.
      * intros x. apply (leave_unreadFor_leaver db db1 id uid c x Hc Hchats).
Qed.

End Controllers.

(** * The controllers on explicit inputs *)

(** The listing scenario of the specification, with branches that both
    the user and the content schema know: with no query, an ECE student
    is given the filter ECE, year 2, semester 3 and an ME student the
    filter ME, year 2, semester 3; the ME student who asks for ECE
    explicitly is given the ECE filter; a teacher with no query is given
    the empty filter. *)
Lemma listing_scenario :
  getNotes alice noQuery = Filter.mk (Some "ECE") (Some (Num 2)) (Some (Num 3)) None
  ∧ getNotes dave noQuery = Filter.mk (Some "ME") (Some (Num 2)) (Some (Num 3)) None
  ∧ getNotes dave eceQuery = Filter.mk (Some "ECE") (Some (Num 2)) (Some (Num 3)) None
  ∧ getNotes bob noQuery = Filter.empty.
Proof. repeat split. Qed.

(** C2, the claim as stated, fails: Alice creates a group and the app
    admin removes her.  The chat still names Alice as [groupAdmin], but
    she is no longer among its users, so no member is the group admin. *)
Lemma C2_counterexample :
  ¬ groupInvariant
      (runGroup castAnyCase acceptAll status500 pushAlwaysFails
         [ CreateGroup "g-1" alice studyGroup;
           RemoveFromGroup root "g-1" "u-alice" ]
         emptyDB).
Proof.
  intros H.
  assert (db_chats (runGroup castAnyCase acceptAll status500 pushAlwaysFails
             [ CreateGroup "g-1" alice studyGroup;
               RemoveFromGroup root "g-1" "u-alice" ] emptyDB) !! "g-1"
          = Some (Chat.mk "DSA study group" true ["u-dave"] (Some "u-alice") true
                          None (Some "ECE") (Some "2") (Some "3"))) as Hc
    by (vm_compute; reflexivity).
  destruct (H _ _ Hc eq_refl) as (a & Hin & Ha & _).
  cbn in Ha, Hin. injection Ha as <-.
  apply list_elem_of_singleton in Hin. discriminate Hin.
Qed.

Lemma C2_witness :
  groupInvariant
    (handleGroup castAnyCase acceptAll status500 pushAlwaysFails
       (CreateGroup "g-1" alice studyGroup) emptyDB).2
  ∧ ∃ msg, leaveGroup status500 alice "g-1" groupDB = (Err 400 msg, groupDB).
Proof.
  split.
  - apply (C2_group_admin_membership castAnyCase acceptAll status500 pushAlwaysFails emptyDB).
    + reflexivity.
    + apply reach_step; [apply reach_init|reflexivity].
  - assert (reachable castAnyCase acceptAll status500 pushAlwaysFails emptyDB groupDB) as Hr.
    { change groupDB with
        (handleGroup castAnyCase acceptAll status500 pushAlwaysFails
           (CreateGroup "g-1" alice studyGroup) emptyDB).2.
      apply reach_step; [apply reach_init|reflexivity]. }
    destruct (C2_group_admin_membership castAnyCase acceptAll status500 pushAlwaysFails
                emptyDB groupDB eq_refl Hr) as [_ H].
    eapply (H alice "g-1" "u-alice"); reflexivity.
Defined.

(** A verified note stays verified while its owner edits it, another
    user rates it, and it is viewed and downloaded. *)
Lemma C3_witness :
  ∃ n', db_notes
          (runContent castDecimal acceptAll acceptAll acceptAll acceptAll status500
             parseAsIs noVideoInfo noYoutubeId pushAlwaysFails
             [ UpdateNote alice "n-1"
                 (InfoBody.mk (Some "DSA notes, revised") None None None None None) None;
               AddRating 100 dave "n-1" (RatingBody.mk (Some (4 # 1)%Q) None);
               GetNote "n-1";
               DownloadNote "n-1" ]
             verifiedNotesDB) !! "n-1" = Some n'
        ∧ Note.isVerified n' = true
        ∧ Info.title (Note.info n') = "DSA notes, revised"
        ∧ Note.views n' = 1 ∧ Note.downloads n' = 1.
Proof.
  eexists. split; [vm_compute; reflexivity|]. split; [|repeat split].
  eapply (proj1 (C3_verification_one_way castDecimal acceptAll acceptAll acceptAll
                   acceptAll status500 parseAsIs noVideoInfo noYoutubeId pushAlwaysFails
                   [ UpdateNote alice "n-1"
                       (InfoBody.mk (Some "DSA notes, revised") None None None None None)
                       None;
                     AddRating 100 dave "n-1" (RatingBody.mk (Some (4 # 1)%Q) None);
                     GetNote "n-1";
                     DownloadNote "n-1" ]
                   verifiedNotesDB "n-1")).
  - vm_compute. reflexivity.
  - reflexivity.
  - vm_compute. reflexivity.
Defined.

(** C4, the claim as stated, fails on a syllabus: the teacher's upload
    succeeds and the stored syllabus carries no [isVerified] flag, so the
    flag is not true. *)
Lemma C4_counterexample :
  ∃ resp db',
    handleCreate castDecimal acceptAll acceptAll acceptAll acceptAll status500
                 parseAsIs noVideoInfo noYoutubeId
                 (CreateSyllabus "sy-1" bob dsaSyllabus (Some dsaUpload)) emptyDB
    = (Ok resp, db')
    ∧ User.role bob = teacher
    ∧ itemIsVerified (payload resp) ≠ Some true.
Proof.
  eexists. eexists. split; [vm_compute; reflexivity|].
  split; [reflexivity|]. cbn. discriminate.
Qed.

(** A student's note is stored unverified, a teacher's verified. *)
Lemma C4_witness :
  (∃ resp db',
     handleCreate castDecimal acceptAll acceptAll acceptAll acceptAll status500
                  parseAsIs noVideoInfo noYoutubeId
                  (CreateNote "n-9" alice dsaInfo (Some dsaUpload)) emptyDB
     = (Ok resp, db')
     ∧ itemIsVerified (payload resp) = Some false)
  ∧ (∃ resp db',
       handleCreate castDecimal acceptAll acceptAll acceptAll acceptAll status500
                    parseAsIs noVideoInfo noYoutubeId
                    (CreateNote "n-9" bob dsaInfo (Some dsaUpload)) emptyDB
       = (Ok resp, db')
       ∧ itemIsVerified (payload resp) = Some true).
Proof.
  split.
  - pose proof (C4_verified_on_upload castDecimal acceptAll acceptAll acceptAll
                  acceptAll status500 parseAsIs noVideoInfo noYoutubeId
                  (CreateNote "n-9" alice dsaInfo (Some dsaUpload)) emptyDB) as H.
    destruct (handleCreate _ _ _ _ _ _ _ _ _ _ emptyDB) as [[resp|st msg] db'] eqn:E;
      [|vm_compute in E; discriminate E].
    destruct (H db' resp eq_refl) as (_ & _ & Hv).
    exists resp, db'. split; [reflexivity|].
    vm_compute in E. injection E as <- <-. exact Hv.
  - pose proof (C4_verified_on_upload castDecimal acceptAll acceptAll acceptAll
                  acceptAll status500 parseAsIs noVideoInfo noYoutubeId
                  (CreateNote "n-9" bob dsaInfo (Some dsaUpload)) emptyDB) as H.
    destruct (handleCreate _ _ _ _ _ _ _ _ _ _ emptyDB) as [[resp|st msg] db'] eqn:E;
      [|vm_compute in E; discriminate E].
    destruct (H db' resp eq_refl) as (_ & _ & Hv).
    exists resp, db'. split; [reflexivity|].
    vm_compute in E. injection E as <- <-. exact Hv.
Defined.



(** Alice has two unread messages, both in the chat with Dave; after
    she fetches that chat's messages she has none there. *)
Lemma C6_witness :
  (∃ u, getUnreadCount alice chatDB = (Ok (Respond 200 u), chatDB)
        ∧ Unread.totalUnread u = 2%nat
        ∧ Unread.unreadByChat u !! "c-1" = Some 2%nat)
  ∧ (∃ r db', getMessages status500 alice "c-1" None None chatDB = (Ok r, db')
              ∧ MessagePage.count (payload r) = 4%nat
              ∧ unreadIn db' "u-alice" "c-1" = 0%nat).
Proof.
  destruct (C6_unread_count status500 alice chatDB) as [(u & Hu & Ht & Hc & _) Hget].
  split.
  - exists u. split; [exact Hu|]. split.
    + rewrite Ht. reflexivity.
    + rewrite Hc. reflexivity.
  - destruct (getMessages status500 alice "c-1" None None chatDB) as [[r|st msg] db']
      eqn:E; [|vm_compute in E; discriminate E].
    destruct (Hget "c-1" None None r db' E) as (_ & Hz & _).
    exists r, db'. split; [reflexivity|]. split; [|exact Hz].
    vm_compute in E. injection E as <- _. reflexivity.
Defined.



(** Alice adds Bob to her group twice: three members after the first
    call, and the second call answers the same and changes nothing. *)
Lemma C8_witness :
  ∃ r1 db1,
    addToGroup status500 alice "g-1" (Some ["u-bob"]) groupDB = (Ok r1, db1)
    ∧ length (Chat.users (payload r1)) = 3%nat
    ∧ addToGroup status500 alice "g-1" (Some ["u-bob"]) db1 = (Ok r1, db1).
Proof.
  destruct (addToGroup status500 alice "g-1" (Some ["u-bob"]) groupDB)
    as [[r1|st msg] db1] eqn:E; [|vm_compute in E; discriminate E].
  destruct (C8_add_to_group_idempotent status500 alice "g-1" ["u-bob"] groupDB db1 r1 E)
    as (c & Hc & _ & _ & _ & Hnew & Hagain).
  exists r1, db1. split; [reflexivity|]. split; [|exact Hagain].
  vm_compute in Hc. injection Hc as <-.
  rewrite (Hnew "u-bob" eq_refl); [reflexivity|].
  cbn. intros H. apply elem_of_cons in H. destruct H as [H|H]; [discriminate|].
  apply list_elem_of_singleton in H. discriminate.
Defined.

(** C9 at a concrete input: a teacher verifies Alice's note through the
    note route.  The note is stored verified and the answer is 200, yet
    nothing was handed to [notifyUsers]; the same verification through
    [verifyContent] queues one notification, addressed to Alice, and
    answers 200 although the push fails. *)
Lemma C9_failing_input :
  (∃ n', verifyNote "n-1" notesDB
         = (Ok (Respond 200 "Note verified successfully"),
            with_notes (insert "n-1" n') notesDB)
         ∧ Note.isVerified n' = true
         ∧ db_outbox (with_notes (insert "n-1" n') notesDB) = [])
  ∧ (∃ db', verifyContent noYoutubeId pushAlwaysFails (Some "note") (Some "n-1") notesDB
            = (Ok (Respond 200 "note verified successfully"), db')
            ∧ Notification.targetUsers <$> db_outbox db' = [["u-alice"]]).
Proof.
  split.
  - eexists. split; [reflexivity|]. split; reflexivity.
  - eexists. split; [vm_compute; reflexivity|]. reflexivity.
Qed.

(** A request for the teacher role is refused and stores nothing; a
    plain request creates an unverified student. *)
Lemma C10_witness :
  (∃ msg, register castDecimal acceptAll status500 fakeHash "u-eve" "otp-hash"
                   registerAsTeacher emptyDB = (Err 400 msg, emptyDB))
  ∧ (∃ resp db',
       register castDecimal acceptAll status500 fakeHash "u-eve" "otp-hash"
                registerPlain emptyDB = (Ok resp, db')
       ∧ User.role (payload resp) = student
       ∧ User.isVerified (payload resp) = false
       ∧ db_users db' !! "u-eve" = Some (payload resp)).
Proof.
  split.
  - apply (proj1 (C10_register_student_only castDecimal acceptAll status500 fakeHash
                    "u-eve" "otp-hash" registerAsTeacher emptyDB)).
    + reflexivity.
    + discriminate.
  - destruct (register castDecimal acceptAll status500 fakeHash "u-eve" "otp-hash"
                       registerPlain emptyDB) as [[resp|st msg] db'] eqn:E;
      [|vm_compute in E; discriminate E].
    destruct (proj2 (C10_register_student_only castDecimal acceptAll status500 fakeHash
                       "u-eve" "otp-hash" registerPlain emptyDB) resp db' E)
      as (_ & Hrole & Hver & ->).
    exists resp, (with_users (insert "u-eve" resp.(payload)) emptyDB).
    split; [reflexivity|]. split; [exact Hrole|]. split; [exact Hver|].
    cbn. apply lookup_insert_eq.
Defined.

(** The leave scenario of the specification: the member leaves and the
    group shrinks by one; the admin's leave is refused; after the admin
    hands the group over, the same leave goes through. *)
Lemma leave_scenario :
  Chat.users <$>
    db_chats (leaveGroup status500 dave "g-1" campusDB).2 !! "g-1" = Some ["u-alice"]
  ∧ leaveGroup status500 alice "g-1" campusDB
    = (Err 400 "Group admin cannot leave. Transfer ownership first or delete the group",
       campusDB)
  ∧ db_chats
      (runGroup castAnyCase acceptAll status500 pushAlwaysFails
         [ TransferOwnership alice "g-1" "u-dave"; LeaveGroup alice "g-1" ]
         campusDB) !! "g-1"
    = Some (Chat.mk "DSA study group" true ["u-dave"] (Some "u-dave") true None
                    (Some "ECE") (Some "2") (Some "3")).
Proof. repeat split; vm_compute; reflexivity. Qed.

(** Alice, admin of her group and not an app admin, may not remove
    herself under the id as it is stored; under the same id in upper
    case the removal goes through and the group is left with an admin
    who is not a member. *)
Lemma remove_scenario :
  removeFromGroup castAnyCase status500 alice "g-1" "u-alice" campusDB
  = (Err 403 "Cannot remove the group admin", campusDB)
  ∧ db_chats (removeFromGroup castAnyCase status500 alice "g-1" "U-ALICE" campusDB).2
      !! "g-1"
    = Some (Chat.mk "DSA study group" true ["u-dave"] (Some "u-alice") true None
                    (Some "ECE") (Some "2") (Some "3")).
Proof. split; vm_compute; reflexivity. Qed.

(** * The routers on explicit inputs *)

(** Alice uploads a note and asks for it, and for her older note, to be
    verified; Dave asks the same.  Both notes stay unverified. *)
Lemma X1_witness :
  ∃ n1 n2,
    let db' :=
      serveAll castDecimal acceptAll acceptAll acceptAll acceptAll status500
               parseAsIs noVideoInfo noYoutubeId portal
               [ (alice, NoteR (POST_notes "n-2" graphsInfo (Parsed (Some noteFile))));
                 (alice, NoteR (PUT_note_verify "n-2"));
                 (alice, NoteR (PUT_note_verify "n-1"));
                 (dave, NoteR (PUT_note_verify "n-1")) ]
               notesDB in
    db_notes db' !! "n-1" = Some n1 ∧ db_notes db' !! "n-2" = Some n2
    ∧ Note.isVerified n1 = false ∧ Note.isVerified n2 = false.
Proof.
  pose proof (X1_students_cannot_verify castDecimal acceptAll acceptAll acceptAll
                acceptAll status500 parseAsIs noVideoInfo noYoutubeId portal
                [ (alice, NoteR (POST_notes "n-2" graphsInfo (Parsed (Some noteFile))));
                  (alice, NoteR (PUT_note_verify "n-2"));
                  (alice, NoteR (PUT_note_verify "n-1"));
                  (dave, NoteR (PUT_note_verify "n-1")) ]
                notesDB) as H.
  destruct H as [H _]; [repeat constructor|].
  eexists. eexists. cbv zeta.
  split; [vm_compute; reflexivity|]. split; [vm_compute; reflexivity|].
  split.
  - destruct (Note.isVerified _) eqn:E; [|reflexivity].
    destruct (H "n-1" _ ltac:(vm_compute; reflexivity) E) as (n & Hn & Hv).
    vm_compute in Hn. injection Hn as <-. discriminate Hv.
  - destruct (Note.isVerified _) eqn:E; [|reflexivity].
    destruct (H "n-2" _ ltac:(vm_compute; reflexivity) E) as (n & Hn & Hv).
    vm_compute in Hn. discriminate Hn.
Defined.


(** Alice posts a question paper in a form that announces no solution:
    the PYQ is stored without one.  The same form with [hasSolution] set
    to ['true'] is refused at the second pass, the question file already
    written. *)
Lemma X3_witness :
  ∃ db' p,
    pyqRoutes castDecimal acceptAll status500 portal alice
              (POST_pyq "p-1" osPaper None
                        (Multipart (Parsed (Some questionFile))
                                   500 "Unexpected end of form"))
              emptyDB
    = (Ok 201%nat, db')
    ∧ db_pyqs db' !! "p-1" = Some p
    ∧ PYQ.hasSolution p = false ∧ PYQ.solutionFilePath p = None
    ∧ pyqRoutes castDecimal acceptAll status500 portal alice
                (POST_pyq "p-1" osPaper (Some "true")
                          (Multipart (Parsed (Some questionFile))
                                     500 "Unexpected end of form"))
                emptyDB
      = (Err 500 "Unexpected end of form",
         with_files (fun fs => fs ∪ {[ "uploads/pyqs/0a1b.pdf" ]}) emptyDB).
Proof.
  eexists. eexists.
  assert (pyqRoutes castDecimal acceptAll status500 portal alice
            (POST_pyq "p-1" osPaper None
                      (Multipart (Parsed (Some questionFile))
                                 500 "Unexpected end of form"))
            emptyDB
          = (Ok 201%nat, _)) as Hrun by (vm_compute; reflexivity).
  split; [exact Hrun|].
  destruct (X3_pyq_upload_never_stores_a_solution castDecimal acceptAll status500
              _ _ _ _ _ _ Hrun) as [Hpost _].
  destruct (Hpost _ _ _ _ eq_refl) as (_ & p & Hp & Hhas & _ & Hpath).
  vm_compute in Hp. injection Hp as <-.
  split; [vm_compute; reflexivity|]. split; [exact Hhas|]. split; [exact Hpath|].
  vm_compute. reflexivity.
Defined.

(** Bob then adds the solution: the PYQ records it, and the question
    paper is still in the upload directory. *)
Lemma X4_witness :
  ∃ db1 db2 p2,
    pyqRoutes castDecimal acceptAll status500 portal alice
              (POST_pyq "p-1" osPaper None
                        (Multipart (Parsed (Some questionFile))
                                   500 "Unexpected end of form"))
              emptyDB
    = (Ok 201%nat, db1)
    ∧ pyqRoutes castDecimal acceptAll status500 portal bob
                (PUT_pyq_solution "p-1" (Parsed (Some solutionFile))) db1
      = (Ok 200%nat, db2)
    ∧ db_pyqs db2 !! "p-1" = Some p2
    ∧ PYQ.hasSolution p2 = true
    ∧ PYQ.solutionFilePath p2 = Some "uploads/pyqs/2c3d.pdf"
    ∧ FileRef.filePath (PYQ.file p2) = "uploads/pyqs/0a1b.pdf"
    ∧ "uploads/pyqs/0a1b.pdf" ∈ db_files db2
    ∧ "uploads/pyqs/2c3d.pdf" ∈ db_files db2.
Proof.
  eexists. eexists.
  assert (pyqRoutes castDecimal acceptAll status500 portal alice
            (POST_pyq "p-1" osPaper None
                      (Multipart (Parsed (Some questionFile))
                                 500 "Unexpected end of form"))
            emptyDB
          = (Ok 201%nat, _)) as H1 by (vm_compute; reflexivity).
  match type of H1 with _ = (_, ?db1) =>
    assert (pyqRoutes castDecimal acceptAll status500 portal bob
              (PUT_pyq_solution "p-1" (Parsed (Some solutionFile))) db1
            = (Ok 200%nat, _)) as H2 by (vm_compute; reflexivity);
    assert (∃ p1, db_pyqs db1 !! "p-1" = Some p1
                  ∧ FileRef.filePath (PYQ.file p1) = "uploads/pyqs/0a1b.pdf"
                  ∧ PYQ.hasSolution p1 = false
                  ∧ PYQ.solutionFilePath p1 = None)
      as (p1 & Hp1 & Hpath1 & Hhas1 & Hsol1)
      by (eexists; repeat split; vm_compute; reflexivity);
    assert ("uploads/pyqs/0a1b.pdf" ∈ db_files db1) as Hin1
      by (vm_compute; set_solver)
  end.
  destruct (X4_add_solution_replaces_solution_file castDecimal acceptAll status500
              _ _ _ _ _ _ _ _ Hp1 H2)
    as (f & Hf & _ & _ & Hpyqs & Hkept & Hnew).
  injection Hf as <-.
  eexists. split; [exact H1|]. split; [exact H2|].
  split; [rewrite Hpyqs; apply lookup_insert_eq|].
  split; [reflexivity|]. split; [reflexivity|]. split; [exact Hpath1|].
  split.
  - apply Hkept; [exact Hin1|]. rewrite Hsol1. discriminate.
  - apply Hnew. exact Hhas1.
Defined.

(** * Chats and messages on explicit inputs *)

(** Bob joins Alice's public group and leaves it again. *)
Lemma X5_witness :
  ∃ r1 db1 r2 db2,
    joinGroup status500 pushAlwaysFails bob "g-1" campusDB = (Ok r1, db1)
    ∧ Chat.users (payload r1) = ["u-dave"; "u-alice"; "u-bob"]
    ∧ leaveGroup status500 bob "g-1" db1 = (Ok r2, db2)
    ∧ db_chats db2 = db_chats campusDB.
Proof.
  eexists _, _, _, _.
  assert (joinGroup status500 pushAlwaysFails bob "g-1" campusDB = (Ok _, _)) as H1
    by (vm_compute; reflexivity).
  match type of H1 with _ = (_, ?db1) =>
    assert (leaveGroup status500 bob "g-1" db1 = (Ok _, _)) as H2
      by (vm_compute; reflexivity)
  end.
  split; [exact H1|]. split; [reflexivity|]. split; [exact H2|].
  exact (X5_join_then_leave status500 pushAlwaysFails _ _ _ _ _ _ _ H1 H2).
Defined.

(** Alice opens her chat with Dave: her two unread messages are gone
    from her count, and Dave's count is what it was. *)
Lemma X6_witness :
  ∃ r db',
    getMessages status500 alice "c-1" None None chatDB = (Ok r, db')
    ∧ (getUnreadCount dave db').1 = (getUnreadCount dave chatDB).1
    ∧ (getUnreadCount alice chatDB).1
      = Ok (Respond 200 (Unread.mk 2 {[ "c-1" := 2%nat ]}))
    ∧ (getUnreadCount alice db').1 = Ok (Respond 200 (Unread.mk 0 ∅)).
Proof.
  eexists _, _.
  assert (getMessages status500 alice "c-1" None None chatDB = (Ok _, _)) as H
    by (vm_compute; reflexivity).
  split; [exact H|].
  destruct (X6_reading_is_private status500 _ _ _ _ _ _ _ H) as [Hother _].
  split; [apply Hother; discriminate|].
  split; vm_compute; reflexivity.
Defined.

(** Dave deletes his message with the slides: the message stays, as a
    placeholder, and the file is unlinked. *)
Lemma X7_witness :
  ∃ r db',
    deleteMessage dave "m-2" slidesDB = (Ok r, db')
    ∧ db_messages db'
      = [ Message.mk "m-1" "u-dave" "hi" "c-1" ["u-dave"] [] false;
          Message.mk "m-2" "u-dave" "[Attachments removed]" "c-1" ["u-dave"] [] true ]
    ∧ "uploads/misc/9e8d.pdf" ∉ db_files db'.
Proof.
  eexists _, _.
  assert (deleteMessage dave "m-2" slidesDB = (Ok _, _)) as H
    by (vm_compute; reflexivity).
  split; [exact H|]. split; [reflexivity|].
  destruct (X7_delete_message_is_soft _ _ _ _ _ H) as (_ & _ & Hfiles).
  apply (Hfiles (Message.mk "m-2" "u-dave" "the slides" "c-1" ["u-dave"]
                   [ Attachment.mk "https://portal.college.edu/uploads/misc/9e8d.pdf"
                                   "uploads/misc/9e8d.pdf" "slides.pdf" ] false)
                (Attachment.mk "https://portal.college.edu/uploads/misc/9e8d.pdf"
                               "uploads/misc/9e8d.pdf" "slides.pdf")).
  - reflexivity.
  - apply list_elem_of_singleton. reflexivity.
Defined.

(** Alice opens a chat with Bob twice: one chat is stored. *)
Lemma X8_witness :
  ∃ r db1 r',
    accessChat acceptAll status500 "c-2" alice (Some "u-bob") chatDB = (Ok r, db1)
    ∧ accessChat acceptAll status500 "c-3" alice (Some "u-bob") db1 = (Ok r', db1)
    ∧ Chat.users (payload r') = ["u-alice"; "u-bob"]
    ∧ db_chats db1 !! "c-3" = None.
Proof.
  eexists _, _.
  assert (accessChat acceptAll status500 "c-2" alice (Some "u-bob") chatDB = (Ok _, _))
    as H by (vm_compute; reflexivity).
  destruct (X8_access_chat_idempotent acceptAll status500 "c-2" "c-3" _ _ _ _ _ H)
    as (_ & r' & Hr' & _).
  exists r'. split; [exact H|]. split; [exact Hr'|].
  split; [|vm_compute; reflexivity].
  vm_compute in Hr'. injection Hr' as <-. reflexivity.
Defined.

(** Dave writes to Alice: Alice has one more unread message, Dave has
    none. *)
Lemma X9_witness :
  ∃ r db',
    sendMessage status500 pushAlwaysFails "m-5" dave (Some "c-1") (Some " see you ") []
                chatDB
    = (Ok r, db')
    ∧ Message.content (payload r) = "see you"
    ∧ (getUnreadCount alice db').1
      = Ok (Respond 200 (Unread.mk 3 {[ "c-1" := 3%nat ]}))
    ∧ (getUnreadCount dave db').1 = (getUnreadCount dave chatDB).1.
Proof.
  eexists _, _.
  assert (sendMessage status500 pushAlwaysFails "m-5" dave (Some "c-1")
            (Some " see you ") [] chatDB = (Ok _, _)) as H
    by (vm_compute; reflexivity).
  split; [exact H|]. split; [reflexivity|]. split; [vm_compute; reflexivity|].
  destruct (X9_sent_message_is_unread status500 pushAlwaysFails _ _ _ _ _ _ _ _ dave H)
    as (chat & u & u' & Hchat & Hu & Hu' & Hcase).
  vm_compute in Hchat. injection Hchat as <-.
  rewrite Hu, Hu'. cbn in Hcase. rewrite Hcase. reflexivity.
Defined.

(** * Users on explicit inputs *)

(** The teacher is deleted and the admin remains; the admin, being the
    last one, is not deleted. *)
Lemma X10_witness :
  keyedById staffDB
  ∧ (∃ r db', deleteUser "u-bob" staffDB = (Ok r, db')
              ∧ db_users db' = delete "u-bob" (db_users staffDB)
              ∧ (1 <= adminCount db')%nat)
  ∧ deleteUser "u-root" staffDB
    = (Err 400 "Cannot delete the last admin user", staffDB).
Proof.
  assert (keyedById staffDB) as Hkey.
  { intros k u H. apply elem_of_map_to_list in H. vm_compute in H.
    repeat (apply elem_of_cons in H; destruct H as [[= -> ->]|H]; [reflexivity|]).
    inversion H. }
  split; [exact Hkey|]. split; [|vm_compute; reflexivity].
  pose proof (X10_delete_user_keeps_an_admin "u-bob" staffDB Hkey) as H.
  assert (deleteUser "u-bob" staffDB = (Ok _, _)) as E by (vm_compute; reflexivity).
  rewrite E in H. destruct H as [H1 H2].
  eexists _, _. split; [exact E|]. split; [exact H1|].
  apply H2. vm_compute. repeat constructor.
Defined.

(** The admin creates a teacher. *)
Lemma X11_witness :
  ∃ r db',
    createUser acceptAll status500 fakeHash "u-carol" newTeacher staffDB = (Ok r, db')
    ∧ User.role (payload r) = teacher
    ∧ User.isVerified (payload r) = true
    ∧ User.password (payload r) = "$2a$10$secret6".
Proof.
  eexists _, _.
  assert (createUser acceptAll status500 fakeHash "u-carol" newTeacher staffDB
          = (Ok _, _)) as H by (vm_compute; reflexivity).
  split; [exact H|]. split; [reflexivity|].
  destruct (X11_create_user_makes_verified_staff acceptAll status500 fakeHash
              _ _ _ _ _ H) as (_ & _ & _ & Hver & (pw & Hpw & Hhash) & _).
  split; [exact Hver|]. injection Hpw as <-. exact Hhash.
Defined.

(** Carl, with no query, is not shown the compilers notes, nor is
    Alice. *)
Lemma X13_witness :
  selects (getNotes carl noQuery) cseNotes = false
  ∧ selects (getNotes alice noQuery) cseNotes = false.
Proof.
  split.
  - apply (X13_cs_hidden_by_default carl noQuery "Computer Science" cseNotes);
      try reflexivity.
    + apply list_elem_of_here.
    + apply list_elem_of_here.
    + left. reflexivity.
  - apply (X13_cs_hidden_by_default alice noQuery "ECE" cseNotes); try reflexivity.
    + apply list_elem_of_further, list_elem_of_here.
    + apply list_elem_of_here.
    + right. reflexivity.
Defined.


(** * Ratings and likes on explicit inputs *)


(** Dave likes the lecture.  Alice likes it, Dave takes their like back,
    Bob likes it and Dave likes it again: three likes, by three users. *)
Lemma X15_witness :
  ∃ v,
    db_videos (serveAll castDecimal acceptAll acceptAll acceptAll acceptAll status500
                 parseAsIs noVideoInfo noYoutubeId portal
                 [ (alice, VideoR (PUT_video_like "v-1"));
                   (dave, VideoR (PUT_video_like "v-1"));
                   (bob, VideoR (PUT_video_like "v-1"));
                   (dave, VideoR (PUT_video_like "v-1")) ]
                 lectureDB) !! "v-1" = Some v
    ∧ Video.usersLiked v = ["u-alice"; "u-bob"; "u-dave"]
    ∧ Video.likes v = Z.of_nat (length (Video.usersLiked v))
    ∧ NoDup (Video.usersLiked v).
Proof.
  assert (∀ id v, db_videos lectureDB !! id = Some v → likesOk v) as Hdb.
  { intros id v Hv. apply elem_of_map_to_list in Hv. vm_compute in Hv.
    apply list_elem_of_singleton in Hv. injection Hv as _ ->.
    split; [reflexivity|]. apply NoDup_singleton. }
  eexists.
  match goal with |- ?l = _ ∧ _ =>
    assert (l = Some _) as Hv by (vm_compute; reflexivity)
  end.
  split; [exact Hv|]. split; [reflexivity|].
  exact (X15_likes_count_users castDecimal acceptAll acceptAll acceptAll
           acceptAll status500 parseAsIs noVideoInfo noYoutubeId portal
           _ lectureDB Hdb "v-1" _ Hv).
Defined.


(** * The topic filter and the assistant *)

Lemma prefix_app (sub s : string) :
  String.prefix sub s = true ↔ ∃ q, s = (sub ++ q)%string.
Proof.
  revert s. induction sub as [|c sub IH]; intros s.
  - cbn. split; [intros _; exists s; reflexivity|intros _; destruct s; reflexivity].
  - destruct s as [|d s]; cbn.
    + split; [discriminate|intros [q Hq]; discriminate].
    + destruct (Ascii.ascii_dec c d) as [->|Hne].
      * rewrite IH. split; intros [q Hq]; exists q; [rewrite Hq; reflexivity|].
        injection Hq as ->. reflexivity.
      * split; [discriminate|]. intros [q Hq]. injection Hq as -> _. contradiction.
Qed.

Lemma strIncludes_app (s sub : string) :
  strIncludes s sub = true ↔ ∃ p q, s = (p ++ sub ++ q)%string.
Proof.
  induction s as [|c s IH].
  - cbn [strIncludes]. rewrite orb_false_r, prefix_app. split.
    + intros [q Hq]. exists ""%string, q. exact Hq.
    + intros (p & q & H). destruct p; [exists q; exact H|discriminate].
  - cbn [strIncludes]. rewrite orb_true_iff, prefix_app, IH. split.
    + intros [[q Hq]|(p & q & H)].
      * exists ""%string, q. exact Hq.
      * exists (String c p), q. rewrite H. reflexivity.
    + intros (p & q & H). destruct p as [|d p].
      * left. exists q. exact H.
      * right. injection H as -> ->. exists p, q. reflexivity.
Qed.

Lemma string_app_assoc (a b c : string) : ((a ++ b) ++ c = a ++ b ++ c)%string.
Proof.
  induction a as [|x a IH]; [reflexivity|].
  change (String x ((a ++ b) ++ c) = String x (a ++ b ++ c))%string. f_equal. exact IH.
Qed.

Lemma strIncludes_trans (s a b : string) :
  strIncludes s a = true → strIncludes a b = true → strIncludes s b = true.
Proof.
  rewrite !strIncludes_app. intros (p & q & ->) (p' & q' & ->).
  exists (p ++ p')%string, (q' ++ q)%string. rewrite !string_app_assoc. reflexivity.
Qed.

Lemma strIncludes_app_l (a b sub : string) :
  strIncludes a sub = true → strIncludes (a ++ b) sub = true.
Proof.
  rewrite !strIncludes_app. intros (p & q & ->). exists p, (q ++ b)%string.
  rewrite !string_app_assoc. reflexivity.
Qed.

Lemma strIncludes_app_r (a b sub : string) :
  strIncludes b sub = true → strIncludes (a ++ b) sub = true.
Proof.
  rewrite !strIncludes_app. intros (p & q & ->). exists (a ++ p)%string, q.
  rewrite !string_app_assoc. reflexivity.
Qed.

Lemma toLowerCase_app (a b : string) :
  toLowerCase (a ++ b) = (toLowerCase a ++ toLowerCase b)%string.
Proof.
  induction a as [|c a IH]; [reflexivity|].
  change (String (lowerChar c) (toLowerCase (a ++ b))
          = String (lowerChar c) (toLowerCase a ++ toLowerCase b))%string.
  f_equal. exact IH.
Qed.

Lemma isAcademicQuery_keyword (query keyword : string) :
  keyword ∈ academicKeywords →
  strIncludes (toLowerCase query) keyword = true → isAcademicQuery query = true.
Proof.
  intros Hk Hin. unfold isAcademicQuery. apply existsb_exists.
  exists keyword. split; [apply list_elem_of_In; exact Hk|exact Hin].
Qed.

(** X16. Every query to which [getQueryContext] gives a context of its
    own passes the topic filter: if the context is not 'general', it is
    'syllabus', 'notes' or 'pyq' and [isAcademicQuery] holds of the
    query, so [getCompletion] does not refuse it. *)
Theorem X16_context_implies_academic (textGeneration : string → option string)
    (query context contextType : string) :
  getQueryContext query ≠ "general" →
  getQueryContext query ∈ ["syllabus"; "notes"; "pyq"]
  ∧ isAcademicQuery query = true
  ∧ getCompletion textGeneration query context contextType
    = default "Sorry, I am currently unable to process your request. Please try again later."
              (trim <$> textGeneration
                          (generateContextAwarePrompt query context contextType)).
Proof.
  intros Hctx.
  assert (getQueryContext query ∈ ["syllabus"; "notes"; "pyq"]
          ∧ isAcademicQuery query = true) as [Hin Hac].
  { unfold getQueryContext in *.
    destruct (strIncludes (toLowerCase query) "syllabus") eqn:E1.
    { split; [set_solver|]. eapply isAcademicQuery_keyword; [|exact E1]. set_solver. }
    destruct (strIncludes (toLowerCase query) "notes") eqn:E2.
    { split; [set_solver|]. eapply isAcademicQuery_keyword; [|exact E2]. set_solver. }
    destruct (strIncludes (toLowerCase query) "pyq") eqn:E3.
    { split; [set_solver|]. eapply isAcademicQuery_keyword; [|exact E3]. set_solver. }
    destruct (strIncludes (toLowerCase query) "previous year") eqn:E4;
      [|cbn in Hctx; congruence].
    split; [set_solver|].
    apply (isAcademicQuery_keyword query "year"); [set_solver|].
    eapply strIncludes_trans; [exact E4|reflexivity]. }
  split; [exact Hin|]. split; [exact Hac|].
  unfold getCompletion. rewrite Hac. cbn [negb firstResponse].
  unfold tryHuggingFace. destruct (textGeneration _); reflexivity.
Qed.

(** X17. The assistant never turns its own prompts down.  Whatever the
    syllabus text, or the branch, year and semester, [analyzeSyllabus]
    and [getStudyRecommendations] send their prompt to the model and
    answer with its trimmed text, or with the 'currently unable' apology
    when the call fails; [clearDoubt] refuses exactly the questions that
    are not academic, with its own text, and otherwise does the same. *)
Theorem X17_assistant_prompts_pass_the_filter (textGeneration : string → option string) :
  (∀ syllabusText,
     analyzeSyllabus textGeneration syllabusText
     = default "Sorry, I am currently unable to process your request. Please try again later."
         (trim <$> textGeneration
            (generateContextAwarePrompt (analyzeSyllabusPrompt syllabusText) "" "syllabus")))
  ∧ (∀ branch year semester,
       getStudyRecommendations textGeneration branch year semester
       = default "Sorry, I am currently unable to process your request. Please try again later."
           (trim <$> textGeneration
              (generateContextAwarePrompt
                 (studyRecommendationsPrompt branch year semester) "" "general")))
  ∧ (∀ question contentText contentType,
       clearDoubt textGeneration question contentText contentType
       = if isAcademicQuery question
         then default
                "Sorry, I am currently unable to process your request. Please try again later."
                (trim <$> textGeneration
                   (generateContextAwarePrompt question contentText contentType))
         else "Sorry, I can only help with academic-related doubts.").
Proof.
  assert (∀ query context contextType,
            isAcademicQuery query = true →
            getCompletion textGeneration query context contextType
            = default
                "Sorry, I am currently unable to process your request. Please try again later."
                (trim <$> textGeneration
                   (generateContextAwarePrompt query context contextType))) as Hget.
  { intros query context contextType Hac. unfold getCompletion.
    rewrite Hac. cbn [negb firstResponse]. unfold tryHuggingFace.
    destruct (textGeneration _); reflexivity. }
  split; [|split].
  - intros syllabusText. apply Hget.
    apply (isAcademicQuery_keyword _ "syllabus"); [set_solver|].
    unfold analyzeSyllabusPrompt. rewrite toLowerCase_app.
    apply strIncludes_app_l. reflexivity.
  - intros branch year semester. apply Hget.
    apply (isAcademicQuery_keyword _ "study"); [set_solver|].
    unfold studyRecommendationsPrompt. rewrite toLowerCase_app.
    apply strIncludes_app_l. reflexivity.
  - intros question contentText contentType. unfold clearDoubt.
    destruct (isAcademicQuery question) eqn:Hac; cbn [negb]; [|reflexivity].
    apply Hget. exact Hac.
Qed.

(** A question about earlier papers is answered by the model; small
    talk has the context 'general' and is turned down. *)
Lemma X16_witness :
  getQueryContext "Any PREVIOUS YEAR papers for DSA?" = "pyq"
  ∧ isAcademicQuery "Any PREVIOUS YEAR papers for DSA?" = true
  ∧ getCompletion (fun _ => Some " Try the 2023 end-term. ")
                  "Any PREVIOUS YEAR papers for DSA?" "" "general"
    = "Try the 2023 end-term."
  ∧ getQueryContext "How is the weather?" = "general"
  ∧ getCompletion (fun _ => Some " Sunny. ") "How is the weather?" "" "general"
    = "Sorry, I can only assist with syllabus, notes, or previous year questions.".
Proof.
  destruct (X16_context_implies_academic (fun _ => Some " Try the 2023 end-term. ")
              "Any PREVIOUS YEAR papers for DSA?" "" "general") as (_ & Hac & Hget).
  - vm_compute. discriminate.
  - split; [reflexivity|]. split; [exact Hac|]. split; [rewrite Hget; reflexivity|].
    split; reflexivity.
Defined.

(** * Chats on explicit inputs *)

(** Bob tries to join the chat of Alice and Dave, the app admin tries to
    add Bob and to remove Dave, Alice tries to hand it over and to
    leave: the chat is what it was. *)
Lemma X18_witness :
  db_chats (runGroup castAnyCase acceptAll status500 pushAlwaysFails
              [ JoinGroup bob "c-1";
                AddToGroup root "c-1" (Some ["u-bob"]);
                RemoveFromGroup root "c-1" "u-dave";
                TransferOwnership alice "c-1" "u-dave";
                LeaveGroup alice "c-1";
                CreateGroup "g-1" alice studyGroup ]
              chatDB) !! "c-1"
  = Some pairChat.
Proof.
  apply (X18_one_to_one_chat_is_closed castAnyCase acceptAll status500 pushAlwaysFails);
    try reflexivity.
  intros user body Hin. repeat (apply elem_of_cons in Hin as [Hin|Hin]; [discriminate|]).
  apply elem_of_nil in Hin. exact Hin.
Defined.

(** Dave cannot join Alice's seminar; Alice adds him. *)
Lemma X19_witness :
  db_chats (handleGroup castAnyCase acceptAll status500 pushAlwaysFails
              (JoinGroup dave "g-2") seminarDB).2 = db_chats seminarDB
  ∧ ∃ c', db_chats (handleGroup castAnyCase acceptAll status500 pushAlwaysFails
                      (AddToGroup alice "g-2" (Some ["u-dave"])) seminarDB).2 !! "g-2"
          = Some c'
          ∧ Chat.users c' = ["u-alice"; "u-dave"]
          ∧ ∃ actor us,
              AddToGroup alice "g-2" (Some ["u-dave"]) = AddToGroup actor "g-2" (Some us)
              ∧ "u-dave" ∈ us
              ∧ (Chat.groupAdmin seminar = Some (User._id actor)
                 ∨ User.role actor = admin).
Proof.
  split; [reflexivity|]. eexists. split; [vm_compute; reflexivity|].
  split; [reflexivity|].
  eapply (X19_private_group_by_invitation castAnyCase acceptAll status500 pushAlwaysFails
            (AddToGroup alice "g-2" (Some ["u-dave"])) seminarDB "g-2" seminar _
            "u-dave").
  - vm_compute. reflexivity.
  - reflexivity.
  - discriminate.
  - vm_compute. reflexivity.
  - cbn. apply list_elem_of_further, list_elem_of_here.
  - cbn. intros H. apply list_elem_of_singleton in H. discriminate.
Defined.


(** * Pagination *)

Lemma ceilDiv_bounds (a b : Z) :
  0 < b → ∃ n, ceilDiv a b = QInt n ∧ (n - 1) * b < a ∧ a <= n * b.
Proof.
  intros Hb. unfold ceilDiv. rewrite (proj2 (Z.eqb_neq b 0)) by lia.
  exists (- (- a / b)). split; [reflexivity|].
  pose proof (Z.mul_div_le (- a) b Hb).
  pose proof (Z.mul_succ_div_gt (- a) b Hb). nia.
Qed.

Lemma parseInt10Or_nonzero (x : option string) (d : Z) : d ≠ 0 → parseInt10Or x d ≠ 0.
Proof.
  intros Hd. unfold parseInt10Or. destruct (parseInt10 <$> x) as [[|z]|]; try exact Hd.
  destruct (z =? 0) eqn:E; [exact Hd|]. apply Z.eqb_neq. exact E.
Qed.

(** X20. [formatPagination] offers a next page exactly when items
    remain.  For a non-negative total and a positive limit, [totalPages]
    is the least integer [n] with [total <= n * limit], [hasNextPage]
    holds and [nextPage] is a link exactly when [page * limit < total],
    and [hasPrevPage] holds and [prevPage] is a link exactly when
    [1 < page]. *)
Theorem X20_next_page_iff_items_remain (total page limit : Z) (baseUrl : string)
    (query : list (string * string)) :
  0 <= total → 0 < limit →
  ∃ n, Pagination.totalPages (formatPagination total page limit baseUrl query) = QInt n
       ∧ (n - 1) * limit < total ∧ total <= n * limit
       ∧ (Pagination.hasNextPage (formatPagination total page limit baseUrl query) = true
          ↔ page * limit < total)
       ∧ (is_Some (Pagination.nextPage (formatPagination total page limit baseUrl query))
          ↔ page * limit < total)
       ∧ (Pagination.hasPrevPage (formatPagination total page limit baseUrl query) = true
          ↔ 1 < page)
       ∧ (is_Some (Pagination.prevPage (formatPagination total page limit baseUrl query))
          ↔ 1 < page).
Proof.
  intros Htotal Hlimit.
  destruct (ceilDiv_bounds total limit Hlimit) as (n & Hn & Hlo & Hhi).
  exists n. unfold formatPagination. cbn [Pagination.totalPages Pagination.hasNextPage
    Pagination.nextPage Pagination.hasPrevPage Pagination.prevPage].
  rewrite Hn. cbn [ltQuotient].
  assert (page <? n = true ↔ page * limit < total) as Hnext.
  { rewrite Z.ltb_lt. split; intros H; nia. }
  split; [reflexivity|]. split; [exact Hlo|]. split; [exact Hhi|].
  split; [exact Hnext|]. split.
  - rewrite <- Hnext. destruct (page <? n); split; intros H;
      try reflexivity; try discriminate; [eexists; reflexivity|destruct H; discriminate].
  - split; [apply Z.ltb_lt|].
    rewrite <- (Z.ltb_lt 1 page). destruct (1 <? page); split; intros H;
      try reflexivity; try discriminate; [eexists; reflexivity|destruct H; discriminate].
Qed.

(** X21. The pagination of a listing never divides by zero.  Whatever
    [page] and [limit] the query string carries, [advancedFilter] yields
    a page and a limit other than 0 (1 and 25 when the value is
    absent) and [skip = (page - 1) * limit], so the
    [totalPages] that [formatPagination] computes from them is an
    integer; with a negative limit no next page is offered from page 1
    on. *)
Theorem X21_listing_pagination_is_finite (page limit : option string) (total : Z)
    (baseUrl : string) (query : list (string * string)) :
  Page.page (advancedFilter_pagination page limit) ≠ 0
  ∧ Page.limit (advancedFilter_pagination page limit) ≠ 0
  ∧ Page.skip (advancedFilter_pagination page limit)
    = (Page.page (advancedFilter_pagination page limit) - 1)
      * Page.limit (advancedFilter_pagination page limit)
  ∧ (page = None → Page.page (advancedFilter_pagination page limit) = 1)
  ∧ (limit = None → Page.limit (advancedFilter_pagination page limit) = 25)
  ∧ (∃ n, Pagination.totalPages
            (formatPagination total (Page.page (advancedFilter_pagination page limit))
                              (Page.limit (advancedFilter_pagination page limit))
                              baseUrl query) = QInt n)
  ∧ (0 <= total → Page.limit (advancedFilter_pagination page limit) < 0 →
     1 <= Page.page (advancedFilter_pagination page limit) →
     Pagination.hasNextPage
       (formatPagination total (Page.page (advancedFilter_pagination page limit))
                         (Page.limit (advancedFilter_pagination page limit))
                         baseUrl query) = false).
Proof.
  unfold advancedFilter_pagination. cbn [Page.page Page.limit Page.skip].
  pose proof (parseInt10Or_nonzero page 1 ltac:(lia)) as Hp.
  pose proof (parseInt10Or_nonzero limit 25 ltac:(lia)) as Hl.
  split; [exact Hp|]. split; [exact Hl|]. split; [reflexivity|].
  split; [intros ->; reflexivity|]. split; [intros ->; reflexivity|].
  unfold formatPagination. cbn [Pagination.totalPages Pagination.hasNextPage].
  unfold ceilDiv. rewrite (proj2 (Z.eqb_neq _ 0) Hl). split; [eexists; reflexivity|].
  intros Htotal Hneg Hpage. cbn [ltQuotient]. apply Z.ltb_ge.
  set (l := parseInt10Or limit 25) in *.
  assert (0 <= - total / l).
  { rewrite <- Z.div_opp_opp by lia. apply Z.div_pos; lia. }
  lia.
Qed.

(** Twelve items, five a page: three pages, and page 2 has a next and a
    previous page, whose links keep the other keys of the query. *)
Lemma X20_witness :
  formatPagination 12 2 5 "https://portal.college.edu/api/videos"
                   [("page", "2"); ("branch", "ECE"); ("limit", "5")]
  = Pagination.mk 12 2 5 (QInt 3) true true
      (Some "https://portal.college.edu/api/videos?page=3&limit=5&branch=ECE")
      (Some "https://portal.college.edu/api/videos?page=1&limit=5&branch=ECE")
  ∧ ∃ n, Pagination.totalPages
           (formatPagination 12 3 5 "https://portal.college.edu/api/videos" []) = QInt n
         ∧ (n - 1) * 5 < 12 ∧ 12 <= n * 5
         ∧ Pagination.hasNextPage
             (formatPagination 12 3 5 "https://portal.college.edu/api/videos" []) = false.
Proof.
  split; [vm_compute; reflexivity|].
  destruct (X20_next_page_iff_items_remain 12 3 5 "https://portal.college.edu/api/videos" [])
    as (n & Hn & Hlo & Hhi & Hnext & _); [lia|lia|].
  exists n. split; [exact Hn|]. split; [exact Hlo|]. split; [exact Hhi|].
  destruct (Pagination.hasNextPage _); [|reflexivity].
  pose proof (proj1 Hnext eq_refl). lia.
Defined.

(** * The upload middleware *)

(** X22. The size limit of an upload does not follow its directory.
    [getSizeLimit] looks for '/videos' first, [destination] and
    [fileFilter] look for '/notes' and '/syllabus' first.  So a URL that
    contains '/videos' and also '/notes' or '/syllabus' (in its query
    string, say) stores a document in the notes or syllabus directory,
    no video type being allowed, with the 200 MB limit of videos; for
    every other URL the limit is that of the directory: 200 MB for
    videos, 20 MB for notes, syllabus and pyqs, 5 MB for misc. *)
Theorem X22_size_limit_ignores_directory (originalUrl : string) :
  (strIncludes originalUrl "/videos" = true →
   strIncludes originalUrl "/notes" = true ∨ strIncludes originalUrl "/syllabus" = true →
   getSizeLimit originalUrl = 200 * 1024 * 1024
   ∧ destination originalUrl ∈ ["uploads/notes/"; "uploads/syllabus/"]
   ∧ ".pdf" ∈ allowedTypes originalUrl
   ∧ ∀ ext, ext ∈ [".mp4"; ".mov"; ".avi"; ".wmv"] → ext ∉ allowedTypes originalUrl)
  ∧ (¬ (strIncludes originalUrl "/videos" = true
        ∧ (strIncludes originalUrl "/notes" = true
           ∨ strIncludes originalUrl "/syllabus" = true)) →
     getSizeLimit originalUrl
     = if String.eqb (destination originalUrl) "uploads/videos/" then 200 * 1024 * 1024
       else if String.eqb (destination originalUrl) "uploads/misc/" then 5 * 1024 * 1024
       else 20 * 1024 * 1024).
Proof.
  unfold getSizeLimit, destination, allowedTypes.
  destruct (strIncludes originalUrl "/videos"), (strIncludes originalUrl "/notes"),
    (strIncludes originalUrl "/syllabus"), (strIncludes originalUrl "/pyq");
    (split; [intros Hv [H|H]; try discriminate Hv; try discriminate H;
             (split; [reflexivity|]); (split; [set_solver|]); (split; [set_solver|]);
             intros ext Hext Hin;
             repeat (apply elem_of_cons in Hext as [->|Hext];
                     [repeat (apply elem_of_cons in Hin as [Hin|Hin]; [discriminate|]);
                      apply elem_of_nil in Hin; exact Hin|]);
             apply elem_of_nil in Hext; exact Hext
           | intros Hnot; try reflexivity; exfalso; apply Hnot; tauto ]).
Qed.

(** A note posted to [/api/notes?from=/videos]. *)
Lemma X22_witness :
  getSizeLimit "/api/notes?from=/videos" = 209715200
  ∧ destination "/api/notes?from=/videos" = "uploads/notes/"
  ∧ getSizeLimit "/api/notes" = 20971520.
Proof.
  destruct (X22_size_limit_ignores_directory "/api/notes?from=/videos") as [H _].
  destruct H as (Hlimit & _); [reflexivity|left; reflexivity|].
  split; [exact Hlimit|]. split; reflexivity.
Defined.

(** * Files and likes on explicit inputs *)

(** Bob replaces the file of his lecture and then deletes the lecture:
    the video is gone, its first file is still there. *)
Lemma X23_witness :
  db_videos (serveAll castDecimal acceptAll acceptAll acceptAll acceptAll status500
               parseAsIs noVideoInfo noYoutubeId portal
               ((fun ur => (ur.1, VideoR ur.2))
                  <$> [ (bob, PUT_video "v-1" sortingForm (Parsed (Some sortingFile)));
                        (bob, DELETE_video "v-1") ])
               uploadedDB) !! "v-1" = None
  ∧ "uploads/videos/5b6c.mp4"
    ∈ db_files (serveAll castDecimal acceptAll acceptAll acceptAll acceptAll status500
                  parseAsIs noVideoInfo noYoutubeId portal
                  ((fun ur => (ur.1, VideoR ur.2))
                     <$> [ (bob, PUT_video "v-1" sortingForm (Parsed (Some sortingFile)));
                           (bob, DELETE_video "v-1") ])
                  uploadedDB).
Proof.
  split; [vm_compute; reflexivity|].
  apply (X23_video_files_are_never_unlinked castDecimal acceptAll acceptAll acceptAll
           acceptAll status500 parseAsIs noVideoInfo noYoutubeId portal
           [ (bob, PUT_video "v-1" sortingForm (Parsed (Some sortingFile)));
             (bob, DELETE_video "v-1") ]
           uploadedDB "uploads/videos/5b6c.mp4").
  cbn. apply elem_of_singleton. reflexivity.
Defined.

(** Alice posts a note with a file and no title: the request fails
    and the file stays. *)
Lemma X24_witness :
  ∃ st msg db',
    contentRoutes castDecimal acceptAll acceptAll acceptAll acceptAll status500
                  parseAsIs noVideoInfo noYoutubeId portal alice
                  (NoteR (POST_notes "n-2" noInfo (Parsed (Some noteFile)))) notesDB
    = (Err st msg, db')
    ∧ "uploads/notes/7f3e.pdf" ∈ db_files db'
    ∧ db_notes db' = db_notes notesDB.
Proof.
  eexists _, _, _.
  assert (contentRoutes castDecimal acceptAll acceptAll acceptAll acceptAll status500
            parseAsIs noVideoInfo noYoutubeId portal alice
            (NoteR (POST_notes "n-2" noInfo (Parsed (Some noteFile)))) notesDB
          = (Err _ _, _)) as H by (vm_compute; reflexivity).
  split; [exact H|].
  destruct (X24_rejected_upload_leaves_file castDecimal acceptAll acceptAll acceptAll
              acceptAll status500 parseAsIs noVideoInfo noYoutubeId portal alice _
              noteFile _ _ _ _ eq_refl
              (or_introl (ex_intro _ "n-2" (ex_intro _ noInfo eq_refl))) H)
    as (Hfile & Hnotes & _).
  split; [exact Hfile|exact Hnotes].
Defined.

(** Alice likes the lecture that Dave likes, and takes her like back. *)
Lemma X25_witness :
  ∃ db1,
    likeVideo noYoutubeId alice "v-1" lectureDB = (Ok (Respond 200 (2, true)), db1)
    ∧ likeVideo noYoutubeId alice "v-1" db1 = (Ok (Respond 200 (1, false)), lectureDB).
Proof.
  destruct (X25_like_twice_is_undone noYoutubeId alice "v-1" lectureDB lectureVideo)
    as (db1 & H1 & H2).
  - reflexivity.
  - cbn. intros H. apply list_elem_of_singleton in H. discriminate.
  - cbn. lia.
  - exists db1. split; [exact H1|]. rewrite H2. reflexivity.
Defined.


(** The only admin is made a teacher: no admin is left, and the admin
    router is closed to the former admin too. *)
Lemma X27_witness :
  ∃ r db',
    updateUser castDecimal status500 fakeHash acceptAll "u-root" makeTeacher staffDB
    = (Ok r, db')
    ∧ adminCount staffDB = 1%nat
    ∧ adminCount db' = 0%nat
    ∧ db_users db' !! "u-root" = Some (payload r)
    ∧ ∃ msg, adminRoutes castDecimal acceptAll acceptAll status500 parseAsIs noYoutubeId
                         pushAlwaysFails fakeHash acceptAll portal (payload r)
                         (PUT_user "u-root" makeTeacher) db'
             = (Err 403 msg, db').
Proof.
  eexists _, _.
  assert (updateUser castDecimal status500 fakeHash acceptAll "u-root" makeTeacher staffDB
          = (Ok _, _)) as H by (vm_compute; reflexivity).
  split; [exact H|]. split; [vm_compute; reflexivity|].
  destruct (X27_update_user_can_demote_the_last_admin castDecimal acceptAll acceptAll
              status500 parseAsIs noYoutubeId pushAlwaysFails fakeHash
              acceptAll "u-root" makeTeacher staffDB _ root teacher _
              ltac:(vm_compute; reflexivity) eq_refl ltac:(vm_compute; reflexivity)
              eq_refl eq_refl ltac:(discriminate) H)
    as (_ & Husers & Hzero & Hclosed).
  split; [exact Hzero|]. split; [vm_compute; reflexivity|].
  apply (Hclosed "u-root"). vm_compute. reflexivity.
Defined.



(** Dave has two unread messages in the study group and one in his chat
    with Alice; after he leaves the group only that one is counted. *)
Lemma X30_witness :
  ∃ r db1,
    leaveGroup status500 dave "g-1" busyDB = (Ok r, db1)
    ∧ (getUnreadCount dave busyDB).1
      = Ok (Respond 200 (Unread.mk 3 {[ "g-1" := 2%nat; "c-1" := 1%nat ]}))
    ∧ (getUnreadCount dave db1).1
      = Ok (Respond 200 (Unread.mk 1 {[ "c-1" := 1%nat ]})).
Proof.
  eexists _, _.
  assert (leaveGroup status500 dave "g-1" busyDB = (Ok _, _)) as H
    by (vm_compute; reflexivity).
  split; [exact H|]. split; [vm_compute; reflexivity|].
  destruct (X30_leaving_clears_unread status500 dave "g-1" busyDB _ _ H)
    as (_ & u & u1 & Hu & Hu1 & Hby & Htotal).
  rewrite Hu1. cbn [fst]. vm_compute in Hu. injection Hu as <-.
  destruct u1 as [t m]. cbn [Unread.unreadByChat Unread.totalUnread] in Hby, Htotal.
  subst m. change (t + 2 = 3)%nat in Htotal.
  do 3 f_equal. lia.
Defined.
